(** * The document ingestion pipeline of [universal_document_processor.py]

    A shallow embedding of [KBaseFaQs/universal_document_processor.py]:
    the type detector, the five format processors, the text chunker and the
    orchestrator [UniversalDocumentProcessor.process_file], followed by the
    properties of the pipeline.

    Conventions.
    - A Python [str] is a list of Unicode code points ([list N]), so that
      [len] counts what Python counts; [bytes] is [list byte].
    - A Python [int] is a [Z]; [len s] is [Z.of_nat (length s)].
    - The float literals 0.7, 0.8, 0.9, 0.95 and 1.0 of the confidence
      scores are kept as the rationals they denote.
    - Exceptions are values of [exn]; code that may raise returns a
      [result].  A processor's [process] runs in the monad [M], which
      threads the processor object, the [entries] list under construction
      and the log, and keeps them when an exception is raised, as the
      mutable Python objects do.
    - Everything the module obtains from outside (the file system, the
      codecs, pandas, pdfplumber, PyPDF2, python-docx, PIL, pytesseract,
      json, hashlib, the Unicode tables) is a field of the record [Env]. *)

From Stdlib Require Import QArith Strings.Byte.
From stdpp Require Import base numbers list gmap strings pretty.

Set Default Proof Using "Type".
Open Scope Z_scope.

(** ** Python strings *)

Abbreviation str := (list N) (only parsing).
Abbreviation bytes := (list byte) (only parsing).

Module Py.

Definition len {A} (l : list A) : Z := Z.of_nat (length l).

(** *** UTF-8, as the [utf-8] codec of CPython reads it

    [utf8_start] classifies a lead byte; a pending sequence remembers how
    many continuation bytes are still due and the range allowed for the
    next one (which excludes overlong forms, surrogates and code points
    above U+10FFFF). *)

Record pending := Pending { need : nat; acc : N; lo : N; hi : N }.

Inductive start := Emit (c : N) | Lead (p : pending) | Bad.

Definition utf8_start (b : N) : start :=
  (if b <? 0x80 then Emit b
   else if b <? 0xC2 then Bad
   else if b <? 0xE0 then Lead (Pending 1 (N.land b 0x1F) 0x80 0xBF)
   else if b =? 0xE0 then Lead (Pending 2 (N.land b 0x0F) 0xA0 0xBF)
   else if b =? 0xED then Lead (Pending 2 (N.land b 0x0F) 0x80 0x9F)
   else if b <? 0xF0 then Lead (Pending 2 (N.land b 0x0F) 0x80 0xBF)
   else if b =? 0xF0 then Lead (Pending 3 (N.land b 0x07) 0x90 0xBF)
   else if b <? 0xF4 then Lead (Pending 3 (N.land b 0x07) 0x80 0xBF)
   else if b =? 0xF4 then Lead (Pending 3 (N.land b 0x07) 0x80 0x8F)
   else Bad)%N.

(** [strict = true] is [errors='strict'] ([None] stands for
    [UnicodeDecodeError]); [strict = false] is [errors='ignore'], which
    drops the bytes of an ill-formed sequence and resumes at the byte
    that broke it. *)
Fixpoint utf8_go (strict : bool) (st : option pending) (bs : bytes)
    (out : str) : option str :=
  match bs with
  | [] =>
      match st with
      | None => Some (rev out)
      | Some _ => if strict then None else Some (rev out)
      end
  | b :: rest =>
      let fresh :=
        match utf8_start (Byte.to_N b) with
        | Emit c => utf8_go strict None rest (c :: out)
        | Lead p => utf8_go strict (Some p) rest out
        | Bad => if strict then None else utf8_go strict None rest out
        end in
      match st with
      | None => fresh
      | Some p =>
          let n := Byte.to_N b in
          if ((lo p <=? n) && (n <=? hi p))%N then
            let a := (acc p * 64 + N.land n 0x3F)%N in
            match need p with
            | S (S k) => utf8_go strict (Some (Pending (S k) a 0x80 0xBF)) rest out
            | _ => utf8_go strict None rest (a :: out)
            end
          else if strict then None else fresh
      end
  end.

Definition utf8_decode (bs : bytes) : option str := utf8_go true None bs [].

Definition utf8_decode_ignore (bs : bytes) : str :=
  default [] (utf8_go false None bs []).

(** A string literal of this file, read as the source file is (UTF-8). *)
Definition u (s : string) : str :=
  utf8_decode_ignore (String.list_byte_of_string s).

(** The characters the listing needs by code point. *)
Definition NL : N := 10.
Definition CR : N := 13.

(** *** Built-in operations on [str] *)

Definition eqb (s t : str) : bool := bool_decide (s = t).

Fixpoint startswith (s p : str) : bool :=
  match p, s with
  | [], _ => true
  | a :: p', b :: s' => (a =? b)%N && startswith s' p'
  | _ :: _, [] => false
  end.

(** [p in s] *)
Fixpoint contains (s p : str) : bool :=
  startswith s p ||
  match s with
  | [] => false
  | _ :: s' => contains s' p
  end.

(** [s.count(c)] for a one-character [c] *)
Definition count (s : str) (c : N) : Z :=
  len (filter (λ x, x = c) s).

(** [s[:n]] for a literal [n >= 0] *)
Definition slice_to (n : nat) (s : str) : str := take n s.

(** [str.isspace] on one character: the code points CPython's
    [str.strip()] removes. *)
Definition isspace (c : N) : bool :=
  ((9 <=? c) && (c <=? 13) || (28 <=? c) && (c <=? 32)
   || (c =? 0x85) || (c =? 0xA0) || (c =? 0x1680)
   || (0x2000 <=? c) && (c <=? 0x200A)
   || (c =? 0x2028) || (c =? 0x2029) || (c =? 0x202F)
   || (c =? 0x205F) || (c =? 0x3000))%N.

Fixpoint lstrip (s : str) : str :=
  match s with
  | c :: s' => if isspace c then lstrip s' else s
  | [] => []
  end.

Definition strip (s : str) : str := rev (lstrip (rev (lstrip s))).

(** [sep.join(parts)] *)
Fixpoint join (sep : str) (parts : list str) : str :=
  match parts with
  | [] => []
  | [p] => p
  | p :: ps => p ++ sep ++ join sep ps
  end.

(** [s.split(sep)] for a non-empty [sep]: the leftmost occurrences, not
    overlapping.  [skip] counts the characters of a separator just
    found that are still to be passed over; [cur] is the piece under
    construction, reversed. *)
Fixpoint split_go (sep : str) (skip : nat) (cur : str) (s : str) : list str :=
  match s with
  | [] => [rev cur]
  | c :: rest =>
      match skip with
      | S k => split_go sep k cur rest
      | O =>
          if startswith s sep
          then rev cur :: split_go sep (length sep - 1) [] rest
          else split_go sep O (c :: cur) rest
      end
  end.

Definition split (s sep : str) : list str := split_go sep O [] s.

(** [str(n)] for an [int] *)
Definition str_of_int (n : Z) : str := u (pretty n).

(** [enumerate(l)] *)
Definition enumerate {A} (l : list A) : list (Z * A) :=
  imap (λ i x, (Z.of_nat i, x)) l.

(** [list(set(l))].  Python leaves the order of the result unspecified;
    the model keeps the first occurrences in order, and nothing below
    depends on that order. *)
Definition list_set (l : list str) : list str := remove_dups l.

(** What a text-mode [open()] with the default [newline=None] does to
    the decoded text: CR LF and a lone CR both become LF. *)
Fixpoint universal_newlines (s : str) : str :=
  match s with
  | [] => []
  | c :: rest =>
      if (c =? CR)%N then
        NL :: match rest with
              | d :: rest' =>
                  if (d =? NL)%N then universal_newlines rest'
                  else universal_newlines rest
              | [] => []
              end
      else c :: universal_newlines rest
  end.

(** Truth of a string or list in a condition: it is not empty. *)
Definition truthy {A} (l : list A) : bool :=
  match l with [] => false | _ => true end.

End Py.

Import Py.

(** ** Exceptions, results and the processor monad *)

(** The exception classes the listing can meet; all derive from
    [Exception].  [LibraryError] stands for whatever a third-party library
    raises on a file it cannot read. *)
Inductive exn_class :=
  | NameError | ImportError | OSError | UnicodeDecodeError
  | AttributeError | TypeError | ValueError | LibraryError.

Record exn := Exn { exn_cls : exn_class; exn_msg : str }.

Inductive result (A : Type) :=
  | Ok (a : A)
  | Raise (e : exn).
Arguments Ok {A} a.
Arguments Raise {A} e.

#[global] Instance exn_class_eq_dec : EqDecision exn_class.
Proof. solve_decision. Defined.

(** A computation over a mutable state [S] that may raise; the state
    reached when the exception is raised is kept. *)
Definition M (S A : Type) : Type := S → S * result A.

#[global] Instance result_ret : MRet result := λ A a, Ok a.
#[global] Instance result_bind : MBind result := λ A B f r,
  match r with
  | Ok a => f a
  | Raise e => Raise e
  end.

#[global] Instance M_ret {S} : MRet (M S) := λ A a s, (s, Ok a).
#[global] Instance M_bind {S} : MBind (M S) := λ A B f m s,
  match m s with
  | (s', Ok a) => f a s'
  | (s', Raise e) => (s', Raise e)
  end.

Definition raise {S A} (e : exn) : M S A := λ s, (s, Raise e).
Definition lift {S A} (r : result A) : M S A := λ s, (s, r).
Definition gets {S A} (f : S → A) : M S A := λ s, (s, Ok (f s)).
Definition modify {S} (f : S → S) : M S () := λ s, (f s, Ok ()).

(** [try: body except Exception as e: handler e] *)
Definition try_except {S A} (body : M S A) (handler : exn → M S A) : M S A :=
  λ s, match body s with
       | (s', Ok a) => (s', Ok a)
       | (s', Raise e) => handler e s'
       end.

(** [try: body except cls: handler] for one exception class *)
Definition try_except_cls {S A} (cls : exn_class) (body : M S A)
    (handler : M S A) : M S A :=
  λ s, match body s with
       | (s', Raise e) =>
           if decide (exn_cls e = cls) then handler s' else (s', Raise e)
       | r => r
       end.

(** A loop that carries local variables [b] through its iterations *)
Fixpoint fold_m {S A B} (body : B → A → M S B) (l : list A) (b : B) : M S B :=
  match l with
  | [] => mret b
  | x :: l' => b' ← body b x; fold_m body l' b'
  end.

Fixpoint fold_r {A B} (body : B → A → result B) (l : list A) (b : B) : result B :=
  match l with
  | [] => Ok b
  | x :: l' => b' ← body b x; fold_r body l' b'
  end.

(** [for x in l: body x] *)
Fixpoint for_each {S A} (l : list A) (body : A → M S ()) : M S () :=
  match l with
  | [] => mret ()
  | x :: l' => body x ;; for_each l' body
  end.

(** ** The data model *)

Inductive DocumentType :=
  | EXCEL | WORD | PDF | POWERPOINT | IMAGE | TEXT
  | EMAIL | HTML | CODE | ARCHIVE | UNKNOWN.

#[global] Instance DocumentType_eq_dec : EqDecision DocumentType.
Proof. solve_decision. Defined.

(** [DocumentType.value] *)
Definition value (t : DocumentType) : str :=
  match t with
  | EXCEL => u "excel" | WORD => u "word" | PDF => u "pdf"
  | POWERPOINT => u "powerpoint" | IMAGE => u "image" | TEXT => u "text"
  | EMAIL => u "email" | HTML => u "html" | CODE => u "code"
  | ARCHIVE => u "archive" | UNKNOWN => u "unknown"
  end.

(** The values stored in the [metadata] dictionaries ([Dict[str, Any]]). *)
Inductive pyval :=
  | VNone
  | VBool (b : bool)
  | VInt (n : Z)
  | VStr (s : str).

Definition VOpt (o : option str) : pyval :=
  match o with Some s => VStr s | None => VNone end.

Module DocumentMetadata.
Record t := mk {
  file_name : str;
  file_path : str;
  file_size : Z;
  file_type : DocumentType;
  mime_type : str;
  created_date : option Z;
  modified_date : option Z;
  author : option str;
  title : option str;
  subject : option str;
  keywords : list str;
  language : option str;
  page_count : option Z;
  word_count : option Z;
  has_images : bool;
  has_tables : bool;
  has_attachments : bool;
  encoding : option str;
  checksum : str
}.

(** [metadata.encoding = e] *)
Definition set_encoding (e : option str) (m : t) : t :=
  mk (file_name m) (file_path m) (file_size m) (file_type m) (mime_type m)
     (created_date m) (modified_date m) (author m) (title m) (subject m)
     (keywords m) (language m) (page_count m) (word_count m)
     (has_images m) (has_tables m) (has_attachments m) e (checksum m).
End DocumentMetadata.

Module DocumentChunk.
Record t := mk {
  chunk_id : str;
  document_id : str;
  content : str;
  content_type : str;
  chunk_index : Z;
  total_chunks : Z;
  metadata : gmap string pyval;
  embedding_text : str
}.

(** [chunk.total_chunks = n] *)
Definition set_total_chunks (n : Z) (c : t) : t :=
  mk (chunk_id c) (document_id c) (content c) (content_type c)
     (chunk_index c) n (metadata c) (embedding_text c).
End DocumentChunk.

Module KnowledgeBaseEntry.
Record t := mk {
  uuid : str;
  title : str;
  content : str;
  summary : str;
  category : str;
  tags : list str;
  confidence_score : Q;
  source : str;
  document_type : str;
  metadata : gmap string pyval;
  chunks : list DocumentChunk.t;
  created_by : str;
  embedding_text : option str
}.
End KnowledgeBaseEntry.

(** ** What the libraries hand over *)

(** What [Path.stat()] returns. *)
Record Stat := {
  st_size : Z;
  st_ctime : Z;
  st_mtime : Z
}.

(** A pandas cell: missing ([NaN], [None], [NaT]) or a value, kept as
    its [str()] rendering. *)
Inductive Cell :=
  | CNull
  | CVal (rendering : str).

(** A column label: a string, or another object kept as its [str()]
    rendering (a numeric header cell). *)
Inductive Label :=
  | LStr (s : str)
  | LObj (rendering : str).

#[global] Instance Label_eq_dec : EqDecision Label.
Proof. solve_decision. Defined.

(** A sheet as [read_excel] finds it in the workbook: the header row and
    the data rows, each with one cell per column. *)
Record Sheet := {
  sh_columns : list Label;
  sh_rows : list (list Cell)
}.

(** A [DataFrame]: column labels, and the rows with their index labels;
    every row holds one cell per column. *)
Record DataFrame := {
  df_columns : list Label;
  df_rows : list (Z * list Cell)
}.

(** A page as pdfplumber gives it: [extract_text()] returns a string or
    [None], [extract_tables()] a list of tables whose cells are strings
    or [None]; either call may raise. *)
Record PlumberPage := {
  pl_extract_text : result (option str);
  pl_extract_tables : result (list (list (list (option str))))
}.

(** A page as PyPDF2 gives it. *)
Record PyPDF2Page := {
  py_extract_text : result str
}.

(** A python-docx document: the paragraphs' texts, the tables as rows of
    cell texts, and the number of inline shapes. *)
Record Docx := {
  doc_paragraphs : list str;
  doc_tables : list (list (list str));
  doc_inline_shapes : nat
}.

(** A PIL image. *)
Record Image := {
  img_width : Z;
  img_height : Z;
  img_format : option str;
  img_mode : str;
  img_pixels : bytes
}.

Record Env := {
  (** os, pathlib, mimetypes, hashlib *)
  stat : str → result Stat;
  open_rb : str → result bytes;
  absolute : str → result str;
  guess_type : str → option str;
  (** [datetime.fromtimestamp]: the local time of a timestamp, kept as
      the timestamp; it raises on a time outside the years a [datetime]
      holds *)
  fromtimestamp : Z → result Z;
  sha256_hexdigest : bytes → str;
  (** the Unicode tables: [str.lower], and the class [\d] of [re] *)
  lower : str → str;
  re_digit : N → bool;
  (** codecs: [bytes.decode(encoding)], [None] for [UnicodeDecodeError];
      and [bytes.decode('utf-8', errors='ignore')] *)
  decode : string → bytes → option str;
  decode_ignore : bytes → str;
  (** json: whether [json.loads] accepts the text *)
  json_loads_ok : str → bool;
  (** pandas *)
  pandas_installed : bool;
  read_excel : str → result (list (str * Sheet));
  to_string : DataFrame → str;
  (** pdfplumber and PyPDF2 *)
  pdfplumber_installed : bool;
  PyPDF2_installed : bool;
  PDF_open : str → result (list PlumberPage);
  PdfReader : bytes → result (list PyPDF2Page);
  (** python-docx *)
  docx_installed : bool;
  Document : str → result Docx;
  (** PIL and pytesseract *)
  PIL_installed : bool;
  pytesseract_installed : bool;
  Image_open : str → result Image;
  image_to_string : Image → result str
}.

(** ** pathlib (POSIX flavour) *)

Module Path.

(** [s.rfind(c)], [-1] when [c] does not occur *)
Definition rfind (s : str) (c : N) : Z :=
  match last (filter (λ p, p.2 = c) (enumerate s)) with
  | Some p => p.1
  | None => -1
  end.

(** [Path(p).name]: the last component, empty and [.] components
    dropped; empty when there is none. *)
Definition name (p : str) : str :=
  default []
    (last (filter (λ x, x ≠ [] ∧ x ≠ u ".") (split p (u "/")))).

(** [Path(p).suffix]: the name from its last dot on, when that dot is
    neither the first nor the last character of the name. *)
Definition suffix (p : str) : str :=
  let nm := name p in
  let i := rfind nm 46%N in
  if bool_decide (0 < i < len nm - 1) then drop (Z.to_nat i) nm else [].

End Path.

(** ** [DocumentTypeDetector] *)

Module DocumentTypeDetector.

Definition EXTENSION_MAP : gmap str DocumentType :=
  list_to_map [
    (u ".xlsx", EXCEL); (u ".xls", EXCEL); (u ".xlsm", EXCEL);
    (u ".csv", EXCEL); (u ".tsv", EXCEL);
    (u ".docx", WORD); (u ".doc", WORD); (u ".rtf", WORD); (u ".odt", WORD);
    (u ".pdf", PDF);
    (u ".pptx", POWERPOINT); (u ".ppt", POWERPOINT); (u ".odp", POWERPOINT);
    (u ".jpg", IMAGE); (u ".jpeg", IMAGE); (u ".png", IMAGE);
    (u ".gif", IMAGE); (u ".bmp", IMAGE); (u ".tiff", IMAGE);
    (u ".tif", IMAGE); (u ".webp", IMAGE);
    (u ".txt", TEXT); (u ".md", TEXT); (u ".markdown", TEXT);
    (u ".log", TEXT); (u ".json", TEXT); (u ".xml", TEXT);
    (u ".yaml", TEXT); (u ".yml", TEXT); (u ".ini", TEXT);
    (u ".cfg", TEXT); (u ".conf", TEXT);
    (u ".eml", EMAIL); (u ".msg", EMAIL); (u ".mbox", EMAIL);
    (u ".html", HTML); (u ".htm", HTML); (u ".xhtml", HTML);
    (u ".py", CODE); (u ".js", CODE); (u ".java", CODE); (u ".c", CODE);
    (u ".cpp", CODE); (u ".cs", CODE); (u ".php", CODE); (u ".rb", CODE);
    (u ".go", CODE); (u ".rs", CODE); (u ".swift", CODE); (u ".kt", CODE);
    (u ".scala", CODE); (u ".r", CODE); (u ".sql", CODE); (u ".sh", CODE);
    (u ".bat", CODE); (u ".ps1", CODE);
    (u ".zip", ARCHIVE); (u ".rar", ARCHIVE); (u ".7z", ARCHIVE);
    (u ".tar", ARCHIVE); (u ".gz", ARCHIVE); (u ".bz2", ARCHIVE)
  ].

Definition detect (env : Env) (file_path : str) : DocumentType :=
  let ext := lower env (Path.suffix file_path) in
  default UNKNOWN (EXTENSION_MAP !! ext).

End DocumentTypeDetector.

(** ** Logging *)

Inductive level := INFO | WARNING | ERROR.

Definition Log := list (level * str).

(** ** [BaseProcessor] *)

Module BaseProcessor.

Record t := mk {
  file_path : str;
  file_name : str;
  metadata : DocumentMetadata.t
}.

Definition set_metadata (m : DocumentMetadata.t) (self : t) : t :=
  mk (file_path self) (file_name self) m.

Definition _calculate_checksum (env : Env) (file_path : str) : result str :=
  match open_rb env file_path with
  | Ok data => Ok (sha256_hexdigest env data)
  | Raise e => Raise e
  end.

(** The arguments of [DocumentMetadata(...)] are evaluated in the order
    they are written, after [path.stat()]: the absolute path, the two
    times, and last the checksum, which opens the file.  Each of these
    may raise. *)
Definition _extract_metadata (env : Env) (file_path file_name : str)
    : result DocumentMetadata.t :=
  match stat env file_path with
  | Raise e => Raise e
  | Ok st =>
  match absolute env file_path with
  | Raise e => Raise e
  | Ok absolute_path =>
  match fromtimestamp env (st_ctime st) with
  | Raise e => Raise e
  | Ok created_date =>
  match fromtimestamp env (st_mtime st) with
  | Raise e => Raise e
  | Ok modified_date =>
  match _calculate_checksum env file_path with
  | Raise e => Raise e
  | Ok sum =>
      Ok (DocumentMetadata.mk
            file_name
            absolute_path
            (st_size st)
            (DocumentTypeDetector.detect env file_path)
            (default (u "application/octet-stream")
               (guess_type env file_path))
            (Some created_date)
            (Some modified_date)
            None None None [] None None None
            false false false
            None
            sum)
  end end end end end.

Definition __init__ (env : Env) (file_path : str) : result t :=
  let file_name := Path.name file_path in
  match _extract_metadata env file_path file_name with
  | Ok m => Ok (mk file_path file_name m)
  | Raise e => Raise e
  end.

End BaseProcessor.

(** The state a [process] call works on: the processor object, the list
    [entries] it builds, and the log. *)
Record PS := mkPS {
  self : BaseProcessor.t;
  entries : list KnowledgeBaseEntry.t;
  log : Log
}.

Definition append (e : KnowledgeBaseEntry.t) : M PS () :=
  modify (λ s, mkPS (self s) (entries s ++ [e]) (log s)).

Definition append_opt (e : option KnowledgeBaseEntry.t) : M PS () :=
  match e with
  | Some e => append e
  | None => mret ()
  end.

Definition logger (lv : level) (msg : str) : M PS () :=
  modify (λ s, mkPS (self s) (entries s) (log s ++ [(lv, msg)])).

Definition set_encoding (e : str) : M PS () :=
  modify (λ s,
    mkPS (BaseProcessor.set_metadata
            (DocumentMetadata.set_encoding (Some e)
               (BaseProcessor.metadata (self s)))
            (self s))
         (entries s) (log s)).

(** [import m], for a module that may be missing *)
Definition import_ {S} (installed : bool) (m : string) : M S () :=
  if installed then mret ()
  else raise (Exn ImportError (u "No module named '" ++ u m ++ u "'")).

(** A processor class: its [process] method ([__init__] is
    [BaseProcessor]'s for all of them). *)
Definition ProcessorClass := Env → M PS (list KnowledgeBaseEntry.t).

(** ** [TextProcessor] *)

Module TextProcessor.

Definition _detect_content_type (env : Env) (content : str) : str :=
  if (startswith (strip content) (u "{") || startswith (strip content) (u "["))
     && json_loads_ok env content
  then u "JSON"
  else if startswith (strip content) (u "<") then
    if contains (lower env content) (u "<html") then u "HTML" else u "XML"
  else if startswith content (u "---")
          || contains (slice_to 100 content) (u ": ")
  then u "YAML"
  else if existsb (contains content)
            [u "# "; u "## "; u "```"; u "[]("; u "![]("]
  then u "Markdown"
  else if existsb (contains content)
            [u "import "; u "function "; u "class "; u "def ";
             u "SELECT "; u "CREATE TABLE"]
  then u "Code"
  else if existsb (contains (slice_to 1000 (lower env content)))
            [u "error"; u "warning"; u "info"; u "debug"; u "trace"]
  then u "Log"
  else u "Text".

(** The [DocumentChunk(...)] both [append] calls of
    [_create_text_chunks] build, up to [total_chunks]. *)
Definition new_chunk (self : BaseProcessor.t) (current_chunk : str)
    (chunk_index total_chunks : Z) : DocumentChunk.t :=
  DocumentChunk.mk
    (u "chunk_" ++ str_of_int chunk_index)
    (DocumentMetadata.checksum (BaseProcessor.metadata self))
    current_chunk
    (u "text")
    chunk_index
    total_chunks
    {[ "size"%string := VInt (len current_chunk) ]}
    current_chunk.

(** The local variables of [_create_text_chunks]. *)
Record locals := Locals {
  chunks : list DocumentChunk.t;
  current_chunk : str;
  chunk_index : Z
}.

(** One iteration of [for para in paragraphs]. *)
Definition para_step (self : BaseProcessor.t) (chunk_size : Z)
    (v : locals) (para : str) : locals :=
  if bool_decide (len (current_chunk v) + len para < chunk_size) then
    Locals (chunks v) (current_chunk v ++ para ++ [NL; NL]) (chunk_index v)
  else if truthy (current_chunk v) then
    Locals (chunks v ++ [new_chunk self (current_chunk v) (chunk_index v) 0])
           (para ++ [NL; NL])
           (chunk_index v + 1)
  else
    Locals (chunks v) (para ++ [NL; NL]) (chunk_index v).

Definition _create_text_chunks (self : BaseProcessor.t) (content : str)
    (chunk_size : Z) : list DocumentChunk.t :=
  let paragraphs := split content [NL; NL] in
  let v := foldl (para_step self chunk_size) (Locals [] [] 0) paragraphs in
  let chunks :=
    if truthy (current_chunk v) then
      chunks v ++ [new_chunk self (current_chunk v) (chunk_index v)
                     (len (chunks v) + 1)]
    else chunks v in
  map (DocumentChunk.set_total_chunks (len chunks)) chunks.

Definition _extract_text_tags (env : Env) (content content_type : str)
    : list str :=
  let mainframe_keywords :=
    [u "mainframe"; u "cobol"; u "jcl"; u "cics"; u "db2"; u "ims";
     u "vsam"; u "rexx"; u "racf"; u "tso"; u "ispf"; u "sdsf";
     u "sort"; u "idcams"] in
  let content_lower := lower env content in
  list_set ([lower env content_type]
            ++ filter (λ keyword, contains content_lower keyword = true)
                 mainframe_keywords).

Definition encodings : list string :=
  ["utf-8"; "latin-1"; "cp1252"; "iso-8859-1"]%string.

(** [with open(self.file_path, 'r', encoding=encoding) as f: f.read()] *)
Definition read_text (env : Env) (file_path : str) (encoding : string)
    : M PS str :=
  data ← lift (open_rb env file_path);
  match decode env encoding data with
  | Some s => mret (universal_newlines s)
  | None => raise (Exn UnicodeDecodeError (u encoding))
  end.

(** [for encoding in encodings: try: ... break except UnicodeDecodeError:
    continue]; the result is the value of [content] after the loop. *)
Fixpoint try_encodings (env : Env) (file_path : str) (encs : list string)
    : M PS (option str) :=
  match encs with
  | [] => mret None
  | encoding :: rest =>
      r ← try_except_cls UnicodeDecodeError
            (content ← read_text env file_path encoding;
             set_encoding (u encoding);;
             mret (Some content))
            (mret None);
      match r with
      | Some content => mret (Some content)
      | None => try_encodings env file_path rest
      end
  end.

(** The statements up to [content_type = ...]: the value of [content]. *)
Definition read_content (env : Env) : M PS str :=
  file_path ← gets (λ s, BaseProcessor.file_path (self s));
  content ← try_encodings env file_path encodings;
  match content with
  | Some content => mret content
  | None =>
      data ← lift (open_rb env file_path);
      mret (decode_ignore env data)
  end.

Definition process : ProcessorClass := λ env,
  modify (λ s, mkPS (self s) [] (log s));;
  try_except
    (content ← read_content env;
     let content_type := _detect_content_type env content in
     me ← gets self;
     let chunks :=
       if bool_decide (len content > 10000)
       then _create_text_chunks me content 5000
       else [] in
     let metadata : gmap string pyval :=
       list_to_map [
         ("lines"%string, VInt (count content NL + 1));
         ("characters"%string, VInt (len content));
         ("encoding"%string,
          VOpt (DocumentMetadata.encoding (BaseProcessor.metadata me)));
         ("content_type"%string, VStr content_type)
       ] in
     append (KnowledgeBaseEntry.mk
       (DocumentMetadata.checksum (BaseProcessor.metadata me))
       (u "[" ++ content_type ++ u "] " ++ BaseProcessor.file_name me)
       content
       (slice_to 1000 content)
       content_type
       (_extract_text_tags env content content_type)
       0.95
       (BaseProcessor.file_name me)
       (u "text")
       metadata
       chunks
       (u "auto_import")
       None))
    (λ e,
       me ← gets self;
       logger ERROR (u "Erro ao processar texto "
                     ++ BaseProcessor.file_name me ++ u ": " ++ exn_msg e));;
  gets entries.

End TextProcessor.

(** ** pandas, as far as [ExcelProcessor] uses it *)

Module pd.

(** The frame of a sheet: [read_excel] labels the data rows 0, 1, 2, ...
    (a [RangeIndex]). *)
Definition frame (sheet : Sheet) : DataFrame :=
  {| df_columns := sh_columns sheet; df_rows := enumerate (sh_rows sheet) |}.

(** [pd.read_excel(path, sheet_name=None, engine='openpyxl')]: the
    frames of all sheets, by name. *)
Definition read_excel (env : Env) (path : str)
    : result (list (str * DataFrame)) :=
  sheets ← read_excel env path;
  Ok (map (λ sheet, (sheet.1, frame sheet.2)) sheets).

(** [pd.notna(value)] *)
Definition notna (value : Cell) : bool :=
  match value with CNull => false | CVal _ => true end.

(** [str(value)] *)
Definition cell_str (value : Cell) : str :=
  match value with CNull => u "nan" | CVal s => s end.

(** [str(col)] *)
Definition label_str (col : Label) : str :=
  match col with LStr s => s | LObj s => s end.

Fixpoint select {A} (keep : list bool) (l : list A) : list A :=
  match keep, l with
  | k :: keep', x :: l' => if k then x :: select keep' l' else select keep' l'
  | _, _ => []
  end.

(** [df.dropna(how='all')]: the rows that hold a value somewhere. *)
Definition dropna_rows (df : DataFrame) : DataFrame :=
  {| df_columns := df_columns df;
     df_rows := filter (λ r, existsb notna r.2 = true) (df_rows df) |}.

(** [df.dropna(axis=1, how='all')]: the columns that hold a value in
    some row. *)
Definition dropna_columns (df : DataFrame) : DataFrame :=
  let keep :=
    imap (λ j _, existsb (λ r, notna (default CNull (r.2 !! j))) (df_rows df))
         (df_columns df) in
  {| df_columns := select keep (df_columns df);
     df_rows := map (λ r, (r.1, select keep r.2)) (df_rows df) |}.

(** [df.empty] *)
Definition empty (df : DataFrame) : bool :=
  match df_columns df, df_rows df with
  | _ :: _, _ :: _ => false
  | _, _ => true
  end.

(** [df.iterrows()]: the index label of each row and the row as a
    series over the column labels. *)
Definition iterrows (df : DataFrame) : list (Z * list (Label * Cell)) :=
  map (λ r, (r.1, zip (df_columns df) r.2)) (df_rows df).

(** [row.get(col)]; a label the series lacks gives [None], which
    [notna] treats as a missing cell. *)
Definition get (row : list (Label * Cell)) (col : Label) : Cell :=
  match list_find (λ p, p.1 = col) row with
  | Some (_, p) => p.2
  | None => CNull
  end.

(** [df.head(n)] *)
Definition head (n : nat) (df : DataFrame) : DataFrame :=
  {| df_columns := df_columns df; df_rows := take n (df_rows df) |}.

End pd.

(** ** The names bound at module level

    The imports, classes and functions [universal_document_processor.py]
    defines at its top level.  A name a function body reads that is neither
    local to the function nor in this list nor built in raises
    [NameError].  [pandas] is imported inside [ExcelProcessor.process]
    only, so [pd] is a local of that method and is not in the list. *)
Definition module_globals : list string :=
  ["os"; "sys"; "json"; "hashlib"; "re"; "mimetypes"; "base64"; "datetime";
   "List"; "Dict"; "Any"; "Optional"; "Tuple"; "Union"; "Path"; "logging";
   "dataclass"; "asdict"; "Enum"; "logger";
   "DocumentType"; "DocumentMetadata"; "DocumentChunk"; "KnowledgeBaseEntry";
   "DocumentTypeDetector"; "BaseProcessor"; "ExcelProcessor"; "PDFProcessor";
   "WordProcessor"; "ImageProcessor"; "TextProcessor";
   "UniversalDocumentProcessor"; "main"]%string.

(** Reading the global [name]. *)
Definition load_global (globals : list string) (name : string) : result () :=
  if bool_decide (name ∈ globals) then Ok ()
  else Raise (Exn NameError (u "name '" ++ u name ++ u "' is not defined")).

(** ** [ExcelProcessor] *)

Module ExcelProcessor.

Definition _extract_tags (env : Env) (content : str) : list str :=
  let keywords :=
    [u "CICS"; u "DB2"; u "IMS"; u "COBOL"; u "JCL"; u "VSAM";
     u "Mainframe"; u "Batch"; u "Online"] in
  list_set
    (map (lower env)
       (filter (λ keyword,
                  contains (lower env content) (lower env keyword) = true)
               keywords)).

(** One iteration of [for col in columns] of [_create_entry_from_row];
    the locals are [title_parts] and [content_parts]. *)
Definition col_step (globals : list string) (env : Env)
    (row : list (Label * Cell)) (parts : list str * list str) (col : Label)
    : result (list str * list str) :=
  let value := pd.get row col in
  load_global globals "pd";;
  if pd.notna value && truthy (strip (pd.cell_str value)) then
    let value_str := strip (pd.cell_str value) in
    match col with
    | LObj _ =>
        Raise (Exn AttributeError (u "object has no attribute 'lower'"))
    | LStr c =>
        let title_parts :=
          if existsb (contains (lower env c))
               [u "nome"; u "name"; u "título"; u "title"; u "id";
                u "código"; u "code"]
          then parts.1 ++ [value_str] else parts.1 in
        Ok (title_parts, parts.2 ++ [c ++ u ": " ++ value_str])
    end
  else Ok parts.

Definition _create_entry_from_row (globals : list string) (env : Env)
    (self : BaseProcessor.t) (row : list (Label * Cell))
    (columns : list Label) (sheet_name : str) (row_index : Z)
    : result (option KnowledgeBaseEntry.t) :=
  parts ← fold_r (col_step globals env row) columns ([], []);
  let '(title_parts, content_parts) := parts in
  if negb (truthy content_parts) then Ok None
  else
    let title :=
      if truthy title_parts
      then join (u " - ") (take 3 title_parts)
      else u "Linha " ++ str_of_int (row_index + 1) ++ u " de " ++ sheet_name in
    let content := join [NL] content_parts in
    let metadata : gmap string pyval :=
      list_to_map [("sheet"%string, VStr sheet_name);
                   ("row"%string, VInt row_index)] in
    let checksum := DocumentMetadata.checksum (BaseProcessor.metadata self) in
    let chunk :=
      DocumentChunk.mk
        (sheet_name ++ u "_" ++ str_of_int row_index)
        checksum
        content
        (u "table_row")
        row_index
        (len columns)
        metadata
        content in
    Ok (Some (KnowledgeBaseEntry.mk
      (checksum ++ u "_" ++ sheet_name ++ u "_" ++ str_of_int row_index)
      (u "[Excel] " ++ title)
      content
      (slice_to 500 content)
      (u "Spreadsheet Data")
      (_extract_tags env content)
      0.8
      (BaseProcessor.file_name self)
      (u "excel")
      metadata
      [chunk]
      (u "auto_import")
      None)).

(** [', '.join(labels)], which accepts strings only *)
Definition join_labels (labels : list Label) : result str :=
  strs ← fold_r (λ acc col,
                   match col with
                   | LStr s => Ok (acc ++ [s])
                   | LObj _ =>
                       Raise (Exn TypeError (u "sequence item: expected str instance"))
                   end) labels [];
  Ok (join (u ", ") strs).

Definition _create_entry_from_sheet (env : Env) (self : BaseProcessor.t)
    (df : DataFrame) (sheet_name : str)
    : result (option KnowledgeBaseEntry.t) :=
  if pd.empty df then Ok None
  else
    cols ← join_labels (take 10 (df_columns df));
    let summary_parts :=
      [u "Sheet: " ++ sheet_name;
       u "Linhas: " ++ str_of_int (len (df_rows df));
       u "Colunas: " ++ str_of_int (len (df_columns df));
       u "Colunas: " ++ cols] in
    let content :=
      join [NL] summary_parts
      ++ [NL; NL] ++ u "Amostra de dados:" ++ [NL]
      ++ to_string env (pd.head 10 df) in
    let checksum := DocumentMetadata.checksum (BaseProcessor.metadata self) in
    Ok (Some (KnowledgeBaseEntry.mk
      (checksum ++ u "_" ++ sheet_name ++ u "_sheet")
      (u "[Excel Sheet] " ++ sheet_name ++ u " - " ++ BaseProcessor.file_name self)
      content
      (join (u " | ") summary_parts)
      (u "Spreadsheet")
      [sheet_name; u "excel"; u "tabela"]
      0.9
      (BaseProcessor.file_name self)
      (u "excel_sheet")
      (list_to_map [("total_rows"%string, VInt (len (df_rows df)));
                    ("total_cols"%string, VInt (len (df_columns df)))])
      []
      (u "auto_import")
      None)).

(** The body of [for sheet_name, df in all_sheets.items()]. *)
Definition sheet_body (globals : list string) (env : Env)
    (sheet : str * DataFrame) : M PS () :=
  let '(sheet_name, df) := sheet in
  let df := pd.dropna_columns (pd.dropna_rows df) in
  if pd.empty df then mret ()
  else
    me ← gets self;
    for_each (pd.iterrows df) (λ '(idx, row),
      entry ← lift (_create_entry_from_row globals env me row
                      (df_columns df) sheet_name idx);
      append_opt entry);;
    sheet_entry ← lift (_create_entry_from_sheet env me df sheet_name);
    append_opt sheet_entry.

(** [process], with the module's global names as a parameter. *)
Definition process_in (globals : list string) : ProcessorClass := λ env,
  import_ (pandas_installed env) "pandas";;
  modify (λ s, mkPS (self s) [] (log s));;
  try_except
    (me ← gets self;
     all_sheets ← lift (pd.read_excel env (BaseProcessor.file_path me));
     for_each all_sheets (sheet_body globals env))
    (λ e,
       me ← gets self;
       logger ERROR (u "Erro ao processar Excel "
                     ++ BaseProcessor.file_name me ++ u ": " ++ exn_msg e));;
  gets entries.

Definition process : ProcessorClass := process_in module_globals.

End ExcelProcessor.

(** ** [PDFProcessor] *)

Module PDFProcessor.

Definition _extract_pdf_tags (env : Env) (content : str) : list str :=
  let keywords :=
    [u "manual"; u "guide"; u "tutorial"; u "specification";
     u "documentation"] in
  list_set
    ([u "pdf"; u "documento"]
     ++ filter (λ keyword, contains (lower env content) keyword = true)
          keywords).

(** [str(cell) for cell in row if cell] *)
Definition row_cells (row : list (option str)) : list str :=
  omap (λ cell, match cell with
                | Some s => if truthy s then Some s else None
                | None => None
                end) row.

Definition _create_table_entry (self : BaseProcessor.t)
    (table : list (list (option str))) (index : Z)
    : option KnowledgeBaseEntry.t :=
  if negb (truthy table) || bool_decide (len table < 2) then None
  else
    let content :=
      foldl (λ content row, content ++ join (u " | ") (row_cells row) ++ [NL])
            (u "Tabela extraída:" ++ [NL]) table in
    Some (KnowledgeBaseEntry.mk
      (DocumentMetadata.checksum (BaseProcessor.metadata self)
       ++ u "_table_" ++ str_of_int index)
      (u "[Tabela PDF] Tabela " ++ str_of_int (index + 1) ++ u " de "
       ++ BaseProcessor.file_name self)
      content
      (u "Tabela com " ++ str_of_int (len table) ++ u " linhas e "
       ++ str_of_int (len (default [] (head table))) ++ u " colunas")
      (u "Table")
      [u "tabela"; u "pdf"; u "dados"]
      0.8
      (BaseProcessor.file_name self)
      (u "pdf_table")
      (list_to_map [("table_index"%string, VInt index);
                    ("rows"%string, VInt (len table))])
      []
      (u "auto_import")
      None).

(** The text block of page [i] (counted from 0). *)
Definition page_block (i : Z) (text : str) : str :=
  u "--- Página " ++ str_of_int (i + 1) ++ u " ---" ++ [NL] ++ text.

(** One iteration of [for i, page in enumerate(pdf.pages)]; the locals
    are [all_text] and [tables]. *)
Definition plumber_page (v : list str * list (list (list (option str))))
    (p : Z * PlumberPage) : M PS (list str * list (list (list (option str)))) :=
  let '(i, page) := p in
  text ← lift (pl_extract_text page);
  let all_text :=
    match text with
    | Some text => if truthy text then v.1 ++ [page_block i text] else v.1
    | None => v.1
    end in
  page_tables ← lift (pl_extract_tables page);
  mret (all_text, v.2 ++ page_tables).

(** The [DocumentChunk] of one element of [all_text]. *)
Definition page_chunk (self : BaseProcessor.t) (total : Z)
    (p : Z * str) : DocumentChunk.t :=
  let '(i, page_text) := p in
  DocumentChunk.mk
    (u "page_" ++ str_of_int i)
    (DocumentMetadata.checksum (BaseProcessor.metadata self))
    page_text
    (u "text")
    i
    total
    {[ "page"%string := VInt (i + 1) ]}
    page_text.

(** The block under [with PDF.open(self.file_path) as pdf]. *)
Definition with_pdfplumber (env : Env) : M PS () :=
  me ← gets self;
  pages ← lift (PDF_open env (BaseProcessor.file_path me));
  v ← fold_m plumber_page (enumerate pages) ([], []);
  let '(all_text, tables) := v in
  let content := join [NL; NL] all_text in
  let chunks := map (page_chunk me (len all_text)) (enumerate all_text) in
  append (KnowledgeBaseEntry.mk
    (DocumentMetadata.checksum (BaseProcessor.metadata me))
    (u "[PDF] " ++ BaseProcessor.file_name me)
    content
    (slice_to 1000 content)
    (u "Document")
    (_extract_pdf_tags env content)
    0.9
    (BaseProcessor.file_name me)
    (u "pdf")
    (list_to_map [("pages"%string, VInt (len pages));
                  ("has_tables"%string, VBool (bool_decide (len tables > 0)))])
    chunks
    (u "auto_import")
    None);;
  for_each (enumerate tables) (λ p,
    append_opt (_create_table_entry me p.2 p.1)).

(** One iteration of [for i, page in enumerate(pdf_reader.pages)]. *)
Definition pypdf2_page (all_text : list str) (p : Z * PyPDF2Page)
    : M PS (list str) :=
  let '(i, page) := p in
  text ← lift (py_extract_text page);
  mret (if truthy text then all_text ++ [page_block i text] else all_text).

(** The handler of the inner [try]: the PyPDF2 strategy. *)
Definition with_PyPDF2 (env : Env) (e : exn) : M PS () :=
  logger WARNING (u "pdfplumber falhou, tentando PyPDF2: " ++ exn_msg e);;
  me ← gets self;
  file ← lift (open_rb env (BaseProcessor.file_path me));
  pages ← lift (PdfReader env file);
  all_text ← fold_m pypdf2_page (enumerate pages) [];
  let content := join [NL; NL] all_text in
  append (KnowledgeBaseEntry.mk
    (DocumentMetadata.checksum (BaseProcessor.metadata me))
    (u "[PDF] " ++ BaseProcessor.file_name me)
    content
    (slice_to 1000 content)
    (u "Document")
    [u "pdf"]
    0.7
    (BaseProcessor.file_name me)
    (u "pdf")
    {[ "pages"%string := VInt (len pages) ]}
    []
    (u "auto_import")
    None).

Definition process : ProcessorClass := λ env,
  modify (λ s, mkPS (self s) [] (log s));;
  try_except
    (import_ (PyPDF2_installed env) "PyPDF2";;
     import_ (pdfplumber_installed env) "pdfplumber";;
     try_except (with_pdfplumber env) (with_PyPDF2 env))
    (λ e,
       me ← gets self;
       logger ERROR (u "Erro ao processar PDF "
                     ++ BaseProcessor.file_name me ++ u ": " ++ exn_msg e));;
  gets entries.

End PDFProcessor.

(** ** [WordProcessor] *)

Module WordProcessor.

(** A character of the class [[A-Z\d#]]. *)
Definition heading_char (env : Env) (c : N) : bool :=
  ((65 <=? c) && (c <=? 90))%N || re_digit env c || (c =? 35)%N.

(** [re.split(r'\n(?=[A-Z\d#]{3,})', s)]: cut at every newline that
    three heading characters follow; the newline goes, the characters
    stay.  [cur] is the piece under construction, reversed. *)
Fixpoint split_sections (env : Env) (cur : str) (s : str) : list str :=
  match s with
  | [] => [rev cur]
  | c :: rest =>
      if (c =? NL)%N && bool_decide (length (take 3 rest) = 3%nat)
         && forallb (heading_char env) (take 3 rest)
      then rev cur :: split_sections env [] rest
      else split_sections env (c :: cur) rest
  end.

Definition _create_chunks_from_content (env : Env) (self : BaseProcessor.t)
    (content : str) : list DocumentChunk.t :=
  let sections := split_sections env [] content in
  omap (λ '(i, section),
          if truthy (strip section) then
            Some (DocumentChunk.mk
                    (u "section_" ++ str_of_int i)
                    (DocumentMetadata.checksum (BaseProcessor.metadata self))
                    section
                    (u "text")
                    i
                    (len sections)
                    {[ "section"%string := VInt i ]}
                    section)
          else None)
       (enumerate sections).

Definition _extract_word_tags (env : Env) (content : str) : list str :=
  let doc_types :=
    [(u "manual", [u "manual"; u "instruções"; u "instructions"]);
     (u "relatório", [u "relatório"; u "report"; u "análise"]);
     (u "procedimento", [u "procedimento"; u "procedure"; u "processo"]);
     (u "política", [u "política"; u "policy"; u "norma"])] in
  let content_lower := lower env content in
  list_set
    ([u "word"; u "documento"]
     ++ map fst
          (filter (λ p, existsb (contains content_lower) p.2 = true)
                  doc_types)).

Definition process : ProcessorClass := λ env,
  modify (λ s, mkPS (self s) [] (log s));;
  try_except
    (import_ (docx_installed env) "docx";;
     me ← gets self;
     doc ← lift (Document env (BaseProcessor.file_path me));
     let paragraphs :=
       filter (λ text, truthy (strip text) = true) (doc_paragraphs doc) in
     let tables_text :=
       omap (λ table,
               let table_data :=
                 omap (λ row,
                         let row_data := map strip row in
                         if existsb truthy row_data
                         then Some (join (u " | ") row_data) else None)
                      table in
               if truthy table_data then Some (join [NL] table_data)
               else None)
            (doc_tables doc) in
     let content :=
       join [NL; NL] paragraphs
       ++ (if truthy tables_text
           then [NL; NL] ++ u "--- Tabelas ---" ++ [NL; NL]
                ++ join [NL; NL] tables_text
           else []) in
     let chunks := _create_chunks_from_content env me content in
     let metadata : gmap string pyval :=
       list_to_map [
         ("paragraphs"%string, VInt (len paragraphs));
         ("tables"%string, VInt (len (doc_tables doc)));
         ("has_images"%string,
          VBool (bool_decide (Z.of_nat (doc_inline_shapes doc) > 0)))
       ] in
     append (KnowledgeBaseEntry.mk
       (DocumentMetadata.checksum (BaseProcessor.metadata me))
       (u "[Word] " ++ BaseProcessor.file_name me)
       content
       (slice_to 1000 content)
       (u "Document")
       (_extract_word_tags env content)
       0.9
       (BaseProcessor.file_name me)
       (u "word")
       metadata
       chunks
       (u "auto_import")
       None))
    (λ e,
       me ← gets self;
       logger ERROR (u "Erro ao processar Word "
                     ++ BaseProcessor.file_name me ++ u ": " ++ exn_msg e));;
  gets entries.

End WordProcessor.

(** ** [ImageProcessor] *)

Module ImageProcessor.

(** [f"{img.format}"] *)
Definition format_str (img : Image) : str :=
  default (u "None") (img_format img).

Definition process : ProcessorClass := λ env,
  modify (λ s, mkPS (self s) [] (log s));;
  try_except
    (import_ (PIL_installed env) "PIL";;
     import_ (pytesseract_installed env) "pytesseract";;
     me ← gets self;
     img ← lift (Image_open env (BaseProcessor.file_path me));
     text ← lift (image_to_string env img);
     let metadata : gmap string pyval :=
       list_to_map [
         ("width"%string, VInt (img_width img));
         ("height"%string, VInt (img_height img));
         ("format"%string, VOpt (img_format img));
         ("mode"%string, VStr (img_mode img));
         ("has_text"%string, VBool (bool_decide (len (strip text) > 0)))
       ] in
     (if truthy (strip text) then
        let content := u "Texto extraído da imagem:" ++ [NL; NL] ++ text in
        append (KnowledgeBaseEntry.mk
          (DocumentMetadata.checksum (BaseProcessor.metadata me) ++ u "_ocr")
          (u "[OCR] " ++ BaseProcessor.file_name me)
          content
          (slice_to 500 text)
          (u "Image OCR")
          [u "imagem"; u "ocr"; u "texto_extraído"]
          0.7
          (BaseProcessor.file_name me)
          (u "image_ocr")
          metadata
          []
          (u "auto_import")
          None)
      else mret ());;
     append (KnowledgeBaseEntry.mk
       (DocumentMetadata.checksum (BaseProcessor.metadata me))
       (u "[Imagem] " ++ BaseProcessor.file_name me)
       (u "Imagem: " ++ BaseProcessor.file_name me ++ [NL]
        ++ u "Dimensões: " ++ str_of_int (img_width img) ++ u "x"
        ++ str_of_int (img_height img) ++ [NL]
        ++ u "Formato: " ++ format_str img)
       (u "Arquivo de imagem " ++ format_str img ++ u " ("
        ++ str_of_int (img_width img) ++ u "x"
        ++ str_of_int (img_height img) ++ u ")")
       (u "Image")
       [u "imagem";
        match img_format img with
        | Some f => if truthy f then lower env f else u "unknown"
        | None => u "unknown"
        end]
       1.0
       (BaseProcessor.file_name me)
       (u "image")
       metadata
       []
       (u "auto_import")
       None))
    (λ e,
       me ← gets self;
       logger ERROR (u "Erro ao processar imagem "
                     ++ BaseProcessor.file_name me ++ u ": " ++ exn_msg e));;
  gets entries.

End ImageProcessor.

(** ** [UniversalDocumentProcessor] *)

Module UniversalDocumentProcessor.

(** [self.processors] *)
Definition processors (doc_type : DocumentType) : option ProcessorClass :=
  match doc_type with
  | EXCEL => Some ExcelProcessor.process
  | PDF => Some PDFProcessor.process
  | WORD => Some WordProcessor.process
  | IMAGE => Some ImageProcessor.process
  | TEXT => Some TextProcessor.process
  | _ => None
  end.

Definition logger (lv : level) (msg : str) : M Log () :=
  modify (λ lg, lg ++ [(lv, msg)]).

(** [processor.process()]: the method works on the processor object
    and on the shared log. *)
Definition call_process (env : Env) (processor_class : ProcessorClass)
    (processor : BaseProcessor.t) : M Log (list KnowledgeBaseEntry.t) :=
  λ lg, let r := processor_class env (mkPS processor [] lg) in
        (log r.1, r.2).

(** [processor = processor_class(file_path); entries =
    processor.process()]; the constructor is [BaseProcessor.__init__]. *)
Definition construct_and_process (env : Env) (processor_class : ProcessorClass)
    (file_path : str) : M Log (list KnowledgeBaseEntry.t) :=
  processor ← lift (BaseProcessor.__init__ env file_path);
  call_process env processor_class processor.

Definition process_file (env : Env) (file_path : str)
    : M Log (list KnowledgeBaseEntry.t) :=
  logger INFO (u "Processando: " ++ file_path);;
  let doc_type := DocumentTypeDetector.detect env file_path in
  logger INFO (u "Tipo detectado: " ++ value doc_type);;
  processor_class ←
    match processors doc_type with
    | Some processor_class => mret processor_class
    | None =>
        logger WARNING (u "Processador não encontrado para "
                        ++ value doc_type ++ u ", usando TextProcessor");;
        mret TextProcessor.process
    end;
  try_except
    (entries ← construct_and_process env processor_class file_path;
     logger INFO (u "Extraídas " ++ str_of_int (len entries)
                  ++ u " entradas de " ++ file_path);;
     mret entries)
    (λ e,
       logger ERROR (u "Erro ao processar " ++ file_path ++ u ": "
                     ++ exn_msg e);;
       mret []).

End UniversalDocumentProcessor.

(** ** A concrete environment

    CPython's codecs for the four encodings [TextProcessor] tries, the
    case mapping and digits of ASCII text, and a file system, workbook,
    PDF and image given as data.  It serves to run the pipeline on
    examples. *)

Module Example.

(** [bytes.decode('latin-1')]: every byte is its own code point. *)
Definition latin1_decode (data : bytes) : str := map Byte.to_N data.

(** The code points of windows-1252 for the bytes 0x80 to 0x9F; five
    of them are not assigned. *)
Definition cp1252_high : list (option N) :=
  [Some 0x20AC; None; Some 0x201A; Some 0x0192; Some 0x201E; Some 0x2026;
   Some 0x2020; Some 0x2021; Some 0x02C6; Some 0x2030; Some 0x0160;
   Some 0x2039; Some 0x0152; None; Some 0x017D; None;
   None; Some 0x2018; Some 0x2019; Some 0x201C; Some 0x201D; Some 0x2022;
   Some 0x2013; Some 0x2014; Some 0x02DC; Some 0x2122; Some 0x0161;
   Some 0x203A; Some 0x0153; None; Some 0x017E; Some 0x0178]%N.

Definition cp1252_char (b : byte) : option N :=
  let n := Byte.to_N b in
  if ((0x80 <=? n) && (n <=? 0x9F))%N
  then mjoin (cp1252_high !! N.to_nat (n - 0x80))
  else Some n.

Definition cp1252_decode (data : bytes) : option str :=
  mapM cp1252_char data.

Definition codecs_decode (encoding : string) (data : bytes) : option str :=
  if String.eqb encoding "utf-8" then utf8_decode data
  else if String.eqb encoding "latin-1" then Some (latin1_decode data)
  else if String.eqb encoding "cp1252" then cp1252_decode data
  else if String.eqb encoding "iso-8859-1" then Some (latin1_decode data)
  else None.

(** [str.lower] on ASCII text. *)
Definition ascii_lower (s : str) : str :=
  map (λ c, if ((65 <=? c) && (c <=? 90))%N then (c + 32)%N else c) s.

Definition ascii_digit (c : N) : bool := ((48 <=? c) && (c <=? 57))%N.

Definition no_such_file {A} : result A :=
  Raise (Exn OSError (u "No such file or directory")).

Definition unreadable {A} : result A :=
  Raise (Exn LibraryError (u "cannot read the file")).

(** The bytes of an ASCII literal. *)
Definition b (s : string) : bytes := String.list_byte_of_string s.

(** [datetime.fromtimestamp] in the time zone UTC: the years 1 to 9999
    are the seconds from -62135596800 to 253402300799. *)
Definition datetime_fromtimestamp (t : Z) : result Z :=
  if bool_decide (-62135596800 ≤ t ≤ 253402300799) then Ok t
  else Raise (Exn ValueError (u "year is out of range")).

Definition lookup_file (files : list (str * bytes)) (path : str)
    : result bytes :=
  match list_find (λ f, f.1 = path) files with
  | Some (_, f) => Ok f.2
  | None => no_such_file
  end.

(** The environment over the files [files], with every library
    installed; [sheets], [plumber], [pypdf2], [image] and [ocr] are what
    the libraries make of any file they are given.  The digest is a
    stand-in (the length of the data, in decimal). *)
Definition env_of (files : list (str * bytes))
    (sheets : result (list (str * Sheet)))
    (plumber : result (list PlumberPage))
    (pypdf2 : result (list PyPDF2Page))
    (image : result Image) (ocr : result str) : Env :=
  {| stat := λ path,
       data ← lookup_file files path;
       Ok {| st_size := len data; st_ctime := 0; st_mtime := 0 |};
     open_rb := lookup_file files;
     absolute := λ path, Ok (u "/" ++ path);
     guess_type := λ _, None;
     fromtimestamp := datetime_fromtimestamp;
     sha256_hexdigest := λ data, str_of_int (len data);
     lower := ascii_lower;
     re_digit := ascii_digit;
     decode := codecs_decode;
     decode_ignore := utf8_decode_ignore;
     json_loads_ok := λ _, false;
     pandas_installed := true;
     read_excel := λ _, sheets;
     to_string := λ _, [];
     pdfplumber_installed := true;
     PyPDF2_installed := true;
     PDF_open := λ _, plumber;
     PdfReader := λ _, pypdf2;
     docx_installed := true;
     Document := λ _, unreadable;
     PIL_installed := true;
     pytesseract_installed := true;
     Image_open := λ _, image;
     image_to_string := λ _, ocr |}.

(** The same environment on a machine without pandas. *)
Definition without_pandas (env : Env) : Env :=
  {| stat := stat env; open_rb := open_rb env; absolute := absolute env;
     guess_type := guess_type env; fromtimestamp := fromtimestamp env;
     sha256_hexdigest := sha256_hexdigest env;
     lower := lower env; re_digit := re_digit env; decode := decode env;
     decode_ignore := decode_ignore env; json_loads_ok := json_loads_ok env;
     pandas_installed := false;
     read_excel := read_excel env; to_string := to_string env;
     pdfplumber_installed := pdfplumber_installed env;
     PyPDF2_installed := PyPDF2_installed env;
     PDF_open := PDF_open env; PdfReader := PdfReader env;
     docx_installed := docx_installed env; Document := Document env;
     PIL_installed := PIL_installed env;
     pytesseract_installed := pytesseract_installed env;
     Image_open := Image_open env; image_to_string := image_to_string env |}.

(** An environment whose codecs reject every input, as a build without
    the four encodings would. *)
Definition without_codecs (env : Env) : Env :=
  {| stat := stat env; open_rb := open_rb env; absolute := absolute env;
     guess_type := guess_type env; fromtimestamp := fromtimestamp env;
     sha256_hexdigest := sha256_hexdigest env;
     lower := lower env; re_digit := re_digit env;
     decode := λ _ _, None;
     decode_ignore := decode_ignore env; json_loads_ok := json_loads_ok env;
     pandas_installed := pandas_installed env;
     read_excel := read_excel env; to_string := to_string env;
     pdfplumber_installed := pdfplumber_installed env;
     PyPDF2_installed := PyPDF2_installed env;
     PDF_open := PDF_open env; PdfReader := PdfReader env;
     docx_installed := docx_installed env; Document := Document env;
     PIL_installed := PIL_installed env;
     pytesseract_installed := pytesseract_installed env;
     Image_open := Image_open env; image_to_string := image_to_string env |}.

(** The entries [process_file] returns, starting from an empty log. *)
Definition run (env : Env) (file_path : string)
    : result (list KnowledgeBaseEntry.t) :=
  (UniversalDocumentProcessor.process_file env (u file_path) []).2.

(** The state in which [process] starts on [file_path]: the processor
    [BaseProcessor.__init__] constructs, no entries, an empty log. *)
Definition start (env : Env) (file_path : string) : PS :=
  match BaseProcessor.__init__ env (u file_path) with
  | Ok processor => mkPS processor [] []
  | Raise _ =>
      mkPS (BaseProcessor.mk (u file_path) []
              (DocumentMetadata.mk [] [] 0 UNKNOWN [] None None None None None
                 [] None None None false false false None []))
           [] []
  end.

(** 10001 times the letter a. *)
Definition big_text : bytes := replicate (Z.to_nat 10001) "a"%byte.

(** The files: a text that is not UTF-8 (the single byte E9), a text of
    10001 characters, a spreadsheet, a PDF and an image. *)
Definition files : list (str * bytes) :=
  [(u "latin.txt", [xe9]);
   (u "big.txt", big_text);
   (u "table.csv", b "name");
   (u "doc.pdf", b "%PDF");
   (u "pic.png", b "PNG")].

Definition text_env : Env :=
  env_of files (Ok []) unreadable unreadable unreadable unreadable.

(** A workbook of one sheet with one column and one row. *)
Definition one_row : list (str * Sheet) :=
  [(u "Sheet1",
    {| sh_columns := [LStr (u "name")]; sh_rows := [[CVal (u "x")]] |})].

Definition excel_env : Env :=
  env_of files (Ok one_row) unreadable unreadable unreadable unreadable.

Definition plumber_page (text : option string)
    (tables : list (list (list (option str)))) : PlumberPage :=
  {| pl_extract_text := Ok (u <$> text); pl_extract_tables := Ok tables |}.

(** Three pages with text, and a table of two rows and two columns on
    the second. *)
Definition three_pages : list PlumberPage :=
  [plumber_page (Some "one") [];
   plumber_page (Some "two")
     [[[Some (u "a"); Some (u "b")]; [Some (u "c"); Some (u "d")]]];
   plumber_page (Some "three") []].

(** Two pages, the first without text (a scanned cover). *)
Definition scanned_cover : list PlumberPage :=
  [plumber_page None []; plumber_page (Some "body") []].

(** The three pages as PyPDF2 reads them. *)
Definition three_pages_PyPDF2 : list PyPDF2Page :=
  [{| py_extract_text := Ok (u "one") |};
   {| py_extract_text := Ok (u "two") |};
   {| py_extract_text := Ok (u "three") |}].

Definition pdf_env (plumber : result (list PlumberPage))
    (pypdf2 : result (list PyPDF2Page)) : Env :=
  env_of files (Ok []) plumber pypdf2 unreadable unreadable.

Definition picture : Image :=
  {| img_width := 10; img_height := 20; img_format := Some (u "PNG");
     img_mode := u "RGB"; img_pixels := b "PNG" |}.

Definition image_env (ocr : string) : Env :=
  env_of files (Ok []) unreadable unreadable (Ok picture) (Ok (u ocr)).

End Example.

(** ** The vocabulary of the properties *)

(** The closed set of categories. *)
Definition categories : list DocumentType :=
  [EXCEL; WORD; PDF; POWERPOINT; IMAGE; TEXT; EMAIL; HTML; CODE; ARCHIVE;
   UNKNOWN].

(** The chunk's metadata records the size of its content. *)
Definition size_recorded (c : DocumentChunk.t) : Prop :=
  DocumentChunk.metadata c !! "size"%string
  = Some (VInt (len (DocumentChunk.content c))).

(** The chunks carry the indices 0, 1, 2, ... in order. *)
Definition indexed (l : list DocumentChunk.t) : Prop :=
  map DocumentChunk.chunk_index l = map Z.of_nat (seq 0 (length l)).

(** The paragraphs, each followed by a blank line. *)
Definition terminated (paras : list str) : str :=
  concat (map (λ para, para ++ [NL; NL]) paras).

(** What holds of the locals of [_create_text_chunks] after the
    paragraphs [done]. *)
Record locals_inv (done : list str) (v : TextProcessor.locals) : Prop := {
  inv_index : TextProcessor.chunk_index v = len (TextProcessor.chunks v);
  inv_indexed : indexed (TextProcessor.chunks v);
  inv_size : Forall size_recorded (TextProcessor.chunks v);
  inv_text :
    concat (map DocumentChunk.content (TextProcessor.chunks v))
    ++ TextProcessor.current_chunk v
    = terminated done
}.

(** The state after [self.metadata.encoding = encoding]. *)
Definition encoded (encoding : string) (st : PS) : PS :=
  mkPS (BaseProcessor.set_metadata
          (DocumentMetadata.set_encoding (Some (u encoding))
             (BaseProcessor.metadata (self st)))
          (self st))
       (entries st) (log st).

(** The first candidate that decodes [data], with the decoded text. *)
Fixpoint first_decodable (env : Env) (data : bytes) (encs : list string)
    : option (string * str) :=
  match encs with
  | [] => None
  | encoding :: rest =>
      match decode env encoding data with
      | Some s => Some (encoding, s)
      | None => first_decodable env data rest
      end
  end.

(** The contents of the chunks, added up:
    [sum(len(chunk.content) for chunk in chunks)]. *)
Definition sum_len (chunks : list DocumentChunk.t) : Z :=
  foldr (λ c n, len (DocumentChunk.content c) + n) 0 chunks.

(** A text that [if text:] accepts. *)
Definition has_text (text : option str) : bool :=
  match text with Some t => truthy t | None => false end.

(** The text blocks of the pages that have text, given each page's
    number (from 0) and text. *)
Definition text_blocks (texts : list (Z * option str)) : list str :=
  omap (λ p, match p.2 with
             | Some t => if truthy t then Some (PDFProcessor.page_block p.1 t) else None
             | None => None
             end) texts.

(** [all_text] after the page [i] with text [text]. *)
Definition add_text (all_text : list str) (i : Z)
    (text : option str) : list str :=
  match text with
  | Some text => if truthy text then all_text ++ [PDFProcessor.page_block i text] else all_text
  | None => all_text
  end.

(** The frame [process] works on: [df.dropna(how='all').dropna(axis=1,
    how='all')]. *)
Definition pruned (df : DataFrame) : DataFrame :=
  pd.dropna_columns (pd.dropna_rows df).

(** The log lines [process_file] writes before it constructs the
    processor. *)
Definition preamble (env : Env) (file_path : str) : Log :=
  let doc_type := DocumentTypeDetector.detect env file_path in
  [(INFO, u "Processando: " ++ file_path);
   (INFO, u "Tipo detectado: " ++ value doc_type)]
  ++ match UniversalDocumentProcessor.processors doc_type with
     | Some _ => []
     | None =>
         [(WARNING, u "Processador não encontrado para "
                    ++ value doc_type ++ u ", usando TextProcessor")]
     end.

(** ** [UniversalDocumentProcessor.process_directory] *)

(** What [process_directory] asks of the file system: [glob] gives the
    paths [Path(directory).glob(pattern)] yields, as strings, and the
    exception that ends the iteration when there is one; [is_file] is
    [Path.is_file], which answers [False] for a path that does not exist
    and raises on the other errors of the operating system. *)
Record Dir := {
  glob : str → string → list str * option exn;
  is_file : str → result bool
}.

(** One iteration of [for file_path in path.glob(pattern)]; the local
    is [all_entries]. *)
Definition visit (fs : Dir) (env : Env)
    (all_entries : list KnowledgeBaseEntry.t) (file_path : str)
    : M Log (list KnowledgeBaseEntry.t) :=
  regular ← lift (is_file fs file_path);
  if regular : bool then
    entries ← UniversalDocumentProcessor.process_file env file_path;
    mret (all_entries ++ entries)
  else mret all_entries.

Definition process_directory (fs : Dir) (env : Env) (directory : str)
    (recursive : bool) : M Log (list KnowledgeBaseEntry.t) :=
  let pattern := if recursive then "**/*"%string else "*"%string in
  let '(paths, stop) := glob fs directory pattern in
  all_entries ← fold_m (visit fs env) paths [];
  match stop with
  | Some e => raise e
  | None => mret all_entries
  end.

(** The regular files among [paths], in order; the exception of the
    first [is_file] that raises, when one does. *)
Fixpoint regular_files (fs : Dir) (paths : list str) : result (list str) :=
  match paths with
  | [] => Ok []
  | file_path :: rest =>
      match is_file fs file_path with
      | Raise e => Raise e
      | Ok regular =>
          match regular_files fs rest with
          | Raise e => Raise e
          | Ok files => Ok (if regular then file_path :: files else files)
          end
      end
  end.

(** ** More vocabulary *)

(** A literal made of ASCII characters. *)
Definition ascii_literal (s : string) : Prop :=
  Forall (λ b, (Byte.to_N b < 128)%N) (String.list_byte_of_string s).

(** A chunk of the text chunker: named after its index, owned by the
    document of the processor [self], embedding its own content. *)
Definition identified (self : BaseProcessor.t) (c : DocumentChunk.t) : Prop :=
  DocumentChunk.chunk_id c
  = u "chunk_" ++ str_of_int (DocumentChunk.chunk_index c)
  ∧ DocumentChunk.document_id c
    = DocumentMetadata.checksum (BaseProcessor.metadata self)
  ∧ DocumentChunk.content_type c = u "text"
  ∧ DocumentChunk.embedding_text c = DocumentChunk.content c.

(** A text made of whole paragraphs of [paras]: it ends with the blank
    line the chunker adds after a paragraph, and it stays below the
    budget plus that blank line unless it is one paragraph on its own. *)
Definition whole_paragraphs (chunk_size : Z) (paras : list str) (s : str)
    : Prop :=
  (∃ body, s = body ++ [NL; NL])
  ∧ (len s < chunk_size + 2
     ∨ ∃ para, para ∈ paras ∧ s = para ++ [NL; NL]).

(** A chunk whose content is made of whole paragraphs. *)
Definition whole (chunk_size : Z) (paras : list str) (c : DocumentChunk.t)
    : Prop :=
  whole_paragraphs chunk_size paras (DocumentChunk.content c).

(** The entries of the tables of a PDF: one for each table of two rows
    or more, numbered by the table's position among all the tables. *)
Definition table_entries (self : BaseProcessor.t)
    (tables : list (list (list (option str)))) : list KnowledgeBaseEntry.t :=
  omap (λ p, PDFProcessor._create_table_entry self p.2 p.1) (enumerate tables).

(** A chunk of [WordProcessor] for the sections [sections]: it holds
    the section at the position its index gives, is named after that
    index, and counts all the sections. *)
Definition section_chunk (sections : list str) (c : DocumentChunk.t) : Prop :=
  ∃ i : nat,
    DocumentChunk.chunk_index c = Z.of_nat i
    ∧ sections !! i = Some (DocumentChunk.content c)
    ∧ DocumentChunk.chunk_id c = u "section_" ++ str_of_int (Z.of_nat i)
    ∧ DocumentChunk.total_chunks c = len sections.

(** The categories [process_file] hands to [TextProcessor]: its own,
    and those without a processor. *)
Definition read_as_text : list DocumentType :=
  [TEXT; POWERPOINT; EMAIL; HTML; CODE; ARCHIVE; UNKNOWN].

(** A workbook of one sheet with two columns and two rows, and the
    environment in which pandas reads it. *)
Definition two_rows : list (str * Sheet) :=
  [(u "Sheet1",
    {| sh_columns := [LStr (u "id"); LStr (u "name")];
       sh_rows := [[CVal (u "1"); CVal (u "ana")];
                   [CVal (u "2"); CVal (u "rui")]] |})].

Definition two_rows_env : Env :=
  Example.env_of Example.files (Ok two_rows) Example.unreadable
    Example.unreadable Example.unreadable Example.unreadable.

(** An environment with one file, of zero bytes. *)
Definition empty_file_env : Env :=
  Example.env_of [(u "empty.txt", [])] (Ok []) Example.unreadable
    Example.unreadable Example.unreadable Example.unreadable.

(** A table row, or a table, or a document's tables, with no text but
    white space. *)
Definition blank_row (row : list str) : Prop :=
  Forall (λ cell, strip cell = []) row.

Definition blank_tables (tables : list (list (list str))) : Prop :=
  Forall (Forall blank_row) tables.

(** The environment [env] with python-docx reading every file as
    [doc]. *)
Definition with_document (doc : Docx) (env : Env) : Env :=
  {| stat := stat env; open_rb := open_rb env; absolute := absolute env;
     guess_type := guess_type env; fromtimestamp := fromtimestamp env;
     sha256_hexdigest := sha256_hexdigest env;
     lower := lower env; re_digit := re_digit env; decode := decode env;
     decode_ignore := decode_ignore env; json_loads_ok := json_loads_ok env;
     pandas_installed := pandas_installed env;
     read_excel := read_excel env; to_string := to_string env;
     pdfplumber_installed := pdfplumber_installed env;
     PyPDF2_installed := PyPDF2_installed env;
     PDF_open := PDF_open env; PdfReader := PdfReader env;
     docx_installed := true; Document := λ _, Ok doc;
     PIL_installed := PIL_installed env;
     pytesseract_installed := pytesseract_installed env;
     Image_open := Image_open env; image_to_string := image_to_string env |}.

(** A document of a title, a blank paragraph and a body, with one table
    whose only row is blank. *)
Definition memo : Docx :=
  {| doc_paragraphs := [u "Title"; u " "; u "Body"];
     doc_tables := [[[u " "; []]]];
     doc_inline_shapes := 0 |}.

(** The files hold the memo, and python-docx reads it. *)
Definition memo_env : Env :=
  with_document memo
    (Example.env_of [(u "memo.docx", Example.b "PK")] (Ok [])
       Example.unreadable Example.unreadable Example.unreadable
       Example.unreadable).

(** The same environment on a machine with none of the optional
    libraries. *)
Definition without_libraries (env : Env) : Env :=
  {| stat := stat env; open_rb := open_rb env; absolute := absolute env;
     guess_type := guess_type env; fromtimestamp := fromtimestamp env;
     sha256_hexdigest := sha256_hexdigest env;
     lower := lower env; re_digit := re_digit env; decode := decode env;
     decode_ignore := decode_ignore env; json_loads_ok := json_loads_ok env;
     pandas_installed := false;
     read_excel := read_excel env; to_string := to_string env;
     pdfplumber_installed := false; PyPDF2_installed := false;
     PDF_open := PDF_open env; PdfReader := PdfReader env;
     docx_installed := false; Document := Document env;
     PIL_installed := false; pytesseract_installed := false;
     Image_open := Image_open env; image_to_string := image_to_string env |}.

(** The same environment with every file created at [ctime] and
    modified at [mtime]. *)
Definition with_times (ctime mtime : Z) (env : Env) : Env :=
  {| stat := λ path,
       match stat env path with
       | Ok st =>
           Ok {| st_size := st_size st; st_ctime := ctime; st_mtime := mtime |}
       | Raise e => Raise e
       end;
     open_rb := open_rb env; absolute := absolute env;
     guess_type := guess_type env; fromtimestamp := fromtimestamp env;
     sha256_hexdigest := sha256_hexdigest env;
     lower := lower env; re_digit := re_digit env; decode := decode env;
     decode_ignore := decode_ignore env; json_loads_ok := json_loads_ok env;
     pandas_installed := pandas_installed env;
     read_excel := read_excel env; to_string := to_string env;
     pdfplumber_installed := pdfplumber_installed env;
     PyPDF2_installed := PyPDF2_installed env;
     PDF_open := PDF_open env; PdfReader := PdfReader env;
     docx_installed := docx_installed env; Document := Document env;
     PIL_installed := PIL_installed env;
     pytesseract_installed := pytesseract_installed env;
     Image_open := Image_open env; image_to_string := image_to_string env |}.

(** The value a call returns; none when it raises. *)
Definition result_value {A} (r : result A) : option A :=
  match r with
  | Ok a => Some a
  | Raise _ => None
  end.

(** The list a call returns; none when it raises. *)
Definition returned {S A} (r : S * result (list A)) : list A :=
  match r.2 with
  | Ok l => l
  | Raise _ => []
  end.

(** An entry made from the file of the processor [self]: its [uuid]
    begins with the checksum of the file, its source is the name of the
    file, and it is marked as imported automatically. *)
Definition entry_of (self : BaseProcessor.t) (e : KnowledgeBaseEntry.t)
    : Prop :=
  (∃ rest, KnowledgeBaseEntry.uuid e
           = DocumentMetadata.checksum (BaseProcessor.metadata self) ++ rest)
  ∧ KnowledgeBaseEntry.source e = BaseProcessor.file_name self
  ∧ KnowledgeBaseEntry.created_by e = u "auto_import".

(** * Properties *)

(** ** Strings *)

Section strings.
Implicit Types s p sep cur : str.

Lemma startswith_app s p :
  startswith s p = true ↔ s = p ++ drop (length p) s.
Proof.
  revert s; induction p as [|a p IH]; intros [|c s]; simpl; try done.
  rewrite andb_true_iff, N.eqb_eq, IH. split.
  - by intros [-> <-].
  - intros [= -> Hs]. done.
Qed.

Lemma split_go_nonempty sep skip cur s : split_go sep skip cur s ≠ [].
Proof.
  revert skip cur; induction s as [|c s IH]; intros skip cur;
    cbn [split_go]; [done|].
  destruct skip; [|done]. by destruct (startswith (c :: s) sep).
Qed.

Lemma join_cons sep p (ps : list str) :
  ps ≠ [] → join sep (p :: ps) = p ++ sep ++ join sep ps.
Proof. by destruct ps. Qed.

Lemma join_split_go sep skip cur s :
  sep ≠ [] → join sep (split_go sep skip cur s) = rev cur ++ drop skip s.
Proof.
  intros Hsep. revert skip cur.
  induction s as [|c s IH]; intros skip cur; cbn [split_go].
  - cbn [join]. by rewrite drop_nil, app_nil_r.
  - destruct skip as [|k]; [|by apply IH].
    destruct (startswith (c :: s) sep) eqn:Hp.
    + rewrite join_cons by apply split_go_nonempty.
      rewrite IH. apply startswith_app in Hp.
      destruct sep as [|a sep]; [done|]. cbn [length rev app] in *.
      replace (S (length sep) - 1)%nat with (length sep) by lia.
      rewrite drop_0. cbn [drop] in Hp. by rewrite <- Hp.
    + rewrite IH. cbn [rev drop]. by rewrite <- app_assoc.
Qed.

(** [sep.join(s.split(sep)) == s] *)
Lemma join_split s sep : sep ≠ [] → join sep (split s sep) = s.
Proof. intros. unfold split. by rewrite join_split_go. Qed.

Lemma concat_terminated sep (ps : list str) :
  ps ≠ [] → concat (map (λ p, p ++ sep) ps) = join sep ps ++ sep.
Proof.
  induction ps as [|p ps IH]; [done|]. intros _.
  destruct ps as [|q ps]; simpl.
  - by rewrite app_nil_r.
  - simpl in IH. rewrite IH by done. by rewrite <- !app_assoc.
Qed.

(** ASCII bytes decode to themselves, and a text without carriage
    returns is read as it is. *)
Lemma utf8_go_ascii (data : bytes) (out : str) :
  Forall (λ b, (Byte.to_N b < 128)%N) data →
  utf8_go true None data out = Some (rev out ++ map Byte.to_N data).
Proof.
  intros Hdata. revert out.
  induction Hdata as [|b data Hb _ IH]; intros out; cbn [utf8_go map].
  - by rewrite app_nil_r.
  - unfold utf8_start. apply N.ltb_lt in Hb. rewrite Hb, IH.
    cbn [rev]. by rewrite <- app_assoc.
Qed.

Lemma universal_newlines_no_CR s :
  Forall (λ c, c ≠ CR) s → universal_newlines s = s.
Proof.
  induction 1 as [|c s Hc _ IH]; cbn [universal_newlines]; [done|].
  apply N.eqb_neq in Hc. by rewrite Hc, IH.
Qed.

Lemma len_app {A} (l k : list A) : len (l ++ k) = len l + len k.
Proof. unfold len. rewrite length_app. lia. Qed.

Lemma len_nonneg {A} (l : list A) : 0 ≤ len l.
Proof. unfold len. lia. Qed.

Lemma truthy_true {A} (l : list A) : truthy l = true ↔ l ≠ [].
Proof. by destruct l. Qed.

Lemma truthy_false {A} (l : list A) : truthy l = false ↔ l = [].
Proof. by destruct l. Qed.
End strings.

(** ** The type detector *)

Lemma categories_closed (t : DocumentType) : t ∈ categories.
Proof. unfold categories. rewrite !elem_of_cons. destruct t; auto 15. Qed.

(** C9.  [DocumentTypeDetector.detect] is a total function of the path
    alone: for every path it returns exactly one category of the closed
    set, the one the extension table gives for the lowercased suffix of the
    path, and [UNKNOWN] when the table has no such key. *)
Theorem detect_total (env : Env) (file_path : str) :
  let ext := lower env (Path.suffix file_path) in
  (exists! t, DocumentTypeDetector.detect env file_path = t)
  ∧ DocumentTypeDetector.detect env file_path ∈ categories
  ∧ NoDup categories
  ∧ (∀ t, DocumentTypeDetector.EXTENSION_MAP !! ext = Some t →
          DocumentTypeDetector.detect env file_path = t)
  ∧ (DocumentTypeDetector.EXTENSION_MAP !! ext = None →
     DocumentTypeDetector.detect env file_path = UNKNOWN).
Proof.
  intros ext. repeat split.
  - exists (DocumentTypeDetector.detect env file_path). by split.
  - apply categories_closed.
  - compute_done.
  - intros t Ht. unfold DocumentTypeDetector.detect. fold ext. by rewrite Ht.
  - intros Ht. unfold DocumentTypeDetector.detect. fold ext. by rewrite Ht.
Qed.

(** The detector on a few paths, in the concrete environment. *)
Example detect_examples :
  let env := Example.env_of [] (Ok []) Example.unreadable Example.unreadable
               Example.unreadable Example.unreadable in
  map (λ p, DocumentTypeDetector.detect env (u p))
      ["dir/report.PDF"; "a.tar.gz"; "notes"; ".bashrc"; "x.Csv"; "pic.jpeg";
       "archive.zip/readme"; "trailing."]%string
  = [PDF; ARCHIVE; UNKNOWN; UNKNOWN; EXCEL; IMAGE; UNKNOWN; UNKNOWN].
Proof. vm_compute. reflexivity. Qed.

(** ** The text chunker *)

Section chunker.
Context (self : BaseProcessor.t) (chunk_size : Z).

Import TextProcessor.

Lemma indexed_snoc l c :
  indexed l → DocumentChunk.chunk_index c = len l → indexed (l ++ [c]).
Proof.
  unfold indexed, len. intros Hl Hc.
  rewrite map_app, length_app, seq_app, map_app, Hl. simpl. by rewrite Hc.
Qed.

Lemma size_recorded_new cur i n : size_recorded (new_chunk self cur i n).
Proof. unfold size_recorded, new_chunk. simpl. apply lookup_singleton_eq. Qed.

Lemma terminated_snoc done para :
  terminated (done ++ [para]) = terminated done ++ para ++ [NL; NL].
Proof.
  unfold terminated. rewrite map_app, concat_app. simpl.
  by rewrite app_nil_r.
Qed.

Lemma para_step_inv done v para :
  locals_inv done v → locals_inv (done ++ [para]) (para_step self chunk_size v para).
Proof.
  intros [Hi Hx Hs Ht]. unfold para_step.
  case_bool_decide; [|destruct (truthy (current_chunk v)) eqn:Hcur].
  - split; simpl; try done.
    by rewrite terminated_snoc, <- Ht, <- !app_assoc.
  - split; simpl.
    + rewrite len_app, Hi. unfold len. simpl. lia.
    + by apply indexed_snoc.
    + apply Forall_app. split; [done|].
      constructor; [apply size_recorded_new | constructor].
    + rewrite terminated_snoc, <- Ht, map_app, concat_app. simpl.
      by rewrite app_nil_r, <- !app_assoc.
  - apply truthy_false in Hcur. split; simpl; try done.
    rewrite terminated_snoc, <- Ht, Hcur. by rewrite !app_nil_r.
Qed.

Lemma foldl_para_step_inv paras done v :
  locals_inv done v →
  locals_inv (done ++ paras) (foldl (para_step self chunk_size) v paras).
Proof.
  revert done v. induction paras as [|para paras IH]; intros done v Hv; simpl.
  - by rewrite app_nil_r.
  - replace (done ++ para :: paras) with ((done ++ [para]) ++ paras)
      by by rewrite <- app_assoc.
    by apply IH, para_step_inv.
Qed.

Lemma set_total_chunks_spec n (l : list DocumentChunk.t) :
  let l' := map (DocumentChunk.set_total_chunks n) l in
  Forall (λ c, DocumentChunk.total_chunks c = n) l'
  ∧ map DocumentChunk.chunk_index l' = map DocumentChunk.chunk_index l
  ∧ map DocumentChunk.content l' = map DocumentChunk.content l
  ∧ map DocumentChunk.metadata l' = map DocumentChunk.metadata l
  ∧ length l' = length l.
Proof.
  simpl. repeat split.
  - apply Forall_map. by apply Forall_true.
  - by rewrite <- list_fmap_compose.
  - by rewrite <- list_fmap_compose.
  - by rewrite <- list_fmap_compose.
  - apply length_map.
Qed.

(** The list [chunks] as it stands before the last loop: indexed in
    order, sizes recorded, and holding the paragraphs in order. *)
Lemma chunks_before_backfill (content : str) :
  ∃ built,
    _create_text_chunks self content chunk_size
    = map (DocumentChunk.set_total_chunks (len built)) built
    ∧ indexed built
    ∧ Forall size_recorded built
    ∧ concat (map DocumentChunk.content built)
      = terminated (split content [NL; NL]).
Proof.
  unfold _create_text_chunks.
  set (paragraphs := split content [NL; NL]).
  pose proof (foldl_para_step_inv paragraphs [] (Locals [] [] 0)) as Hinv.
  simpl in Hinv.
  destruct Hinv as [Hi Hx Hs Ht]; [by split|].
  set (v := foldl (para_step self chunk_size) (Locals [] [] 0) paragraphs) in *.
  eexists. split; [reflexivity|].
  destruct (truthy (current_chunk v)) eqn:Hcur.
  - split_and!.
    + by apply indexed_snoc.
    + apply Forall_app. split; [done|].
      constructor; [apply size_recorded_new | constructor].
    + rewrite map_app, concat_app. simpl. by rewrite app_nil_r.
  - apply truthy_false in Hcur. rewrite Hcur, app_nil_r in Ht. done.
Qed.

(** C3.  After [_create_text_chunks] every chunk's [total_chunks] is the
    number of chunks produced, the chunks carry the indices 0, 1, 2, ...
    in the order they were appended, that order is the order of the
    paragraphs (the chunks' contents, one after the other, are the
    paragraphs of the content, each followed by a blank line), and each
    chunk's metadata records the size of its own content. *)
Theorem create_text_chunks_backfilled (content : str) :
  let chunks := _create_text_chunks self content chunk_size in
  Forall (λ c, DocumentChunk.total_chunks c = len chunks) chunks
  ∧ map DocumentChunk.chunk_index chunks
    = map Z.of_nat (seq 0 (length chunks))
  ∧ Forall size_recorded chunks
  ∧ concat (map DocumentChunk.content chunks)
    = terminated (split content [NL; NL]).
Proof.
  destruct (chunks_before_backfill content) as (built & -> & Hbx & Hbs & Hbt).
  destruct (set_total_chunks_spec (len built) built)
    as (Ht1 & Ht2 & Ht3 & Ht4 & Ht5).
  simpl. split_and!.
  - eapply Forall_impl; [exact Ht1|]. intros c ->. unfold len.
    by rewrite length_map.
  - rewrite Ht2, length_map. exact Hbx.
  - apply Forall_forall. intros c Hc.
    apply list_elem_of_fmap in Hc as (c0 & -> & Hc0).
    rewrite Forall_forall in Hbs. by apply (Hbs c0).
  - by rewrite Ht3.
Qed.

(** The contents of the chunks add up to the content and one more
    blank line; in particular there is at least one chunk. *)
Lemma create_text_chunks_length (content : str) :
  let chunks := _create_text_chunks self content chunk_size in
  chunks ≠ []
  ∧ sum_list_with (λ c, length (DocumentChunk.content c)) chunks
    = (length content + 2)%nat.
Proof.
  intros chunks.
  destruct (chunks_before_backfill content) as (built & Hb & _ & _ & Ht).
  destruct (set_total_chunks_spec (len built) built) as (_ & _ & Hc & _).
  simpl in Hc. rewrite <- Hc, <- Hb in Ht. fold chunks in Ht.
  unfold terminated in Ht.
  rewrite concat_terminated in Ht by apply split_go_nonempty.
  rewrite join_split in Ht by done.
  assert (length (concat (map DocumentChunk.content chunks))
          = (length content + 2)%nat) as Hlen.
  { rewrite Ht, length_app. done. }
  split.
  - intros Hnil. rewrite Hnil in Hlen. simpl in Hlen. lia.
  - rewrite <- Hlen. clear. induction chunks as [|c l IH]; simpl; [done|].
    rewrite length_app. by rewrite IH.
Qed.
End chunker.

(** ** The monad *)

Lemma bind_ok {S A B} (m : M S A) (f : A → M S B) s s' a :
  m s = (s', Ok a) → (m ≫= f) s = f a s'.
Proof. unfold mbind, M_bind. by intros ->. Qed.

Lemma bind_raise {S A B} (m : M S A) (f : A → M S B) s s' e :
  m s = (s', Raise e) → (m ≫= f) s = (s', Raise e).
Proof. unfold mbind, M_bind. by intros ->. Qed.

Lemma try_except_ok {S A} (m : M S A) h s s' a :
  m s = (s', Ok a) → try_except m h s = (s', Ok a).
Proof. unfold try_except. by intros ->. Qed.

Lemma try_except_raise {S A} (m : M S A) h s s' e :
  m s = (s', Raise e) → try_except m h s = h e s'.
Proof. unfold try_except. by intros ->. Qed.

Ltac run :=
  unfold append, logger, set_encoding, import_;
  unfold mbind, M_bind, mret, M_ret, lift, gets, modify, raise,
    try_except, try_except_cls;
  cbn [fst snd self entries log].

(** ** Decoding in [TextProcessor] *)

Section decoding.
Context (env : Env).
Import TextProcessor.

Lemma first_decodable_Some data encs pre enc post s :
  encs = pre ++ enc :: post →
  Forall (λ e, decode env e data = None) pre →
  decode env enc data = Some s →
  first_decodable env data encs = Some (enc, s).
Proof.
  intros -> Hpre Henc. induction Hpre as [|e pre He _ IH]; simpl.
  - by rewrite Henc.
  - by rewrite He.
Qed.

Lemma first_decodable_None data encs :
  Forall (λ e, decode env e data = None) encs →
  first_decodable env data encs = None.
Proof. induction 1 as [|e encs He _ IH]; simpl; [done|]. by rewrite He. Qed.

Lemma try_encodings_spec st data encs :
  open_rb env (BaseProcessor.file_path (self st)) = Ok data →
  try_encodings env (BaseProcessor.file_path (self st)) encs st
  = match first_decodable env data encs with
    | Some (enc, s) => (encoded enc st, Ok (Some (universal_newlines s)))
    | None => (st, Ok None)
    end.
Proof.
  intros Hopen. induction encs as [|enc encs IH]; [done|].
  cbn [try_encodings first_decodable]. unfold read_text. run.
  rewrite Hopen. destruct (decode env enc data) as [s|]; simpl; [done|].
  exact IH.
Qed.

Lemma read_content_spec st data :
  open_rb env (BaseProcessor.file_path (self st)) = Ok data →
  read_content env st
  = match first_decodable env data encodings with
    | Some (enc, s) => (encoded enc st, Ok (universal_newlines s))
    | None => (st, Ok (decode_ignore env data))
    end.
Proof.
  intros Hopen. unfold read_content. run.
  rewrite (try_encodings_spec st data encodings Hopen).
  destruct (first_decodable env data encodings) as [[enc s]|]; [done|].
  by rewrite Hopen.
Qed.

(** [TextProcessor.process] returns a list on every input: whatever is
    raised while reading or decoding is caught and logged. *)
Lemma text_process_returns (st : PS) : ∃ st' es, process env st = (st', Ok es).
Proof.
  unfold process. run.
  destruct (read_content env _) as [s1 [content|e]]; run; by eexists _, _.
Qed.

(** C8.  On a file that can be read, [TextProcessor] tries the
    candidate encodings in order and keeps the text of the first that
    decodes, recording that encoding in [self.metadata.encoding]; when
    every candidate fails it keeps the permissive decoding of the bytes;
    in every case it obtains a content, and [process] returns a list: no
    decoding error is raised. *)
Theorem read_content_decodes (st : PS) (data : bytes) :
  open_rb env (BaseProcessor.file_path (self st)) = Ok data →
  (∀ pre enc post s,
      encodings = pre ++ enc :: post →
      Forall (λ e, decode env e data = None) pre →
      decode env enc data = Some s →
      ∃ st', read_content env st = (st', Ok (universal_newlines s))
             ∧ DocumentMetadata.encoding (BaseProcessor.metadata (self st'))
               = Some (u enc))
  ∧ (Forall (λ e, decode env e data = None) encodings →
     read_content env st = (st, Ok (decode_ignore env data)))
  ∧ (∃ st' content, read_content env st = (st', Ok content))
  ∧ (∃ st' es, process env st = (st', Ok es)).
Proof.
  intros Hopen. split_and!; [..|apply text_process_returns];
    rewrite (read_content_spec st data Hopen).
  - intros pre enc post s Hencs Hpre Henc.
    rewrite (first_decodable_Some data _ pre enc post s Hencs Hpre Henc).
    by exists (encoded enc st).
  - intros Hall. by rewrite first_decodable_None.
  - destruct (first_decodable env data encodings) as [[enc s]|]; eauto.
Qed.

(** Reading the content touches neither [entries] nor the log, nor
    the path and name of the processor. *)
Lemma try_encodings_frame path encs st st' r :
  try_encodings env path encs st = (st', r) →
  entries st' = entries st ∧ log st' = log st
  ∧ BaseProcessor.file_name (self st') = BaseProcessor.file_name (self st)
  ∧ DocumentMetadata.checksum (BaseProcessor.metadata (self st'))
    = DocumentMetadata.checksum (BaseProcessor.metadata (self st)).
Proof.
  revert st. induction encs as [|enc encs IH]; intros st.
  - by intros [= <- <-].
  - cbn [try_encodings]. unfold read_text. run.
    destruct (open_rb env path) as [data|e]; simpl.
    + destruct (decode env enc data) as [s|]; simpl.
      * by intros [= <- <-].
      * apply IH.
    + destruct (decide _); simpl; [apply IH | by intros [= <- <-]].
Qed.

Lemma read_content_frame st st' r :
  read_content env st = (st', r) →
  entries st' = entries st ∧ log st' = log st
  ∧ BaseProcessor.file_name (self st') = BaseProcessor.file_name (self st)
  ∧ DocumentMetadata.checksum (BaseProcessor.metadata (self st'))
    = DocumentMetadata.checksum (BaseProcessor.metadata (self st)).
Proof.
  unfold read_content. run.
  destruct (try_encodings _ _ _ st) as [st1 [[content|]|e]] eqn:Htry;
    apply try_encodings_frame in Htry.
  - by intros [= <- <-].
  - destruct (open_rb env _); by intros [= <- <-].
  - by intros [= <- <-].
Qed.
End decoding.

Lemma sum_len_sum_list_with chunks :
  sum_len chunks
  = Z.of_nat (sum_list_with (λ c, length (DocumentChunk.content c)) chunks).
Proof. induction chunks as [|c l IH]; simpl; [done|]. unfold len. lia. Qed.

(** C6.  When the content [TextProcessor] has read is longer than 10000
    characters, [process] returns one entry, with that content, whose
    chunk list is what the chunker makes of the content with a budget of
    5000; that list is not empty, and the lengths of the chunks' contents
    add up to at least the length of the content (to two more, exactly). *)
Theorem text_chunking_applied (env : Env) (st st1 : PS) (content : str) :
  TextProcessor.read_content env (mkPS (self st) [] (log st))
  = (st1, Ok content) →
  10000 < len content →
  ∃ entry st',
    TextProcessor.process env st = (st', Ok [entry])
    ∧ KnowledgeBaseEntry.content entry = content
    ∧ KnowledgeBaseEntry.chunks entry
      = TextProcessor._create_text_chunks (self st1) content 5000
    ∧ KnowledgeBaseEntry.chunks entry ≠ []
    ∧ len content ≤ sum_len (KnowledgeBaseEntry.chunks entry)
    ∧ sum_len (KnowledgeBaseEntry.chunks entry) = len content + 2.
Proof.
  intros Hread Hlen.
  pose proof (read_content_frame env _ _ _ Hread) as (Hent & _). simpl in Hent.
  unfold TextProcessor.process. run. rewrite Hread. simpl.
  rewrite bool_decide_true by lia. rewrite Hent. simpl.
  eexists _, _. split; [reflexivity|]. simpl.
  destruct (create_text_chunks_length (self st1) 5000 content) as (Hne & Hsum).
  split_and!; try done.
  - rewrite sum_len_sum_list_with, Hsum. unfold len. lia.
  - rewrite sum_len_sum_list_with, Hsum. unfold len. lia.
Qed.

(** ** [PDFProcessor] *)

Lemma append_opt_run (o : option KnowledgeBaseEntry.t) st :
  append_opt o st
  = (mkPS (self st) (entries st ++ option_list o) (log st), Ok ()).
Proof. destruct o; run; [done|]. rewrite app_nil_r. by destruct st. Qed.

Lemma for_each_append_opt {A} (f : A → option KnowledgeBaseEntry.t) l st :
  for_each l (λ x, append_opt (f x)) st
  = (mkPS (self st) (entries st ++ omap f l) (log st), Ok ()).
Proof.
  revert st. induction l as [|x l IH]; intros st; cbn [for_each omap].
  - unfold mret, M_ret. rewrite app_nil_r. by destruct st.
  - unfold mbind, M_bind. rewrite append_opt_run, IH. cbn [self entries log].
    rewrite <- app_assoc. simpl. by destruct (f x).
Qed.

Section pdf.
Context (env : Env).
Import PDFProcessor.

Lemma plumber_page_run v i page st :
  plumber_page v (i, page) st
  = match pl_extract_text page, pl_extract_tables page with
    | Ok text, Ok page_tables =>
        (st, Ok (add_text v.1 i text, v.2 ++ page_tables))
    | Ok _, Raise e => (st, Raise e)
    | Raise e, _ => (st, Raise e)
    end.
Proof.
  unfold plumber_page. run.
  destruct (pl_extract_text page); [|done].
  by destruct (pl_extract_tables page).
Qed.

Lemma fold_plumber_frame ps v st st' r :
  fold_m plumber_page ps v st = (st', r) → st' = st.
Proof.
  revert v. induction ps as [|[i page] ps IH]; intros v; cbn [fold_m].
  - by intros [= <- <-].
  - unfold mbind, M_bind. rewrite plumber_page_run.
    destruct (pl_extract_text page) as [text|e]; [|by intros [= <- <-]].
    destruct (pl_extract_tables page) as [tb|e]; [|by intros [= <- <-]].
    apply IH.
Qed.

Lemma text_blocks_cons i t texts :
  text_blocks ((i, t) :: texts) = add_text [] i t ++ text_blocks texts.
Proof.
  unfold text_blocks, add_text. cbn [omap list_omap fst snd].
  destruct t as [t|]; [|done]. by destruct (truthy t).
Qed.

Lemma add_text_app l i t : add_text l i t = l ++ add_text [] i t.
Proof.
  unfold add_text. destruct t as [t|]; [destruct (truthy t)|];
    by rewrite ?app_nil_r.
Qed.

Lemma fold_plumber_ok (ps : list (Z * PlumberPage)) texts tbls v st :
  map (λ p, pl_extract_text p.2) ps = map Ok texts →
  map (λ p, pl_extract_tables p.2) ps = map Ok tbls →
  fold_m plumber_page ps v st
  = (st, Ok (v.1 ++ text_blocks (zip (map fst ps) texts), v.2 ++ concat tbls)).
Proof.
  revert texts tbls v.
  induction ps as [|[i page] ps IH]; intros texts tbls v Ht Hb.
  - destruct texts; [|done]. destruct tbls; [|done]. cbn.
    rewrite !app_nil_r. by destruct v.
  - destruct texts as [|t texts]; [done|]. destruct tbls as [|tb tbls]; [done|].
    injection Ht as Ht1 Ht. injection Hb as Hb1 Hb. cbn [fold_m].
    unfold mbind, M_bind. rewrite plumber_page_run.
    cbn [fst snd] in Ht1, Hb1. rewrite Ht1, Hb1.
    rewrite (IH texts tbls) by done. cbn [fst snd map zip zip_with concat].
    rewrite text_blocks_cons, (add_text_app v.1), <- !app_assoc. done.
Qed.

(** The table-aware strategy can fail only before it appends anything:
    when it raises, the state is the one it started from. *)
Lemma with_pdfplumber_raise st st1 e :
  with_pdfplumber env st = (st1, Raise e) → st1 = st.
Proof.
  unfold with_pdfplumber. run.
  destruct (PDF_open env _) as [pages|e0]; [|by intros [= <- _]].
  destruct (fold_m plumber_page (enumerate pages) ([], []) st)
    as [s1 [[all_text tables]|e1]] eqn:Hfold;
    apply fold_plumber_frame in Hfold as ->; [|by intros [= <- _]].
  rewrite for_each_append_opt. done.
Qed.
End pdf.

Section enumerate.
Context {A : Type}.
Implicit Types l : list A.

Lemma enumerate_lookup l k :
  enumerate l !! k = (λ x, (Z.of_nat k, x)) <$> l !! k.
Proof. unfold enumerate. by rewrite list_lookup_imap. Qed.

Lemma length_enumerate l : length (enumerate l) = length l.
Proof. apply length_imap. Qed.

Lemma map_snd_enumerate l : map snd (enumerate l) = l.
Proof.
  apply list_eq. intros k. rewrite list_lookup_fmap, enumerate_lookup.
  by destruct (l !! k).
Qed.

Lemma map_fst_enumerate l :
  map fst (enumerate l) = map Z.of_nat (seq 0 (length l)).
Proof.
  apply list_eq. intros k.
  rewrite !list_lookup_fmap, enumerate_lookup.
  destruct (l !! k) as [x|] eqn:Hk; simpl.
  - apply lookup_lt_Some in Hk. by rewrite lookup_seq_lt.
  - apply lookup_ge_None in Hk. by rewrite lookup_seq_ge.
Qed.

Lemma map_enumerate {B} (f : A → B) l :
  map (λ p, f p.2) (enumerate l) = map f l.
Proof.
  rewrite <- (map_snd_enumerate l) at 2. by rewrite <- list_fmap_compose.
Qed.

End enumerate.

Lemma zip_fst_enumerate {A B} (k : list B) (l : list A) :
  length k = length l → zip (map fst (enumerate k)) l = enumerate l.
Proof.
  intros Hlen. apply list_eq. intros i.
  rewrite lookup_zip_with, list_lookup_fmap, !enumerate_lookup.
  destruct (l !! i) as [x|] eqn:Hi, (k !! i) as [y|] eqn:Hk; simpl; try done.
  apply lookup_lt_Some in Hi. apply lookup_ge_None in Hk. lia.
Qed.

Section pdf_strategies.
Context (env : Env).
Import PDFProcessor.

Lemma with_pdfplumber_ok st pages texts tbls :
  PDF_open env (BaseProcessor.file_path (self st)) = Ok pages →
  map pl_extract_text pages = map Ok texts →
  map pl_extract_tables pages = map Ok tbls →
  ∃ entry,
    with_pdfplumber env st
    = (mkPS (self st)
            (entries st ++ entry
               :: omap (λ p, _create_table_entry (self st) p.2 p.1)
                    (enumerate (concat tbls)))
            (log st), Ok ())
    ∧ KnowledgeBaseEntry.confidence_score entry = 0.9%Q
    ∧ KnowledgeBaseEntry.document_type entry = u "pdf"
    ∧ KnowledgeBaseEntry.chunks entry
      = map (page_chunk (self st) (len (text_blocks (enumerate texts))))
            (enumerate (text_blocks (enumerate texts))).
Proof.
  intros Hopen Ht Hb. unfold with_pdfplumber. run. rewrite Hopen.
  rewrite (fold_plumber_ok (enumerate pages) texts tbls).
  2:{ by rewrite (map_enumerate pl_extract_text). }
  2:{ by rewrite (map_enumerate pl_extract_tables). }
  cbn [fst snd app]. rewrite for_each_append_opt. cbn [self entries log].
  rewrite zip_fst_enumerate.
  2:{ rewrite <- (length_map pl_extract_text pages), Ht. apply length_map. }
  eexists. split.
  { rewrite <- app_assoc. reflexivity. }
  split_and!; reflexivity.
Qed.

Lemma pypdf2_page_run all_text i page st :
  pypdf2_page all_text (i, page) st
  = match py_extract_text page with
    | Ok text => (st, Ok (add_text all_text i (Some text)))
    | Raise e => (st, Raise e)
    end.
Proof. unfold pypdf2_page. run. by destruct (py_extract_text page). Qed.

Lemma fold_pypdf2_frame ps v st st' r :
  fold_m pypdf2_page ps v st = (st', r) → st' = st.
Proof.
  revert v. induction ps as [|[i page] ps IH]; intros v; cbn [fold_m].
  - by intros [= <- <-].
  - unfold mbind, M_bind. rewrite pypdf2_page_run.
    destruct (py_extract_text page) as [text|e]; [|by intros [= <- <-]].
    apply IH.
Qed.

Lemma fold_pypdf2_ok (ps : list (Z * PyPDF2Page)) texts v st :
  map (λ p, py_extract_text p.2) ps = map Ok texts →
  fold_m pypdf2_page ps v st
  = (st, Ok (v ++ text_blocks (zip (map fst ps) (map Some texts)))).
Proof.
  revert texts v.
  induction ps as [|[i page] ps IH]; intros texts v Ht.
  - destruct texts; [|done]. cbn. by rewrite !app_nil_r.
  - destruct texts as [|t texts]; [done|].
    injection Ht as Ht1 Ht. cbn [fold_m].
    unfold mbind, M_bind. rewrite pypdf2_page_run.
    cbn [fst snd] in Ht1. rewrite Ht1.
    rewrite (IH texts) by done. cbn [fst snd map zip zip_with].
    rewrite text_blocks_cons, (add_text_app v), <- !app_assoc. done.
Qed.

(** When the PyPDF2 strategy raises it has appended nothing. *)
Lemma with_PyPDF2_raise e st st2 e2 :
  with_PyPDF2 env e st = (st2, Raise e2) → entries st2 = entries st.
Proof.
  unfold with_PyPDF2. run.
  destruct (open_rb env _) as [data|e0]; [|by intros [= <- _]].
  destruct (PdfReader env data) as [pages|e0]; [|by intros [= <- _]].
  destruct (fold_m pypdf2_page (enumerate pages) [] _)
    as [s1 [all_text|e1]] eqn:Hfold;
    apply fold_pypdf2_frame in Hfold as ->; [done|by intros [= <- _]].
Qed.

Lemma page_chunk_content me n (l : list str) :
  map DocumentChunk.content (map (page_chunk me n) (enumerate l)) = l.
Proof.
  rewrite <- list_fmap_compose. rewrite <- (map_snd_enumerate l) at 2.
  apply list_fmap_ext. by intros _ [i t] _.
Qed.

Lemma text_blocks_all (its : list (Z * option str)) :
  Forall (λ p, has_text p.2 = true) its →
  text_blocks its = map (λ p, page_block p.1 (default [] p.2)) its.
Proof.
  induction 1 as [|[i t] its Ht _ IH]; [done|].
  rewrite text_blocks_cons, IH. destruct t as [t|]; [|done].
  simpl in *. by rewrite Ht.
Qed.

(** Every chunk the table-aware strategy builds has content type
    [text]. *)
Lemma page_chunk_type me n (l : list str) :
  Forall (λ c, DocumentChunk.content_type c = u "text")
         (map (page_chunk me n) (enumerate l)).
Proof. apply Forall_map, Forall_forall. by intros [i t] _. Qed.

(** C4, as amended.  When the table-aware strategy runs through, the
    first entry [process] returns is the document's: its confidence is
    0.9, its chunks all have content type [text], and they hold, in
    page order, the text blocks of the pages that have text, one chunk
    for each such page.  When every page has text there is one chunk
    per page, and the chunk of page number [k + 1] has index [k]. *)
Theorem pdf_primary_chunks (st : PS) pages texts tbls :
  PyPDF2_installed env = true →
  pdfplumber_installed env = true →
  PDF_open env (BaseProcessor.file_path (self st)) = Ok pages →
  map pl_extract_text pages = map Ok texts →
  map pl_extract_tables pages = map Ok tbls →
  ∃ entry rest st',
    process env st = (st', Ok (entry :: rest))
    ∧ KnowledgeBaseEntry.confidence_score entry = 0.9%Q
    ∧ map DocumentChunk.content (KnowledgeBaseEntry.chunks entry)
      = text_blocks (enumerate texts)
    ∧ Forall (λ c, DocumentChunk.content_type c = u "text")
             (KnowledgeBaseEntry.chunks entry)
    ∧ (Forall (λ t, has_text t = true) texts →
       length (KnowledgeBaseEntry.chunks entry) = length pages
       ∧ ∀ k c, KnowledgeBaseEntry.chunks entry !! k = Some c →
           DocumentChunk.chunk_index c = Z.of_nat k
           ∧ ∃ t, texts !! k = Some (Some t)
                  ∧ DocumentChunk.content c = page_block (Z.of_nat k) t).
Proof.
  intros Hpy Hpl Hopen Ht Hb.
  destruct (with_pdfplumber_ok (mkPS (self st) [] (log st)) pages texts tbls)
    as (entry & Hrun & Hconf & _ & Hchunks); [done..|].
  unfold process. run. rewrite Hpy, Hpl. run. rewrite Hrun.
  cbn [self entries log app].
  eexists entry, _, _. split; [reflexivity|].
  rewrite Hchunks. split_and!.
  - done.
  - apply page_chunk_content.
  - apply page_chunk_type.
  - intros Hall.
    assert (length texts = length pages) as Hlen.
    { rewrite <- (length_map Ok texts), <- Ht. apply length_map. }
    rewrite text_blocks_all.
    2:{ apply Forall_forall. intros [i t] Hin.
        apply list_elem_of_lookup in Hin as [k Hk].
        rewrite enumerate_lookup in Hk.
        destruct (texts !! k) as [t'|] eqn:Hk'; [|done].
        injection Hk as _ ->. rewrite Forall_forall in Hall.
        apply Hall. by eapply list_elem_of_lookup_2. }
    split.
    + by rewrite length_map, length_enumerate, length_map, length_enumerate.
    + intros k c. rewrite list_lookup_fmap, enumerate_lookup.
      rewrite list_lookup_fmap, enumerate_lookup.
      destruct (texts !! k) as [t|] eqn:Hk; [|done]. cbn.
      intros [= <-]. split; [done|].
      rewrite Forall_forall in Hall.
      assert (has_text t = true) as Htext
        by (apply Hall; by eapply list_elem_of_lookup_2).
      destruct t as [t|]; [|done]. by exists t.
Qed.

(** C1, as amended.  When the table-aware strategy fails, [process]
    falls back to PyPDF2.  If PyPDF2 reads the file and every page, the
    result is exactly one entry, the document's, with confidence 0.7,
    no chunks, and as content the text blocks of the pages that have
    text; there is no table entry.  If PyPDF2 fails as well, the result
    is empty. *)
Theorem pdf_fallback_entry (st st1 : PS) (e : exn) :
  PyPDF2_installed env = true →
  pdfplumber_installed env = true →
  with_pdfplumber env (mkPS (self st) [] (log st)) = (st1, Raise e) →
  (∀ data pages texts,
      open_rb env (BaseProcessor.file_path (self st)) = Ok data →
      PdfReader env data = Ok pages →
      map py_extract_text pages = map Ok texts →
      ∃ entry st',
        process env st = (st', Ok [entry])
        ∧ KnowledgeBaseEntry.confidence_score entry = 0.7%Q
        ∧ KnowledgeBaseEntry.chunks entry = []
        ∧ KnowledgeBaseEntry.document_type entry = u "pdf"
        ∧ KnowledgeBaseEntry.content entry
          = join [NL; NL] (text_blocks (enumerate (map Some texts))))
  ∧ (∀ st2 e2,
      with_PyPDF2 env e st1 = (st2, Raise e2) →
      ∃ st', process env st = (st', Ok [])).
Proof.
  intros Hpy Hpl Hfail.
  pose proof (with_pdfplumber_raise env _ _ _ Hfail) as ->. split.
  - intros data pages texts Hopen Hread Ht.
    unfold process. run. rewrite Hpy, Hpl. run. rewrite Hfail.
    unfold with_PyPDF2. run. rewrite Hopen, Hread.
    rewrite (fold_pypdf2_ok (enumerate pages) texts).
    2:{ by rewrite (map_enumerate py_extract_text). }
    cbn [app]. rewrite zip_fst_enumerate.
    2:{ rewrite <- (length_map py_extract_text pages), Ht.
        by rewrite !length_map. }
    eexists _, _. split; [reflexivity|]. split_and!; reflexivity.
  - intros st2 e2 Hfall.
    pose proof (with_PyPDF2_raise _ _ _ _ Hfall) as Hent.
    unfold process. run. rewrite Hpy, Hpl. run. rewrite Hfail, Hfall.
    cbn [self entries log]. eexists. by rewrite Hent.
Qed.
End pdf_strategies.

(** ** [ImageProcessor] *)

(** C7, as amended.  When the image opens and the recognition runs,
    [process] returns the descriptor entry, with confidence 1.0, as its
    last entry, preceded by one OCR entry, with confidence 0.7 and the
    first 500 characters of the recognized text as summary, if and only
    if the recognized text is not empty once its whitespace is stripped;
    so a text that is empty or all whitespace gives exactly one entry.
    When the image cannot be opened, or the recognition fails, there is
    no entry at all. *)
Theorem image_entries (env : Env) (st : PS) :
  PIL_installed env = true →
  pytesseract_installed env = true →
  (∀ img text,
      Image_open env (BaseProcessor.file_path (self st)) = Ok img →
      image_to_string env img = Ok text →
      ∃ ocr descriptor st',
        ImageProcessor.process env st = (st', Ok (ocr ++ [descriptor]))
        ∧ KnowledgeBaseEntry.confidence_score descriptor = 1.0%Q
        ∧ KnowledgeBaseEntry.document_type descriptor = u "image"
        ∧ (strip text = [] → ocr = [])
        ∧ (strip text ≠ [] →
           ∃ entry, ocr = [entry]
             ∧ KnowledgeBaseEntry.confidence_score entry = 0.7%Q
             ∧ KnowledgeBaseEntry.document_type entry = u "image_ocr"
             ∧ KnowledgeBaseEntry.content entry
               = u "Texto extraído da imagem:" ++ [NL; NL] ++ text
             ∧ KnowledgeBaseEntry.summary entry = take 500 text))
  ∧ ((∃ e, Image_open env (BaseProcessor.file_path (self st)) = Raise e)
     ∨ (∃ img e, Image_open env (BaseProcessor.file_path (self st)) = Ok img
                 ∧ image_to_string env img = Raise e) →
     ∃ st', ImageProcessor.process env st = (st', Ok [])).
Proof.
  intros Hpil Htess. split.
  - intros img text Hopen Hocr.
    unfold ImageProcessor.process. run. rewrite Hpil, Htess. run.
    rewrite Hopen, Hocr. run.
    destruct (truthy (strip text)) eqn:Htext; run.
    + apply truthy_true in Htext.
      eexists [_], _, _. split; [reflexivity|]. split_and!; try done.
      intros _. eexists. split; [reflexivity|]. done.
    + apply truthy_false in Htext.
      eexists [], _, _. split; [reflexivity|]. split_and!; done.
  - intros Hfail. unfold ImageProcessor.process. run.
    rewrite Hpil, Htess. run.
    destruct Hfail as [[e ->]|(img & e & -> & ->)]; run; by eexists.
Qed.

(** ** [ExcelProcessor] *)

Lemma for_each_inv {A} (I : PS → Prop) (l : list A) (body : A → M PS ()) :
  (∀ x s s' r, x ∈ l → I s → body x s = (s', r) → I s') →
  ∀ s s' r, I s → for_each l body s = (s', r) → I s'.
Proof.
  induction l as [|x l IH]; intros Hbody s s' r Hs; cbn [for_each].
  - by intros [= <- _].
  - unfold mbind, M_bind. destruct (body x s) as [s1 [[]|e]] eqn:Hx.
    + apply IH; [|by eapply Hbody; [left|..]].
      intros y t t' r' Hy. apply Hbody. by right.
    + intros [= <- _]. eapply Hbody; [left|done..].
Qed.

Section excel.
Context (env : Env).
Import ExcelProcessor.

(** Whatever [_create_entry_from_row] returns as an entry owns one
    chunk, indexed by the row's index label and counting the columns. *)
Lemma create_entry_from_row_chunk globals me row columns sheet_name row_index
    entry :
  _create_entry_from_row globals env me row columns sheet_name row_index
  = Ok (Some entry) →
  KnowledgeBaseEntry.document_type entry = u "excel"
  ∧ ∃ chunk,
      KnowledgeBaseEntry.chunks entry = [chunk]
      ∧ DocumentChunk.chunk_index chunk = row_index
      ∧ DocumentChunk.total_chunks chunk = len columns.
Proof.
  unfold _create_entry_from_row. unfold mbind, result_bind.
  destruct (fold_r _ columns _) as [[title_parts content_parts]|e]; [|done].
  destruct (truthy content_parts); [|done]. cbn [negb].
  intros [= <-]. split; [done|]. by eexists.
Qed.

(** In the module as it stands [pd] is not a global name, so building
    the entry of a row fails at the first column. *)
Lemma create_entry_from_row_NameError me row col columns sheet_name row_index :
  ∃ e, _create_entry_from_row module_globals env me row (col :: columns)
         sheet_name row_index = Raise e
       ∧ exn_cls e = NameError.
Proof. by eexists. Qed.


Lemma sheet_body_no_entries sheet s s' r :
  entries s = [] →
  sheet_body module_globals env sheet s = (s', r) → entries s' = [].
Proof.
  destruct sheet as [sheet_name df]. intros Hs.
  unfold sheet_body. fold (pruned df).
  destruct (pd.empty (pruned df)) eqn:Hempty; [by intros [= <- _]|].
  unfold pd.empty in Hempty. unfold pd.iterrows.
  destruct (df_columns (pruned df)) as [|col columns]; [done|].
  destruct (df_rows (pruned df)) as [|[idx cells] rows]; [done|].
  run. by intros [= <- _].
Qed.

(** What the module as it stands does on every workbook:
    [ExcelProcessor.process], with pandas installed, returns no entry at
    all. *)
Lemma excel_no_entries (st : PS) :
  pandas_installed env = true →
  ∃ st', process env st = (st', Ok []).
Proof.
  intros Hpd. unfold process, process_in. run. rewrite Hpd. run.
  destruct (pd.read_excel env _) as [sheets|e]; [|by eexists].
  destruct (for_each sheets _ _) as [s1 r1] eqn:Hloop.
  assert (entries s1 = []) as Hs1.
  { revert Hloop. apply (for_each_inv (λ s, entries s = [])); [|done].
    intros sheet s s' r _. apply sheet_body_no_entries. }
  destruct r1 as [[]|e]; cbn [self entries log]; rewrite Hs1; by eexists.
Qed.
End excel.

(** ** [UniversalDocumentProcessor.process_file] *)

Section process_file.
Context (env : Env).
Import UniversalDocumentProcessor.

(** C2, as amended.  [process_file] never raises.  It runs the
    processor registered for the detected category, or [TextProcessor]
    when none is registered, and returns the entries that processor
    returns; when constructing or running the processor raises, it
    returns the empty list and logs the error (it does not try
    [TextProcessor] then). *)
Theorem process_file_returns (file_path : str) (lg : Log) :
  let doc_type := DocumentTypeDetector.detect env file_path in
  let processor_class :=
    default TextProcessor.process (processors doc_type) in
  ∃ lg' entries,
    process_file env file_path lg = (lg', Ok entries)
    ∧ match construct_and_process env processor_class file_path
              (lg ++ preamble env file_path) with
      | (lg2, Ok es) =>
          entries = es
          ∧ lg' = lg2 ++ [(INFO, u "Extraídas " ++ str_of_int (len es)
                                 ++ u " entradas de " ++ file_path)]
      | (lg2, Raise e) =>
          entries = []
          ∧ lg' = lg2 ++ [(ERROR, u "Erro ao processar " ++ file_path
                                  ++ u ": " ++ exn_msg e)]
      end.
Proof.
  intros doc_type processor_class. unfold process_file, preamble.
  fold doc_type. unfold UniversalDocumentProcessor.logger. run.
  subst processor_class.
  destruct (processors doc_type) as [cls|]; run;
    rewrite <- ?app_assoc; cbn [app from_option id];
    match goal with
    | |- context [construct_and_process ?e ?c ?p ?l] =>
        destruct (construct_and_process e c p l) as [lg2 [es|e']]
    end; by eexists _, _.
Qed.

(** The categories without a processor of their own go to
    [TextProcessor]. *)
Lemma processors_unregistered (doc_type : DocumentType) :
  processors doc_type = None
  ↔ doc_type ∈ [POWERPOINT; EMAIL; HTML; CODE; ARCHIVE; UNKNOWN].
Proof.
  rewrite !elem_of_cons, elem_of_nil.
  destruct doc_type; cbn; intuition (discriminate || auto 10).
Qed.
End process_file.

(** ** The pipeline on the examples *)

Section examples.
Import Example.

(** The text decoder on a file that is not UTF-8, and in an environment
    whose codecs all fail. *)
Lemma read_content_decodes_witness :
  (∃ st', TextProcessor.read_content text_env (start text_env "latin.txt")
          = (st', Ok [233%N])
          ∧ DocumentMetadata.encoding (BaseProcessor.metadata (self st'))
            = Some (u "latin-1"))
  ∧ TextProcessor.read_content (without_codecs text_env)
      (start text_env "latin.txt")
    = (start text_env "latin.txt", Ok []).
Proof.
  split.
  - apply (proj1 (read_content_decodes text_env (start text_env "latin.txt")
                    [xe9] eq_refl)
             ["utf-8"%string] "latin-1"%string
             ["cp1252"; "iso-8859-1"]%string [233%N]).
    + reflexivity.
    + repeat constructor.
    + reflexivity.
  - apply (proj1 (proj2 (read_content_decodes (without_codecs text_env)
                           (start text_env "latin.txt") [xe9] eq_refl))).
    repeat constructor.
Defined.

(** A text of 10001 characters is chunked. *)
Lemma text_chunking_applied_witness :
  ∃ entry st',
    TextProcessor.process text_env (start text_env "big.txt")
    = (st', Ok [entry])
    ∧ KnowledgeBaseEntry.content entry = replicate (Z.to_nat 10001) 97%N
    ∧ KnowledgeBaseEntry.chunks entry
      = TextProcessor._create_text_chunks
          (self (encoded "utf-8" (start text_env "big.txt")))
          (replicate (Z.to_nat 10001) 97%N) 5000
    ∧ KnowledgeBaseEntry.chunks entry ≠ []
    ∧ len (replicate (Z.to_nat 10001) 97%N)
      ≤ sum_len (KnowledgeBaseEntry.chunks entry)
    ∧ sum_len (KnowledgeBaseEntry.chunks entry)
      = len (replicate (Z.to_nat 10001) 97%N) + 2.
Proof.
  apply (text_chunking_applied text_env (start text_env "big.txt")
           (encoded "utf-8" (mkPS (self (start text_env "big.txt")) []
                               (log (start text_env "big.txt"))))
           (replicate (Z.to_nat 10001) 97%N)).
  - rewrite (read_content_spec text_env
               (mkPS (self (start text_env "big.txt")) []
                  (log (start text_env "big.txt")))
               big_text eq_refl).
    rewrite (first_decodable_Some text_env big_text TextProcessor.encodings
               [] "utf-8"%string ["latin-1"; "cp1252"; "iso-8859-1"]%string
               (map Byte.to_N big_text) eq_refl (Forall_nil_2 _)).
    + unfold big_text. rewrite fmap_replicate.
      rewrite universal_newlines_no_CR; [reflexivity|].
      by apply Forall_replicate.
    + apply (utf8_go_ascii big_text []). by apply Forall_replicate.
  - unfold len. rewrite length_replicate. reflexivity.
Defined.

(** The fallback on a PDF of three pages that pdfplumber cannot open. *)
Lemma pdf_fallback_entry_witness :
  ∃ entry st',
    PDFProcessor.process (pdf_env unreadable (Ok three_pages_PyPDF2))
      (start (pdf_env unreadable (Ok three_pages_PyPDF2)) "doc.pdf")
    = (st', Ok [entry])
    ∧ KnowledgeBaseEntry.confidence_score entry = 0.7%Q
    ∧ KnowledgeBaseEntry.chunks entry = []
    ∧ KnowledgeBaseEntry.document_type entry = u "pdf"
    ∧ KnowledgeBaseEntry.content entry
      = join [NL; NL]
          (text_blocks (enumerate (map Some [u "one"; u "two"; u "three"]))).
Proof.
  eapply (proj1 (pdf_fallback_entry (pdf_env unreadable (Ok three_pages_PyPDF2))
                   (start (pdf_env unreadable (Ok three_pages_PyPDF2)) "doc.pdf")
                   _ _ eq_refl eq_refl eq_refl)
            (b "%PDF") three_pages_PyPDF2).
  - reflexivity.
  - reflexivity.
  - reflexivity.
Defined.

(** C1, as stated, fails: the entry of the fallback owns no chunk, on a
    PDF of three pages. *)
Lemma pdf_fallback_without_chunks :
  (∃ e st1,
      PDFProcessor.with_pdfplumber (pdf_env unreadable (Ok three_pages_PyPDF2))
        (start (pdf_env unreadable (Ok three_pages_PyPDF2)) "doc.pdf")
      = (st1, Raise e))
  ∧ ∃ entry,
      run (pdf_env unreadable (Ok three_pages_PyPDF2)) "doc.pdf" = Ok [entry]
      ∧ KnowledgeBaseEntry.confidence_score entry = 0.7%Q
      ∧ length three_pages_PyPDF2 = 3%nat
      ∧ KnowledgeBaseEntry.chunks entry = []
      ∧ ¬ (length (KnowledgeBaseEntry.chunks entry)
           = length three_pages_PyPDF2).
Proof.
  split.
  - eexists _, _. reflexivity.
  - eexists. split; [vm_compute; reflexivity|]. by split_and!.
Qed.

(** The table-aware strategy on three pages with text and one table. *)
Lemma pdf_primary_chunks_witness :
  ∃ entry rest st',
    PDFProcessor.process (pdf_env (Ok three_pages) unreadable)
      (start (pdf_env (Ok three_pages) unreadable) "doc.pdf")
    = (st', Ok (entry :: rest))
    ∧ KnowledgeBaseEntry.confidence_score entry = 0.9%Q
    ∧ map DocumentChunk.content (KnowledgeBaseEntry.chunks entry)
      = text_blocks (enumerate [Some (u "one"); Some (u "two"); Some (u "three")])
    ∧ Forall (λ c, DocumentChunk.content_type c = u "text")
             (KnowledgeBaseEntry.chunks entry)
    ∧ (Forall (λ t, has_text t = true)
              [Some (u "one"); Some (u "two"); Some (u "three")] →
       length (KnowledgeBaseEntry.chunks entry) = length three_pages
       ∧ ∀ k c, KnowledgeBaseEntry.chunks entry !! k = Some c →
           DocumentChunk.chunk_index c = Z.of_nat k
           ∧ ∃ t, [Some (u "one"); Some (u "two"); Some (u "three")] !! k
                  = Some (Some t)
                  ∧ DocumentChunk.content c
                    = PDFProcessor.page_block (Z.of_nat k) t).
Proof.
  apply (pdf_primary_chunks (pdf_env (Ok three_pages) unreadable)
           (start (pdf_env (Ok three_pages) unreadable) "doc.pdf") three_pages
           [Some (u "one"); Some (u "two"); Some (u "three")]
           [[]; [[[Some (u "a"); Some (u "b")]; [Some (u "c"); Some (u "d")]]]; []]);
    reflexivity.
Defined.

(** Scenario B of the specification: three chunks, and one table entry. *)
Example pdf_three_pages :
  ∃ entry table,
    run (pdf_env (Ok three_pages) unreadable) "doc.pdf" = Ok [entry; table]
    ∧ length (KnowledgeBaseEntry.chunks entry) = 3%nat
    ∧ map DocumentChunk.chunk_index (KnowledgeBaseEntry.chunks entry) = [0; 1; 2]
    ∧ KnowledgeBaseEntry.document_type table = u "pdf_table"
    ∧ KnowledgeBaseEntry.confidence_score table = 0.8%Q.
Proof. eexists _, _. split; [vm_compute; reflexivity|]. by split_and!. Qed.

(** C4, as stated, fails: of two pages the first has no text, and the
    entry owns one chunk, which holds page 2 under the index 0. *)
Lemma pdf_page_without_text_has_no_chunk :
  ∃ entry chunk,
    run (pdf_env (Ok scanned_cover) unreadable) "doc.pdf" = Ok [entry]
    ∧ KnowledgeBaseEntry.confidence_score entry = 0.9%Q
    ∧ length scanned_cover = 2%nat
    ∧ KnowledgeBaseEntry.chunks entry = [chunk]
    ∧ DocumentChunk.content chunk = PDFProcessor.page_block 1 (u "body")
    ∧ DocumentChunk.chunk_index chunk = 0
    ∧ ¬ (length (KnowledgeBaseEntry.chunks entry) = length scanned_cover).
Proof.
  eexists _, _. split; [vm_compute; reflexivity|].
  split_and!; try reflexivity. by vm_compute.
Qed.

(** An image whose text is recognized. *)
Lemma image_entries_witness :
  ∃ ocr descriptor st',
    ImageProcessor.process (image_env "hello")
      (start (image_env "hello") "pic.png")
    = (st', Ok (ocr ++ [descriptor]))
    ∧ KnowledgeBaseEntry.confidence_score descriptor = 1.0%Q
    ∧ KnowledgeBaseEntry.document_type descriptor = u "image"
    ∧ (strip (u "hello") = [] → ocr = [])
    ∧ (strip (u "hello") ≠ [] →
       ∃ entry, ocr = [entry]
         ∧ KnowledgeBaseEntry.confidence_score entry = 0.7%Q
         ∧ KnowledgeBaseEntry.document_type entry = u "image_ocr"
         ∧ KnowledgeBaseEntry.content entry
           = u "Texto extraído da imagem:" ++ [NL; NL] ++ u "hello"
         ∧ KnowledgeBaseEntry.summary entry = take 500 (u "hello")).
Proof.
  apply (proj1 (image_entries (image_env "hello")
                  (start (image_env "hello") "pic.png") eq_refl eq_refl)
           picture (u "hello")); reflexivity.
Defined.

(** C7, as stated, fails: the recognized text is one space, which is
    not the empty string, and no OCR entry is emitted. *)
Lemma image_blank_text_has_no_ocr_entry :
  image_to_string (image_env " ") picture = Ok [32%N]
  ∧ [32%N] ≠ []
  ∧ ∃ descriptor,
      run (image_env " ") "pic.png" = Ok [descriptor]
      ∧ KnowledgeBaseEntry.document_type descriptor = u "image"
      ∧ KnowledgeBaseEntry.confidence_score descriptor = 1.0%Q.
Proof.
  split; [reflexivity|]. split; [done|].
  eexists. split; [vm_compute; reflexivity|]. by split.
Qed.

(** C2, as stated, fails: without pandas the processor selected for a
    spreadsheet raises, [TextProcessor] would return an entry for the
    file, and [process_file] returns none. *)
Lemma process_file_no_text_fallback :
  DocumentTypeDetector.detect (without_pandas text_env) (u "table.csv") = EXCEL
  ∧ UniversalDocumentProcessor.processors EXCEL = Some ExcelProcessor.process
  ∧ (∃ lg e,
        UniversalDocumentProcessor.construct_and_process
          (without_pandas text_env) ExcelProcessor.process (u "table.csv") []
        = (lg, Raise e))
  ∧ (∃ lg entry,
        UniversalDocumentProcessor.construct_and_process
          (without_pandas text_env) TextProcessor.process (u "table.csv") []
        = (lg, Ok [entry]))
  ∧ run (without_pandas text_env) "table.csv" = Ok [].
Proof.
  split_and!.
  - vm_compute. reflexivity.
  - reflexivity.
  - eexists _, _. vm_compute. reflexivity.
  - eexists _, _. vm_compute. reflexivity.
  - vm_compute. reflexivity.
Qed.

(** C5: the workbook [one_row] has one row that is not empty after the
    pruning, and [process_file] returns no entry for it: building the
    row's entry raises [NameError], which [process] logs. *)
Example excel_one_row_no_entry :
  map (λ sheet, length (df_rows (pruned (pd.frame sheet.2)))) one_row
  = [1%nat]
  ∧ UniversalDocumentProcessor.process_file excel_env (u "table.csv") []
    = ([(INFO, u "Processando: table.csv");
        (INFO, u "Tipo detectado: excel");
        (ERROR, u "Erro ao processar Excel table.csv: name 'pd' is not defined");
        (INFO, u "Extraídas 0 entradas de table.csv")],
       Ok []).
Proof. split; vm_compute; reflexivity. Qed.

End examples.


(** * Further properties *)

(** ** Decimal numbers in identifiers *)

Section decimal.

Lemma utf8_go_ignore_ascii (data : bytes) (out : str) :
  Forall (λ b, (Byte.to_N b < 128)%N) data →
  utf8_go false None data out = Some (rev out ++ map Byte.to_N data).
Proof.
  intros Hdata. revert out.
  induction Hdata as [|b data Hb _ IH]; intros out; cbn [utf8_go map].
  - by rewrite app_nil_r.
  - unfold utf8_start. apply N.ltb_lt in Hb. rewrite Hb, IH.
    cbn [rev]. by rewrite <- app_assoc.
Qed.

Lemma u_ascii (s : string) :
  ascii_literal s → u s = map Byte.to_N (String.list_byte_of_string s).
Proof.
  intros Hs. unfold u, utf8_decode_ignore.
  by rewrite utf8_go_ignore_ascii.
Qed.

Lemma pretty_N_char_ascii x s :
  ascii_literal s → ascii_literal (String (pretty_N_char x) s).
Proof.
  intros Hs. unfold ascii_literal. cbn [String.list_byte_of_string].
  constructor; [|exact Hs].
  unfold pretty_N_char. repeat case_match; by compute.
Qed.

Lemma pretty_N_go_ascii x s :
  ascii_literal s → ascii_literal (pretty_N_go x s).
Proof.
  revert s. induction (N.lt_wf_0 x) as [x _ IH]; intros s Hs.
  assert (x = 0 ∨ 0 < x)%N as [->|?] by lia.
  - by rewrite pretty_N_go_0.
  - rewrite pretty_N_go_step by done. apply IH.
    + by apply N.div_lt.
    + by apply pretty_N_char_ascii.
Qed.

Lemma pretty_N_ascii (x : N) : ascii_literal (pretty x).
Proof.
  unfold pretty, pretty_N. case_decide.
  - repeat constructor.
  - apply pretty_N_go_ascii. constructor.
Qed.

Lemma pretty_Z_ascii (z : Z) : ascii_literal (pretty z).
Proof.
  destruct z as [|p|p]; unfold pretty, pretty_Z.
  - repeat constructor.
  - apply (pretty_N_ascii (Npos p)).
  - constructor; [by compute|]. apply (pretty_N_ascii (Npos p)).
Qed.

Lemma to_N_inj : Inj (=) (=) Byte.to_N.
Proof.
  intros a c Hac. apply (f_equal Byte.of_N) in Hac.
  rewrite !Byte.of_to_N in Hac. by injection Hac.
Qed.

Lemma list_byte_of_string_inj : Inj (=) (=) String.list_byte_of_string.
Proof.
  intros s t Hst. apply (f_equal String.string_of_list_byte) in Hst.
  by rewrite !String.string_of_list_byte_of_string in Hst.
Qed.

(** [str] of an [int] determines the [int]. *)
Lemma str_of_int_inj : Inj (=) (=) str_of_int.
Proof.
  intros x y. unfold str_of_int.
  rewrite !u_ascii by apply pretty_Z_ascii. intros Hxy.
  apply (inj pretty), list_byte_of_string_inj.
  revert Hxy. apply list_fmap_eq_inj, to_N_inj.
Qed.

(** Names made of a prefix and the numbers 0, 1, 2, ... differ. *)
Lemma NoDup_numbered (prefix : str) (n : nat) :
  NoDup (map (λ i, prefix ++ str_of_int i) (map Z.of_nat (seq 0 n))).
Proof.
  apply NoDup_fmap_2.
  - intros i j Hij. by apply app_inv_head, str_of_int_inj in Hij.
  - apply NoDup_fmap_2; [apply _|apply NoDup_seq].
Qed.
End decimal.

(** ** More on the text chunker *)

Section chunker_bounds.
Context (self : BaseProcessor.t) (chunk_size : Z).
Import TextProcessor.

Lemma join_app_terminated (done rest : list str) :
  rest ≠ [] →
  join [NL; NL] (done ++ rest) = terminated done ++ join [NL; NL] rest.
Proof.
  intros Hrest. induction done as [|p done IH]; [done|].
  cbn [app]. rewrite join_cons by (by destruct done, rest).
  rewrite IH. unfold terminated. cbn [map concat].
  by rewrite <- !app_assoc.
Qed.

Lemma len_join_cons (para : str) (rest : list str) :
  len para ≤ len (join [NL; NL] (para :: rest)).
Proof.
  destruct rest as [|q rest]; [done|].
  rewrite join_cons by done. rewrite len_app.
  pose proof (len_nonneg ([NL; NL] ++ join [NL; NL] (q :: rest))). lia.
Qed.

Lemma foldl_para_step_small (done rest : list str) :
  len (join [NL; NL] (done ++ rest)) < chunk_size →
  foldl (para_step self chunk_size) (Locals [] (terminated done) 0) rest
  = Locals [] (terminated (done ++ rest)) 0.
Proof.
  revert done. induction rest as [|para rest IH]; intros done Hlen.
  - by rewrite app_nil_r.
  - cbn [foldl]. unfold para_step at 2.
    cbn [current_chunk chunks chunk_index].
    rewrite join_app_terminated, len_app in Hlen by done.
    pose proof (len_join_cons para rest).
    rewrite bool_decide_true by lia.
    rewrite <- terminated_snoc.
    replace (done ++ para :: rest) with ((done ++ [para]) ++ rest)
      by by rewrite <- app_assoc.
    apply IH. rewrite <- app_assoc. cbn [app].
    rewrite join_app_terminated, len_app by done. lia.
Qed.

(** X1.  A content shorter than the budget makes one chunk: the content and
    a blank line, with index 0 and a total of 1. *)
Theorem create_text_chunks_single (content : str) :
  len content < chunk_size →
  _create_text_chunks self content chunk_size
  = [new_chunk self (content ++ [NL; NL]) 0 1].
Proof.
  intros Hlen. unfold _create_text_chunks.
  pose proof (foldl_para_step_small [] (split content [NL; NL])) as Hfold.
  cbn [app] in Hfold. rewrite join_split in Hfold by done.
  change (terminated []) with (@nil N) in Hfold. rewrite Hfold by done.
  cbn [current_chunk chunks chunk_index].
  unfold terminated. rewrite concat_terminated by apply split_go_nonempty.
  rewrite join_split by done.
  destruct (content ++ [NL; NL]) as [|c rest] eqn:Hc.
  { by destruct content. }
  reflexivity.
Qed.

Lemma para_step_whole paras v para :
  para ∈ paras →
  Forall (whole chunk_size paras) (chunks v) →
  (current_chunk v = [] ∨ whole_paragraphs chunk_size paras (current_chunk v)) →
  let v' := para_step self chunk_size v para in
  Forall (whole chunk_size paras) (chunks v')
  ∧ whole_paragraphs chunk_size paras (current_chunk v').
Proof.
  intros Hin Hchunks Hcur. unfold para_step.
  case_bool_decide as Hfit; [|destruct (truthy (current_chunk v)) eqn:Ht];
    cbn [chunks current_chunk].
  - split; [done|]. split.
    + exists (current_chunk v ++ para). by rewrite <- app_assoc.
    + left. rewrite !len_app. change (len [NL; NL]) with 2. lia.
  - split.
    + apply Forall_app. split; [done|]. constructor; [|constructor].
      destruct Hcur as [Hnil|Hw]; [|done].
      rewrite Hnil in Ht. done.
    + split; [by exists para|]. right. by exists para.
  - split; [done|]. split; [by exists para|]. right. by exists para.
Qed.

Lemma foldl_para_step_whole paras rest v :
  (∀ para, para ∈ rest → para ∈ paras) →
  Forall (whole chunk_size paras) (chunks v) →
  (current_chunk v = [] ∨ whole_paragraphs chunk_size paras (current_chunk v)) →
  let v' := foldl (para_step self chunk_size) v rest in
  Forall (whole chunk_size paras) (chunks v')
  ∧ (current_chunk v' = []
     ∨ whole_paragraphs chunk_size paras (current_chunk v')).
Proof.
  revert v. induction rest as [|para rest IH]; intros v Hsub Hchunks Hcur.
  - done.
  - cbn [foldl].
    destruct (para_step_whole paras v para) as [H1 H2]; [|done..|].
    { apply Hsub. by left. }
    apply IH; [|done|by right].
    intros p Hp. apply Hsub. by right.
Qed.

(** X2.  Every chunk is made of whole paragraphs: its content ends with the
    blank line the chunker adds after a paragraph, and it stays below the
    budget plus that blank line unless it is a single paragraph, which is
    never cut, however long. *)
Theorem create_text_chunks_whole_paragraphs (content : str) :
  Forall (whole chunk_size (split content [NL; NL]))
         (_create_text_chunks self content chunk_size).
Proof.
  unfold _create_text_chunks.
  destruct (foldl_para_step_whole (split content [NL; NL])
              (split content [NL; NL]) (Locals [] [] 0))
    as [Hchunks Hcur]; [done|constructor|by left|].
  set (v := foldl _ _ _) in *.
  apply Forall_map. cbn.
  destruct (truthy (current_chunk v)) eqn:Ht; [|done].
  apply Forall_app. split; [done|]. constructor; [|constructor].
  destruct Hcur as [Hnil|Hw]; [|done]. by rewrite Hnil in Ht.
Qed.
End chunker_bounds.

(** ** A text without a blank line *)

Section unbroken.
Context (self : BaseProcessor.t) (chunk_size : Z).
Import TextProcessor.

Lemma split_go_absent (sep cur s : str) :
  contains s sep = false → split_go sep 0 cur s = [rev cur ++ s].
Proof.
  revert cur. induction s as [|c s IH]; intros cur; cbn [contains split_go].
  - by rewrite app_nil_r.
  - intros [Hhead Htail]%orb_false_iff. cbn [startswith] in Hhead |- *.
    rewrite Hhead, IH by done. cbn [rev]. by rewrite <- app_assoc.
Qed.

(** X3.  The chunker cuts at blank lines only: a content without a blank
    line makes one chunk, however long it is and whatever the budget; the
    chunk holds the whole content and one blank line. *)
Theorem create_text_chunks_unbroken (content : str) :
  contains content [NL; NL] = false →
  _create_text_chunks self content chunk_size
  = [new_chunk self (content ++ [NL; NL]) 0 1].
Proof.
  intros Habsent. unfold _create_text_chunks, split.
  rewrite split_go_absent by done. cbn [rev app foldl].
  unfold para_step. cbn [current_chunk chunks chunk_index truthy app].
  assert (truthy (content ++ [NL; NL]) = true) as Htruthy
    by (by destruct content).
  by case_bool_decide; cbn [current_chunk chunks chunk_index];
    rewrite Htruthy.
Qed.
End unbroken.

(** ** The identifiers of the text chunks *)

Section chunk_ids.
Context (self : BaseProcessor.t) (chunk_size : Z).
Import TextProcessor.

Lemma identified_new cur i n : identified self (new_chunk self cur i n).
Proof. done. Qed.

Lemma para_step_identified v para :
  Forall (identified self) (chunks v) →
  Forall (identified self) (chunks (para_step self chunk_size v para)).
Proof.
  intros Hv. unfold para_step.
  case_bool_decide; [done|]. destruct (truthy (current_chunk v)); [|done].
  apply Forall_app. split; [done|]. by repeat constructor.
Qed.

Lemma foldl_para_step_identified paras v :
  Forall (identified self) (chunks v) →
  Forall (identified self)
         (chunks (foldl (para_step self chunk_size) v paras)).
Proof.
  revert v. induction paras as [|para paras IH]; intros v Hv; [done|].
  cbn [foldl]. by apply IH, para_step_identified.
Qed.

(** X4.  Every chunk [_create_text_chunks] returns is named after its own
    index, belongs to the document of the processor, and carries its content
    as embedding text; so no two chunks of a content share an identifier. *)
Theorem create_text_chunks_identified (content : str) :
  let chunks := _create_text_chunks self content chunk_size in
  Forall (identified self) chunks
  ∧ NoDup (map DocumentChunk.chunk_id chunks).
Proof.
  intros chunks.
  assert (Forall (identified self) chunks) as Hid.
  { unfold chunks, _create_text_chunks.
    pose proof (foldl_para_step_identified (split content [NL; NL])
                  (Locals [] [] 0) (Forall_nil_2 _)) as Hv.
    set (v := foldl _ _ _) in *.
    apply Forall_map.
    assert (Forall (identified self)
              (if truthy (current_chunk v)
               then TextProcessor.chunks v
                    ++ [new_chunk self (current_chunk v) (chunk_index v)
                          (len (TextProcessor.chunks v) + 1)]
               else TextProcessor.chunks v)) as Hall.
    { destruct (truthy (current_chunk v)); [|done].
      apply Forall_app. split; [done|]. by repeat constructor. }
    eapply Forall_impl; [exact Hall|]. by intros c Hc. }
  split; [done|].
  destruct (chunks_before_backfill self chunk_size content)
    as (built & Hb & Hbx & _).
  destruct (set_total_chunks_spec (len built) built) as (_ & Hix & _).
  cbv zeta in Hix. rewrite <- Hb in Hix. fold chunks in Hix.
  rewrite Hbx in Hix.
  replace (map DocumentChunk.chunk_id chunks)
    with (map (λ i, u "chunk_" ++ str_of_int i)
              (map DocumentChunk.chunk_index chunks)).
  { rewrite Hix. apply NoDup_numbered. }
  rewrite <- list_fmap_compose. apply Forall_fmap_ext_1.
  eapply Forall_impl; [exact Hid|]. by intros c [-> _].
Qed.
End chunk_ids.

(** ** More on [TextProcessor.process] *)

Section text_process.
Context (env : Env).
Import TextProcessor.

(** X5.  What [TextProcessor.process] returns: when the content is read, one
    entry, identified by the checksum of the file, holding the content, its
    first 1000 characters as summary, its length and its number of lines,
    with confidence 0.95 and, up to 10000 characters, no chunk; when reading
    raises, no entry, and one more line, an error, in the log. *)
Theorem text_process_entry (st : PS) :
  match read_content env (mkPS (self st) [] (log st)) with
  | (st1, Ok content) =>
      ∃ entry,
        process env st = (mkPS (self st1) [entry] (log st), Ok [entry])
        ∧ KnowledgeBaseEntry.uuid entry
          = DocumentMetadata.checksum (BaseProcessor.metadata (self st))
        ∧ KnowledgeBaseEntry.content entry = content
        ∧ KnowledgeBaseEntry.summary entry = take 1000 content
        ∧ len (KnowledgeBaseEntry.summary entry) ≤ 1000
        ∧ KnowledgeBaseEntry.confidence_score entry = 0.95%Q
        ∧ KnowledgeBaseEntry.metadata entry !! "characters"%string
          = Some (VInt (len content))
        ∧ KnowledgeBaseEntry.metadata entry !! "lines"%string
          = Some (VInt (count content NL + 1))
        ∧ KnowledgeBaseEntry.metadata entry !! "encoding"%string
          = Some (VOpt (DocumentMetadata.encoding
                          (BaseProcessor.metadata (self st1))))
        ∧ (len content ≤ 10000 → KnowledgeBaseEntry.chunks entry = [])
  | (st1, Raise e) =>
      ∃ line,
        process env st
        = (mkPS (self st1) [] (log st ++ [(ERROR, line)]), Ok [])
  end.
Proof.
  destruct (read_content env _) as [st1 [content|e]] eqn:Hread;
    pose proof (read_content_frame env _ _ _ Hread)
      as (Hent & Hlog & _ & Hsum);
    cbn [self entries log] in Hent, Hlog, Hsum;
    unfold process; run; rewrite Hread; run; rewrite Hent, ?Hlog.
  - eexists. split; [reflexivity|].
    cbn [KnowledgeBaseEntry.uuid KnowledgeBaseEntry.content
         KnowledgeBaseEntry.summary KnowledgeBaseEntry.confidence_score
         KnowledgeBaseEntry.metadata KnowledgeBaseEntry.chunks].
    split_and!; try reflexivity.
    + done.
    + unfold len, slice_to. rewrite length_take. lia.
    + intros Hlen. by rewrite bool_decide_false by lia.
  - by eexists.
Qed.

(** X6.  With codecs under which [latin-1] decodes every byte string, as
    CPython's does, the content of a readable file is its UTF-8 text when
    the bytes are UTF-8 and its latin-1 text otherwise; the encoding
    recorded is one of these two, never [cp1252] or [iso-8859-1], and the
    permissive decoding is never used. *)
Theorem read_content_utf8_or_latin1 (st : PS) (data : bytes) :
  (∀ d, is_Some (decode env "latin-1" d)) →
  open_rb env (BaseProcessor.file_path (self st)) = Ok data →
  ∃ enc s,
    read_content env st = (encoded enc st, Ok (universal_newlines s))
    ∧ decode env enc data = Some s
    ∧ (enc = "utf-8"%string
       ∨ enc = "latin-1"%string ∧ decode env "utf-8" data = None).
Proof.
  intros Hlatin Hopen. rewrite (read_content_spec env st data Hopen).
  unfold encodings. cbn [first_decodable].
  destruct (decode env "utf-8" data) as [s|] eqn:Hutf.
  - exists "utf-8"%string, s. auto.
  - destruct (Hlatin data) as [s Hs]. rewrite Hs.
    exists "latin-1"%string, s. auto.
Qed.

(** X7.  A file of zero bytes gives one entry with an empty content, 0
    characters, 1 line and no chunk. *)
Theorem text_process_empty_file (st : PS) :
  open_rb env (BaseProcessor.file_path (self st)) = Ok [] →
  decode env "utf-8" [] = Some [] →
  ∃ entry st',
    process env st = (st', Ok [entry])
    ∧ KnowledgeBaseEntry.content entry = []
    ∧ KnowledgeBaseEntry.summary entry = []
    ∧ KnowledgeBaseEntry.chunks entry = []
    ∧ KnowledgeBaseEntry.metadata entry !! "characters"%string
      = Some (VInt 0)
    ∧ KnowledgeBaseEntry.metadata entry !! "lines"%string = Some (VInt 1)
    ∧ KnowledgeBaseEntry.metadata entry !! "encoding"%string
      = Some (VStr (u "utf-8")).
Proof.
  intros Hopen Hdec.
  pose proof (read_content_spec env (mkPS (self st) [] (log st)) [] Hopen)
    as Hread.
  unfold encodings in Hread. cbn [first_decodable] in Hread.
  rewrite Hdec in Hread. cbn [universal_newlines] in Hread.
  unfold process. run. rewrite Hread. run.
  eexists _, _. split; [reflexivity|]. by split_and!.
Qed.
End text_process.

(** ** The sub-type and the tags of a text *)

Section content_type.
Context (env : Env).
Import TextProcessor.

(** X8.  [_detect_content_type] answers with one of eight sub-types,
    and the first rule that matches wins; each answer is given exactly
    when its rule holds and no rule before it does.  JSON: the stripped
    text starts with a brace or a bracket and [json.loads] accepts the
    content.  HTML and XML: the stripped text starts with [<], and the
    lowercased content holds [<html], or not.  YAML: the content starts
    with three dashes or holds a colon and a space in its first 100
    characters.  Markdown and Code: the content holds one of the
    patterns of the rule.  Log: the first 1000 characters of the
    lowercased content hold one of five level names.  Text: no rule
    holds. *)
Theorem detect_content_type_rules (content : str) :
  let answer := _detect_content_type env content in
  let json :=
    (startswith (strip content) (u "{") || startswith (strip content) (u "["))
    && json_loads_ok env content in
  let markup := startswith (strip content) (u "<") in
  let html := contains (lower env content) (u "<html") in
  let yaml :=
    startswith content (u "---") || contains (take 100 content) (u ": ") in
  let markdown :=
    existsb (contains content) [u "# "; u "## "; u "```"; u "[]("; u "![]("] in
  let code :=
    existsb (contains content)
      [u "import "; u "function "; u "class "; u "def "; u "SELECT ";
       u "CREATE TABLE"] in
  let logged :=
    existsb (contains (take 1000 (lower env content)))
      [u "error"; u "warning"; u "info"; u "debug"; u "trace"] in
  answer ∈ [u "JSON"; u "HTML"; u "XML"; u "YAML"; u "Markdown"; u "Code";
            u "Log"; u "Text"]
  ∧ (answer = u "JSON" ↔ json = true)
  ∧ (answer = u "HTML" ↔ json = false ∧ markup = true ∧ html = true)
  ∧ (answer = u "XML" ↔ json = false ∧ markup = true ∧ html = false)
  ∧ (answer = u "YAML" ↔ json = false ∧ markup = false ∧ yaml = true)
  ∧ (answer = u "Markdown"
     ↔ json = false ∧ markup = false ∧ yaml = false ∧ markdown = true)
  ∧ (answer = u "Code"
     ↔ json = false ∧ markup = false ∧ yaml = false ∧ markdown = false
       ∧ code = true)
  ∧ (answer = u "Log"
     ↔ json = false ∧ markup = false ∧ yaml = false ∧ markdown = false
       ∧ code = false ∧ logged = true)
  ∧ (answer = u "Text"
     ↔ json = false ∧ markup = false ∧ yaml = false ∧ markdown = false
       ∧ code = false ∧ logged = false).
Proof.
  intros answer json markup html yaml markdown code logged.
  assert (answer
          = if json then u "JSON"
            else if markup then (if html then u "HTML" else u "XML")
            else if yaml then u "YAML"
            else if markdown then u "Markdown"
            else if code then u "Code"
            else if logged then u "Log"
            else u "Text") as -> by reflexivity.
  clearbody json markup html yaml markdown code logged.
  split.
  { rewrite !elem_of_cons.
    destruct json, markup, html, yaml, markdown, code, logged; auto 10. }
  destruct json, markup, html, yaml, markdown, code, logged;
    split_and!;
    (split;
     [intros Heq; first [by split_and! | by apply (f_equal head) in Heq]
     |intros Hrule; first [done | by destruct_and!]]).
Qed.

(** X9.  The tags of a text hold its lowercased sub-type, hold nothing
    twice, and hold besides only keywords of the fixed list that occur in
    the lowercased content. *)
Theorem extract_text_tags_spec (content content_type : str) :
  let tags := _extract_text_tags env content content_type in
  lower env content_type ∈ tags
  ∧ NoDup tags
  ∧ ∀ tag, tag ∈ tags →
      tag = lower env content_type
      ∨ contains (lower env content) tag = true
        ∧ tag ∈ [u "mainframe"; u "cobol"; u "jcl"; u "cics"; u "db2";
                 u "ims"; u "vsam"; u "rexx"; u "racf"; u "tso"; u "ispf";
                 u "sdsf"; u "sort"; u "idcams"].
Proof.
  unfold _extract_text_tags, list_set. cbv zeta. split_and!.
  - rewrite elem_of_remove_dups. by left.
  - apply NoDup_remove_dups.
  - intros tag Htag. rewrite elem_of_remove_dups in Htag.
    cbn [app] in Htag.
    apply elem_of_cons in Htag as [->|Htag]; [by left|]. right.
    by apply list_elem_of_filter in Htag.
Qed.
End content_type.

(** ** What the processors return *)

Section processors_return.
Context (env : Env).

Ltac guarded :=
  match goal with
  | |- context [try_except ?b ?h] =>
      let body := fresh "body" in
      set (body := b); run;
      match goal with
      | |- context [body ?s] => destruct (body s) as [? [[]|?]]
      end; run; eauto
  end.

(** X10.  Every processor but [ExcelProcessor] returns a list on every input
    and in every environment, whatever the libraries raise; [ExcelProcessor]
    returns the empty list when pandas can be imported, and raises
    [ImportError], leaving the state as it was, when it cannot. *)
Theorem processors_return (st : PS) :
  (∃ st' es, TextProcessor.process env st = (st', Ok es))
  ∧ (∃ st' es, PDFProcessor.process env st = (st', Ok es))
  ∧ (∃ st' es, WordProcessor.process env st = (st', Ok es))
  ∧ (∃ st' es, ImageProcessor.process env st = (st', Ok es))
  ∧ (if pandas_installed env
     then ∃ st', ExcelProcessor.process env st = (st', Ok [])
     else ∃ e, ExcelProcessor.process env st = (st, Raise e)
               ∧ exn_cls e = ImportError).
Proof.
  split_and!.
  - unfold TextProcessor.process. guarded.
  - unfold PDFProcessor.process. guarded.
  - unfold WordProcessor.process. guarded.
  - unfold ImageProcessor.process. guarded.
  - destruct (pandas_installed env) eqn:Hpd.
    + unfold ExcelProcessor.process, ExcelProcessor.process_in.
      run. rewrite Hpd. run.
      destruct (pd.read_excel env _) as [sheets|e]; [|by eexists].
      destruct (for_each sheets _ _) as [s1 r1] eqn:Hloop.
      assert (entries s1 = []) as Hs1.
      { revert Hloop. apply (for_each_inv (λ s, entries s = [])); [|done].
        intros sheet s s' r _. apply sheet_body_no_entries. }
      destruct r1 as [[]|e]; cbn [self entries log]; rewrite Hs1; by eexists.
    + unfold ExcelProcessor.process, ExcelProcessor.process_in.
      run. rewrite Hpd. run. by eexists.
Qed.
End processors_return.

(** ** Libraries that are not installed *)

Section missing_libraries.
Context (env : Env).

(** X11.  A processor whose library cannot be imported returns no entry and
    logs one error that names the module. [PDFProcessor] needs both PyPDF2
    and pdfplumber, though it uses one of them at a time, and
    [ImageProcessor] needs both PIL and pytesseract, though the entry that
    describes the image needs no text recognition. *)
Theorem missing_library_no_entries (st : PS) :
  let failed (line module : string) :=
    (mkPS (self st) []
       (log st ++ [(ERROR, u line ++ BaseProcessor.file_name (self st)
                           ++ u ": " ++ u "No module named '" ++ u module
                           ++ u "'")]),
     Ok (@nil KnowledgeBaseEntry.t)) in
  (PyPDF2_installed env = false →
   PDFProcessor.process env st
   = failed "Erro ao processar PDF "%string "PyPDF2"%string)
  ∧ (PyPDF2_installed env = true → pdfplumber_installed env = false →
     PDFProcessor.process env st
     = failed "Erro ao processar PDF "%string "pdfplumber"%string)
  ∧ (docx_installed env = false →
     WordProcessor.process env st
     = failed "Erro ao processar Word "%string "docx"%string)
  ∧ (PIL_installed env = false →
     ImageProcessor.process env st
     = failed "Erro ao processar imagem "%string "PIL"%string)
  ∧ (PIL_installed env = true → pytesseract_installed env = false →
     ImageProcessor.process env st
     = failed "Erro ao processar imagem "%string "pytesseract"%string).
Proof.
  intros failed. subst failed. cbv beta. split_and!.
  - intros H. unfold PDFProcessor.process. run. rewrite H. by run.
  - intros H1 H2. unfold PDFProcessor.process. run. rewrite H1, H2. by run.
  - intros H. unfold WordProcessor.process. run. rewrite H. by run.
  - intros H. unfold ImageProcessor.process. run. rewrite H. by run.
  - intros H1 H2. unfold ImageProcessor.process. run. rewrite H1, H2. by run.
Qed.
End missing_libraries.

(** ** The table entries of a PDF *)

Section omap_enumerate.
Context {A B : Type}.

Lemma length_omap_imap {C} (h : nat → A → C) (f : C → option B)
    (P : A → bool) (l : list A) :
  (∀ i x, is_Some (f (h i x)) ↔ P x = true) →
  length (omap f (imap h l)) = length (filter (λ x, P x = true) l).
Proof.
  revert h. induction l as [|x l IH]; intros h Hf; [done|].
  cbn [imap omap list_omap]. rewrite filter_cons.
  specialize (Hf 0%nat x) as Hx.
  destruct (f (h 0%nat x)) as [y|].
  - rewrite decide_True by (apply Hx; eauto). cbn [length]. f_equal.
    apply IH. intros i. apply Hf.
  - rewrite decide_False.
    2:{ intros HP. apply Hx in HP. by destruct HP. }
    apply IH. intros i. apply Hf.
Qed.

Lemma omap_sublist {C} (f : A → option B) (g : B → C) (h : A → C)
    (l : list A) :
  (∀ x y, f x = Some y → g y = h x) →
  map g (omap f l) `sublist_of` map h l.
Proof.
  intros Hf. induction l as [|x l IH]; [done|].
  cbn [omap list_omap map]. destruct (f x) as [y|] eqn:Hx.
  - cbn [map]. rewrite (Hf x y Hx). by apply sublist_skip.
  - by apply sublist_cons.
Qed.
End omap_enumerate.

Section pdf_tables.
Context (env : Env).
Import PDFProcessor.

Lemma create_table_entry_Some me table i :
  is_Some (_create_table_entry me table i) ↔ (2 <=? len table) = true.
Proof.
  unfold _create_table_entry. rewrite Z.leb_le.
  destruct table as [|row table]; cbn [truthy negb orb].
  - split; [by intros [? ?]|]. unfold len. simpl. lia.
  - case_bool_decide; (split; [intros [? ?]|intros ?]);
      try done; try lia; by eexists.
Qed.

Lemma create_table_entry_uuid me table i entry :
  _create_table_entry me table i = Some entry →
  KnowledgeBaseEntry.uuid entry
  = (DocumentMetadata.checksum (BaseProcessor.metadata me) ++ u "_table_")
    ++ str_of_int i.
Proof.
  unfold _create_table_entry.
  destruct (negb (truthy table) || bool_decide (len table < 2)); [done|].
  intros [= <-]. cbn. by rewrite <- app_assoc.
Qed.

Lemma table_entries_uuids me tables :
  map KnowledgeBaseEntry.uuid (table_entries me tables)
  `sublist_of`
  map (λ i, (DocumentMetadata.checksum (BaseProcessor.metadata me)
             ++ u "_table_") ++ str_of_int i)
      (map Z.of_nat (seq 0 (length tables))).
Proof.
  rewrite <- map_fst_enumerate, <- list_fmap_compose.
  apply omap_sublist. intros [i table] entry. apply create_table_entry_uuid.
Qed.

Lemma table_entries_of me tables :
  Forall (entry_of me) (table_entries me tables).
Proof.
  apply Forall_forall. intros e He.
  apply list_elem_of_omap in He as ([i table] & _ & He).
  unfold PDFProcessor._create_table_entry in He.
  destruct (negb _ || _); [done|]. injection He as <-.
  split_and!; [|done..]. by eexists.
Qed.

Lemma document_and_tables_distinct me tables (entry : KnowledgeBaseEntry.t) :
  KnowledgeBaseEntry.uuid entry
  = DocumentMetadata.checksum (BaseProcessor.metadata me) →
  NoDup (map KnowledgeBaseEntry.uuid (entry :: table_entries me tables)).
Proof.
  intros Huuid. cbn [map]. apply NoDup_cons. split.
  - intros Hin.
    eapply elem_of_sublist in Hin; [|apply table_entries_uuids].
    apply list_elem_of_fmap in Hin as (i & Hi & _).
    rewrite Huuid, <- app_assoc in Hi.
    rewrite <- (app_nil_r (DocumentMetadata.checksum _)) in Hi at 1.
    apply app_inv_head in Hi. by apply (f_equal length) in Hi.
  - eapply sublist_NoDup; [apply NoDup_numbered|apply table_entries_uuids].
Qed.

(** X12.  What the table-aware strategy makes of the tables. When it runs
    through, [process] returns the document's entry, identified by the
    checksum of the file, and after it one entry for each table of two rows
    or more, in order; a table of fewer rows gives no entry, though it
    counts for [has_tables] and for the numbering of the others. The table
    entries have confidence 0.8 and no chunks, and no two entries of the
    result share a [uuid]. *)
Theorem pdf_table_entries (st : PS) pages texts tbls :
  PyPDF2_installed env = true →
  pdfplumber_installed env = true →
  PDF_open env (BaseProcessor.file_path (self st)) = Ok pages →
  map pl_extract_text pages = map Ok texts →
  map pl_extract_tables pages = map Ok tbls →
  let tables := concat tbls in
  ∃ entry st',
    process env st = (st', Ok (entry :: table_entries (self st) tables))
    ∧ KnowledgeBaseEntry.uuid entry
      = DocumentMetadata.checksum (BaseProcessor.metadata (self st))
    ∧ KnowledgeBaseEntry.metadata entry !! "pages"%string
      = Some (VInt (len pages))
    ∧ KnowledgeBaseEntry.metadata entry !! "has_tables"%string
      = Some (VBool (bool_decide (len tables > 0)))
    ∧ length (table_entries (self st) tables)
      = length (filter (λ table, (2 <=? len table) = true) tables)
    ∧ Forall (λ e, KnowledgeBaseEntry.document_type e = u "pdf_table"
                   ∧ KnowledgeBaseEntry.confidence_score e = 0.8%Q
                   ∧ KnowledgeBaseEntry.chunks e = [])
             (table_entries (self st) tables)
    ∧ NoDup (map KnowledgeBaseEntry.uuid
               (entry :: table_entries (self st) tables)).
Proof.
  intros Hpy Hpl Hopen Ht Hb tables.
  unfold process. run. rewrite Hpy, Hpl. run.
  unfold with_pdfplumber. run. rewrite Hopen.
  rewrite (fold_plumber_ok (enumerate pages) texts tbls).
  2:{ by rewrite (map_enumerate pl_extract_text). }
  2:{ by rewrite (map_enumerate pl_extract_tables). }
  cbn [fst snd app]. rewrite for_each_append_opt. cbn [self entries log app].
  fold tables. fold (table_entries (self st) tables).
  eexists _, _. split; [reflexivity|].
  cbn [KnowledgeBaseEntry.uuid KnowledgeBaseEntry.metadata].
  split_and!.
  - done.
  - done.
  - done.
  - apply length_omap_imap. intros i table. apply create_table_entry_Some.
  - apply Forall_forall. intros e He.
    apply list_elem_of_omap in He as ([i table] & _ & He).
    unfold _create_table_entry in He.
    destruct (negb _ || _); [done|]. by injection He as <-.
  - by apply document_and_tables_distinct.
Qed.
End pdf_tables.

(** ** The sections of a Word document *)

Section word_sections.
Context (env : Env) (self : BaseProcessor.t).
Import WordProcessor.

Lemma split_sections_nonempty cur s : split_sections env cur s ≠ [].
Proof.
  revert cur. induction s as [|c s IH]; intros cur; cbn [split_sections];
    [done|].
  by destruct (_ && _).
Qed.

Lemma join_split_sections cur s :
  join [NL] (split_sections env cur s) = rev cur ++ s.
Proof.
  revert cur. induction s as [|c s IH]; intros cur; cbn [split_sections].
  - cbn [join]. by rewrite app_nil_r.
  - destruct ((c =? NL)%N && _ && _) eqn:Hcut.
    + rewrite join_cons by apply split_sections_nonempty. rewrite IH.
      apply andb_true_iff in Hcut as [Hcut _].
      apply andb_true_iff in Hcut as [->%N.eqb_eq _]. done.
    + rewrite IH. cbn [rev]. by rewrite <- app_assoc.
Qed.

Lemma split_sections_head cur s :
  ∃ x more, split_sections env cur s = (rev cur ++ x) :: more.
Proof.
  revert cur. induction s as [|c s IH]; intros cur; cbn [split_sections].
  - exists [], []. by rewrite app_nil_r.
  - destruct (_ && _).
    + exists [], (split_sections env [] s). by rewrite app_nil_r.
    + destruct (IH (c :: cur)) as (x & more & ->).
      exists (c :: x), more. cbn [rev]. by rewrite <- app_assoc.
Qed.

Lemma omap_imap_chunks (sections : list str) (n : Z) (k : nat)
    (l : list str) :
  let chunks :=
    omap (λ '(i, section),
            if truthy (strip section) then
              Some (DocumentChunk.mk
                      (u "section_" ++ str_of_int i)
                      (DocumentMetadata.checksum
                         (BaseProcessor.metadata self))
                      section (u "text") i n
                      {[ "section"%string := VInt i ]}
                      section)
            else None)
         (imap (λ i x, (Z.of_nat (k + i), x)) l) in
  map DocumentChunk.content chunks
  = filter (λ section, truthy (strip section) = true) l
  ∧ map DocumentChunk.chunk_index chunks
    `sublist_of` map Z.of_nat (seq k (length l))
  ∧ Forall (λ c, ∃ i : nat,
              DocumentChunk.chunk_index c = Z.of_nat (k + i)
              ∧ l !! i = Some (DocumentChunk.content c)
              ∧ DocumentChunk.chunk_id c
                = u "section_" ++ str_of_int (Z.of_nat (k + i))
              ∧ DocumentChunk.total_chunks c = n)
           chunks.
Proof.
  revert k. induction l as [|x l IH]; intros k.
  { cbn. split_and!; constructor. }
  cbn [imap omap list_omap]. rewrite filter_cons.
  specialize (IH (S k)).
  assert (imap ((λ i x0, (Z.of_nat (k + i), x0)) ∘ S) l
          = imap (λ i x0, (Z.of_nat (S k + i), x0)) l) as ->.
  { apply imap_ext. intros i y _. cbn. do 2 f_equal. lia. }
  destruct IH as (Hc & Hi & Hall). cbn [length seq map].
  assert (∀ c : DocumentChunk.t,
            (∃ i : nat, DocumentChunk.chunk_index c = Z.of_nat (S k + i)
               ∧ l !! i = Some (DocumentChunk.content c)
               ∧ DocumentChunk.chunk_id c
                 = u "section_" ++ str_of_int (Z.of_nat (S k + i))
               ∧ DocumentChunk.total_chunks c = n) →
            ∃ i : nat, DocumentChunk.chunk_index c = Z.of_nat (k + i)
               ∧ (x :: l) !! i = Some (DocumentChunk.content c)
               ∧ DocumentChunk.chunk_id c
                 = u "section_" ++ str_of_int (Z.of_nat (k + i))
               ∧ DocumentChunk.total_chunks c = n) as Hshift.
  { intros c (i & H1 & H2 & H3 & H4). exists (S i).
    replace (k + S i)%nat with (S k + i)%nat by lia. done. }
  destruct (truthy (strip x)) eqn:Hx.
  - rewrite decide_True by done. cbn [map]. split_and!.
    + by rewrite Hc.
    + replace (k + 0)%nat with k by lia. by apply sublist_skip.
    + constructor; [by exists 0%nat|].
      eapply Forall_impl; [exact Hall|]. exact Hshift.
  - rewrite decide_False by done. split_and!.
    + done.
    + by apply sublist_cons.
    + eapply Forall_impl; [exact Hall|]. exact Hshift.
Qed.

(** X13.  [_create_chunks_from_content] cuts the content into sections
    without losing anything but the newlines it cuts at: the sections,
    joined by a newline, are the content. It makes one chunk of each section
    that is not blank, in order, and leaves the blank ones out; a chunk
    keeps the position of its section among all the sections as its index
    and in its name, and counts all the sections, blank ones included, as
    [total_chunks]. No two chunks share a name. *)
Theorem create_chunks_from_content_sections (content : str) :
  let sections := split_sections env [] content in
  let chunks := _create_chunks_from_content env self content in
  join [NL] sections = content
  ∧ map DocumentChunk.content chunks
    = filter (λ section, truthy (strip section) = true) sections
  ∧ Forall (section_chunk sections) chunks
  ∧ NoDup (map DocumentChunk.chunk_id chunks).
Proof.
  intros sections chunks.
  destruct (omap_imap_chunks sections (len sections) 0 sections)
    as (Hc & Hi & Hall).
  change (omap _ _) with chunks in Hc, Hi, Hall.
  split_and!.
  - apply join_split_sections.
  - exact Hc.
  - exact Hall.
  - replace (map DocumentChunk.chunk_id chunks)
      with (map (λ i, u "section_" ++ str_of_int i)
                (map DocumentChunk.chunk_index chunks)).
    + apply NoDup_fmap_2.
      * intros i j Hij. by apply app_inv_head, str_of_int_inj in Hij.
      * eapply sublist_NoDup; [|exact Hi].
        apply NoDup_fmap_2; [apply _|apply NoDup_seq].
    + rewrite <- list_fmap_compose. apply Forall_fmap_ext_1.
      eapply Forall_impl; [exact Hall|].
      intros c (i & Hix & _ & Hid & _). cbn. by rewrite Hix, Hid.
Qed.

(** X14.  With a digit class that, as Python's, does not hold the newline,
    every section but the first begins with three heading characters
    (capital letters, digits or [#]). *)
Theorem split_sections_headings (content : str) :
  re_digit env NL = false →
  Forall (λ section, length (take 3 section) = 3%nat
                     ∧ forallb (heading_char env) (take 3 section) = true)
         (tail (split_sections env [] content)).
Proof.
  intros Hnl. generalize (@nil N) as cur.
  assert (heading_char env NL = false) as Hhead.
  { unfold heading_char. by rewrite Hnl. }
  assert (∀ c, heading_char env c = true → (c =? NL)%N = false) as Hne.
  { intros c Hc. apply N.eqb_neq. intros ->. by rewrite Hhead in Hc. }
  induction content as [|c s IH]; intros cur; cbn [split_sections].
  - constructor.
  - destruct ((c =? NL)%N && _ && _) eqn:Hcut; [|apply IH].
    cbn [tail]. specialize (IH []).
    apply andb_true_iff in Hcut as [Hcut Hall].
    apply andb_true_iff in Hcut as [_ Hlen%bool_decide_eq_true].
    destruct s as [|c1 [|c2 [|c3 s]]]; try done.
    cbn [take forallb] in Hall.
    apply andb_true_iff in Hall as [H1 Hall].
    apply andb_true_iff in Hall as [H2 Hall].
    apply andb_true_iff in Hall as [H3 _].
    cbn [split_sections] in *.
    rewrite (Hne c1 H1), (Hne c2 H2), (Hne c3 H3) in *.
    cbn [andb] in *.
    destruct (split_sections_head [c3; c2; c1] s) as (x & more & Hs).
    rewrite Hs in *. cbn [tail] in IH. constructor; [|done].
    cbn [rev app take length forallb]. by rewrite H1, H2, H3.
Qed.
End word_sections.

(** ** [WordProcessor.process] *)

Section word_process.
Context (env : Env).
Import WordProcessor.

Lemma blank_row_none (row : list str) :
  blank_row row → existsb truthy (map strip row) = false.
Proof.
  induction 1 as [|cell row Hcell _ IH]; [done|].
  cbn [map existsb]. by rewrite Hcell, IH.
Qed.

Lemma blank_table_none (table : list (list str)) :
  Forall blank_row table →
  omap (λ row, if existsb truthy (map strip row)
               then Some (join (u " | ") (map strip row)) else None) table
  = [].
Proof.
  induction 1 as [|row table Hrow _ IH]; [done|].
  cbn [omap list_omap]. by rewrite (blank_row_none row Hrow), IH.
Qed.

Lemma blank_tables_none (tables : list (list (list str))) :
  blank_tables tables →
  omap (λ table,
          if truthy
               (omap (λ row, if existsb truthy (map strip row)
                             then Some (join (u " | ") (map strip row))
                             else None) table)
          then Some (join [NL]
                       (omap (λ row,
                                if existsb truthy (map strip row)
                                then Some (join (u " | ") (map strip row))
                                else None) table))
          else None)
       tables = [].
Proof.
  induction 1 as [|table tables Htable _ IH]; [done|].
  cbn [omap list_omap]. by rewrite (blank_table_none table Htable), IH.
Qed.

(** X15.  What [WordProcessor.process] returns, with python-docx installed.
    When the document opens: exactly one entry, identified by the checksum
    of the file, with confidence 0.9; its content begins with the paragraphs
    that are not blank, joined by blank lines, and is nothing but these when
    the tables hold no text; its chunks are the sections of that content;
    its metadata count the paragraphs that are not blank, and the tables all
    of them. When the document does not open: no entry, and one more line,
    an error with the message of the exception, in the log. *)
Theorem word_process_entry (st : PS) :
  docx_installed env = true →
  match Document env (BaseProcessor.file_path (self st)) with
  | Ok doc =>
      let paragraphs :=
        filter (λ text, truthy (strip text) = true) (doc_paragraphs doc) in
      ∃ entry tables_part,
        process env st = (mkPS (self st) [entry] (log st), Ok [entry])
        ∧ KnowledgeBaseEntry.uuid entry
          = DocumentMetadata.checksum (BaseProcessor.metadata (self st))
        ∧ KnowledgeBaseEntry.confidence_score entry = 0.9%Q
        ∧ KnowledgeBaseEntry.document_type entry = u "word"
        ∧ KnowledgeBaseEntry.content entry
          = join [NL; NL] paragraphs ++ tables_part
        ∧ (blank_tables (doc_tables doc) → tables_part = [])
        ∧ KnowledgeBaseEntry.summary entry
          = take 1000 (KnowledgeBaseEntry.content entry)
        ∧ KnowledgeBaseEntry.chunks entry
          = _create_chunks_from_content env (self st)
              (KnowledgeBaseEntry.content entry)
        ∧ KnowledgeBaseEntry.metadata entry !! "paragraphs"%string
          = Some (VInt (len paragraphs))
        ∧ KnowledgeBaseEntry.metadata entry !! "tables"%string
          = Some (VInt (len (doc_tables doc)))
  | Raise e =>
      process env st
      = (mkPS (self st) []
           (log st ++ [(ERROR, u "Erro ao processar Word "
                               ++ BaseProcessor.file_name (self st)
                               ++ u ": " ++ exn_msg e)]),
         Ok [])
  end.
Proof.
  intros Hdocx. unfold process. run. rewrite Hdocx. run.
  destruct (Document env _) as [doc|e]; run; [|done].
  eexists _, _. split; [reflexivity|].
  cbn [KnowledgeBaseEntry.uuid KnowledgeBaseEntry.confidence_score
       KnowledgeBaseEntry.document_type KnowledgeBaseEntry.content
       KnowledgeBaseEntry.summary KnowledgeBaseEntry.chunks
       KnowledgeBaseEntry.metadata].
  split_and!; try reflexivity.
  intros Hblank. cbv zeta. by rewrite (blank_tables_none _ Hblank).
Qed.
End word_process.

(** ** [process_file] from the file to the entries *)

Section process_file_text.
Context (env : Env).
Import UniversalDocumentProcessor.

Lemma text_process_ok (st st1 : PS) (content : str) :
  TextProcessor.read_content env (mkPS (self st) [] (log st))
  = (st1, Ok content) →
  ∃ entry,
    TextProcessor.process env st
    = (mkPS (self st1) [entry] (log st), Ok [entry])
    ∧ KnowledgeBaseEntry.uuid entry
      = DocumentMetadata.checksum (BaseProcessor.metadata (self st))
    ∧ KnowledgeBaseEntry.source entry = BaseProcessor.file_name (self st)
    ∧ KnowledgeBaseEntry.content entry = content.
Proof.
  intros Hread.
  pose proof (read_content_frame env _ _ _ Hread)
    as (Hent & Hlog & Hname & Hsum).
  cbn [self entries log] in Hent, Hlog, Hname, Hsum.
  unfold TextProcessor.process. run. rewrite Hread. run. rewrite Hent, Hlog.
  eexists. split; [reflexivity|]. by split_and!.
Qed.

Lemma read_as_text_class (doc_type : DocumentType) :
  doc_type ∈ read_as_text →
  default TextProcessor.process (processors doc_type) = TextProcessor.process.
Proof.
  unfold read_as_text. rewrite !elem_of_cons, elem_of_nil.
  intros Hin. destruct doc_type; try done; intuition discriminate.
Qed.

Lemma process_file_run (file_path : str) (lg : Log) :
  process_file env file_path lg
  = match construct_and_process env
            (default TextProcessor.process
               (processors (DocumentTypeDetector.detect env file_path)))
            file_path (lg ++ preamble env file_path) with
    | (lg2, Ok es) =>
        (lg2 ++ [(INFO, u "Extraídas " ++ str_of_int (len es)
                        ++ u " entradas de " ++ file_path)], Ok es)
    | (lg2, Raise e) =>
        (lg2 ++ [(ERROR, u "Erro ao processar " ++ file_path
                         ++ u ": " ++ exn_msg e)], Ok [])
    end.
Proof.
  unfold process_file, preamble. unfold UniversalDocumentProcessor.logger. run.
  destruct (processors _) as [cls|]; run;
    rewrite <- ?app_assoc; cbn [app from_option id];
    match goal with
    | |- context [construct_and_process ?e ?c ?p ?l] =>
        destruct (construct_and_process e c p l) as [lg2 [es|e']]
    end; done.
Qed.

Lemma init_run (file_path : str) :
  BaseProcessor.__init__ env file_path
  = match stat env file_path with
    | Raise e => Raise e
    | Ok st =>
    match absolute env file_path with
    | Raise e => Raise e
    | Ok absolute_path =>
    match fromtimestamp env (st_ctime st) with
    | Raise e => Raise e
    | Ok created_date =>
    match fromtimestamp env (st_mtime st) with
    | Raise e => Raise e
    | Ok modified_date =>
    match open_rb env file_path with
    | Raise e => Raise e
    | Ok data =>
        Ok (BaseProcessor.mk file_path (Path.name file_path)
              (DocumentMetadata.mk
                 (Path.name file_path) absolute_path (st_size st)
                 (DocumentTypeDetector.detect env file_path)
                 (default (u "application/octet-stream")
                    (guess_type env file_path))
                 (Some created_date) (Some modified_date)
                 None None None [] None None None false false false None
                 (sha256_hexdigest env data)))
    end end end end end.
Proof.
  unfold BaseProcessor.__init__, BaseProcessor._extract_metadata,
    BaseProcessor._calculate_checksum.
  destruct (stat env file_path) as [st|e]; [|done].
  destruct (absolute env file_path) as [absolute_path|e]; [|done].
  destruct (fromtimestamp env (st_ctime st)) as [created_date|e]; [|done].
  destruct (fromtimestamp env (st_mtime st)) as [modified_date|e]; [|done].
  by destruct (open_rb env file_path) as [data|e].
Qed.

(** X16.  A file whose processor can be constructed (its status, its
    absolute path and its two times are obtained, and it can be opened),
    of a category that goes to [TextProcessor], gives exactly one entry.
    Its [uuid] is the digest of the file's bytes, its source the last
    component of the path, and its content the text of the first
    encoding that decodes the bytes (the permissive decoding when none
    does); the log gains the lines of the preamble and the count of one
    entry. *)
Theorem process_file_text (file_path : str) (lg : Log) (st : Stat)
    (data : bytes) :
  DocumentTypeDetector.detect env file_path ∈ read_as_text →
  stat env file_path = Ok st →
  is_Some (result_value (absolute env file_path)) →
  is_Some (result_value (fromtimestamp env (st_ctime st))) →
  is_Some (result_value (fromtimestamp env (st_mtime st))) →
  open_rb env file_path = Ok data →
  ∃ entry,
    process_file env file_path lg
    = (lg ++ preamble env file_path
          ++ [(INFO, u "Extraídas 1 entradas de " ++ file_path)],
       Ok [entry])
    ∧ KnowledgeBaseEntry.uuid entry = sha256_hexdigest env data
    ∧ KnowledgeBaseEntry.source entry = Path.name file_path
    ∧ KnowledgeBaseEntry.content entry
      = match first_decodable env data TextProcessor.encodings with
        | Some (_, s) => universal_newlines s
        | None => decode_ignore env data
        end.
Proof.
  intros Htype Hstat Habs Hctime Hmtime Hopen. rewrite process_file_run.
  rewrite (read_as_text_class _ Htype).
  unfold construct_and_process. rewrite init_run, Hstat, Hopen.
  destruct (absolute env file_path) as [absolute_path|?];
    [|by destruct Habs].
  destruct (fromtimestamp env (st_ctime st)) as [created_date|?];
    [|by destruct Hctime].
  destruct (fromtimestamp env (st_mtime st)) as [modified_date|?];
    [|by destruct Hmtime].
  run. unfold call_process.
  set (me := BaseProcessor.mk _ _ _).
  set (st0 := mkPS me [] (lg ++ preamble env file_path)).
  pose proof (read_content_spec env st0 data Hopen) as Hread.
  destruct (first_decodable env data TextProcessor.encodings) as [[enc s]|];
    destruct (text_process_ok st0 _ _ Hread)
      as (entry & -> & Huuid & Hsrc & Hc);
    exists entry; subst st0; cbn [fst snd log self] in *;
    rewrite <- app_assoc; (split; [reflexivity|]); by split_and!.
Qed.

(** X17.  When the constructor of the processor raises, [process_file]
    returns no entry, whatever the category of the file: no processor
    runs, and the log gains the preamble and one error line with the
    message of the exception.  The constructor raises the first
    exception met on its way: from the status of the file, from its
    absolute path, from the time of its creation, from the time of its
    modification, or from opening it for the checksum. *)
Theorem process_file_unreadable (file_path : str) (lg : Log) (e : exn) :
  (BaseProcessor.__init__ env file_path = Raise e →
   process_file env file_path lg
   = (lg ++ preamble env file_path
         ++ [(ERROR, u "Erro ao processar " ++ file_path ++ u ": "
                     ++ exn_msg e)],
      Ok []))
  ∧ (BaseProcessor.__init__ env file_path = Raise e
     ↔ stat env file_path = Raise e
       ∨ ∃ st, stat env file_path = Ok st
           ∧ (absolute env file_path = Raise e
              ∨ is_Some (result_value (absolute env file_path))
                ∧ (fromtimestamp env (st_ctime st) = Raise e
                   ∨ is_Some (result_value (fromtimestamp env (st_ctime st)))
                     ∧ (fromtimestamp env (st_mtime st) = Raise e
                        ∨ is_Some (result_value
                                     (fromtimestamp env (st_mtime st)))
                          ∧ open_rb env file_path = Raise e)))).
Proof.
  split.
  - intros Hfail. rewrite process_file_run.
    unfold construct_and_process. rewrite Hfail. run.
    by rewrite <- app_assoc.
  - rewrite init_run.
    destruct (stat env file_path) as [st|e0].
    2:{ split; [by intros [= ->]; left|].
        by intros [[= ->]|(st & [=] & _)]. }
    split.
    + intros Hfail. right. exists st. split; [done|].
      destruct (absolute env file_path) as [a|e1]; [|left; congruence].
      right. split; [by eexists|].
      destruct (fromtimestamp env (st_ctime st)) as [c|e1];
        [|left; congruence].
      right. split; [by eexists|].
      destruct (fromtimestamp env (st_mtime st)) as [m|e1];
        [|left; congruence].
      right. split; [by eexists|].
      destruct (open_rb env file_path); [done|congruence].
    + intros [[=]|(st' & [= <-] & Hrest)].
      destruct Hrest as [->|[[a Ha] Hrest]]; [done|].
      destruct (absolute env file_path); [|done].
      destruct Hrest as [->|[[c Hc] Hrest]]; [done|].
      destruct (fromtimestamp env (st_ctime st)); [|done].
      destruct Hrest as [->|[[m Hm] ->]]; [done|].
      by destruct (fromtimestamp env (st_mtime st)).
Qed.

Lemma process_file_ok (file_path : str) (lg : Log) :
  ∃ lg' es, process_file env file_path lg = (lg', Ok es).
Proof.
  rewrite process_file_run.
  destruct (construct_and_process _ _ _ _) as [lg2 [es|e]]; by eexists _, _.
Qed.
End process_file_text.

(** ** [process_directory] *)

Section process_directory.
Context (fs : Dir) (env : Env).
Import UniversalDocumentProcessor.

Lemma visit_run (file_path : str)
    (all_entries : list KnowledgeBaseEntry.t) (lg : Log) :
  visit fs env all_entries file_path lg
  = match is_file fs file_path with
    | Raise e => (lg, Raise e)
    | Ok false => (lg, Ok all_entries)
    | Ok true =>
        match process_file env file_path lg with
        | (lg1, Ok entries) => (lg1, Ok (all_entries ++ entries))
        | (lg1, Raise e) => (lg1, Raise e)
        end
    end.
Proof.
  unfold visit, mbind, M_bind, lift, mret, M_ret.
  by destruct (is_file fs file_path) as [[]|e].
Qed.

Lemma directory_loop_step (file_path : str) (paths : list str)
    (all_entries : list KnowledgeBaseEntry.t) (lg : Log) :
  fold_m (visit fs env) (file_path :: paths) all_entries lg
  = match is_file fs file_path with
    | Raise e => (lg, Raise e)
    | Ok false => fold_m (visit fs env) paths all_entries lg
    | Ok true =>
        match process_file env file_path lg with
        | (lg1, Ok entries) =>
            fold_m (visit fs env) paths (all_entries ++ entries) lg1
        | (lg1, Raise e) => (lg1, Raise e)
        end
    end.
Proof.
  cbn [fold_m]. unfold mbind at 1, M_bind at 1. rewrite visit_run.
  destruct (is_file fs file_path) as [[]|e]; try done.
  by destruct (process_file env file_path lg) as [lg1 [es|e]].
Qed.

Lemma directory_loop_spec (paths : list str)
    (all_entries : list KnowledgeBaseEntry.t) (lg : Log) :
  ∃ lg',
    match regular_files fs paths with
    | Raise e => fold_m (visit fs env) paths all_entries lg = (lg', Raise e)
    | Ok files =>
        ∃ ess,
          fold_m (visit fs env) paths all_entries lg
          = (lg', Ok (all_entries ++ concat ess))
          ∧ Forall2 (λ file_path es,
                       ∃ lg1 lg2, process_file env file_path lg1 = (lg2, Ok es))
                    files ess
    end.
Proof.
  revert all_entries lg.
  induction paths as [|p paths IH]; intros all_entries lg.
  - exists lg, []. cbn. rewrite app_nil_r. split; [done|]. constructor.
  - cbn [regular_files]. rewrite directory_loop_step.
    destruct (is_file fs p) as [[]|e].
    + destruct (process_file_ok env p lg) as (lg1 & es & Hrun).
      rewrite Hrun.
      destruct (IH (all_entries ++ es) lg1) as (lg' & Hrest).
      exists lg'. destruct (regular_files fs paths) as [files|e]; [|done].
      destruct Hrest as (ess & -> & Hall).
      exists (es :: ess). cbn [concat]. rewrite <- app_assoc.
      split; [done|]. constructor; [by exists lg, lg1|done].
    + destruct (IH all_entries lg) as (lg' & Hrest).
      exists lg'. by destruct (regular_files fs paths).
    + by exists lg.
Qed.

End process_directory.

(** ** The entries of one file *)

Section entries_of_a_file.
Context (env : Env).
Import UniversalDocumentProcessor.

Lemma entry_of_checksum me (e : KnowledgeBaseEntry.t) :
  KnowledgeBaseEntry.uuid e
  = DocumentMetadata.checksum (BaseProcessor.metadata me) →
  KnowledgeBaseEntry.source e = BaseProcessor.file_name me →
  KnowledgeBaseEntry.created_by e = u "auto_import" →
  entry_of me e.
Proof.
  intros Hu Hs Hc. split_and!; [|done..]. exists []. by rewrite app_nil_r.
Qed.

Lemma text_entries (st : PS) :
  Forall (entry_of (self st)) (returned (TextProcessor.process env st))
  ∧ NoDup (map KnowledgeBaseEntry.uuid
             (returned (TextProcessor.process env st))).
Proof.
  unfold TextProcessor.process. run.
  destruct (TextProcessor.read_content env _) as [st1 [content|e]] eqn:Hread;
    pose proof (read_content_frame env _ _ _ Hread)
      as (Hent & _ & Hname & Hsum);
    cbn [self entries log] in Hent, Hname, Hsum; run; rewrite Hent;
    unfold returned; cbn [snd app].
  - split; [|apply NoDup_singleton]. constructor; [|constructor].
    split_and!; [|done..]. exists []. cbn. by rewrite app_nil_r.
  - split; constructor.
Qed.

Lemma with_pdfplumber_entries (s s' : PS) :
  PDFProcessor.with_pdfplumber env s = (s', Ok ()) →
  ∃ entry tables,
    s' = mkPS (self s) (entries s ++ entry :: table_entries (self s) tables)
           (log s)
    ∧ KnowledgeBaseEntry.uuid entry
      = DocumentMetadata.checksum (BaseProcessor.metadata (self s))
    ∧ entry_of (self s) entry.
Proof.
  unfold PDFProcessor.with_pdfplumber. run.
  destruct (PDF_open env _) as [pages|e0]; [|done].
  destruct (fold_m PDFProcessor.plumber_page (enumerate pages) ([], []) s)
    as [s1 [[all_text tables]|e1]] eqn:Hfold;
    apply fold_plumber_frame in Hfold as ->; [|done].
  rewrite for_each_append_opt. cbn [self entries log].
  intros [= <-]. eexists _, tables. rewrite <- app_assoc.
  split; [reflexivity|]. split; [done|]. by apply entry_of_checksum.
Qed.

Lemma with_PyPDF2_entries (e : exn) (s s' : PS) :
  PDFProcessor.with_PyPDF2 env e s = (s', Ok ()) →
  ∃ entry,
    entries s' = entries s ++ [entry]
    ∧ KnowledgeBaseEntry.uuid entry
      = DocumentMetadata.checksum (BaseProcessor.metadata (self s))
    ∧ entry_of (self s) entry.
Proof.
  unfold PDFProcessor.with_PyPDF2. run.
  destruct (open_rb env _) as [data|e0]; [|done].
  destruct (PdfReader env data) as [pages|e0]; [|done].
  destruct (fold_m PDFProcessor.pypdf2_page (enumerate pages) [] _)
    as [s1 [all_text|e1]] eqn:Hfold;
    apply fold_pypdf2_frame in Hfold as ->; [|done].
  cbn [self entries log]. intros [= <-]. eexists.
  split; [reflexivity|]. split; [done|]. by apply entry_of_checksum.
Qed.

Lemma pdf_entries (st : PS) :
  Forall (entry_of (self st)) (returned (PDFProcessor.process env st))
  ∧ NoDup (map KnowledgeBaseEntry.uuid
             (returned (PDFProcessor.process env st))).
Proof.
  unfold PDFProcessor.process. run.
  destruct (PyPDF2_installed env); run; [|split; constructor].
  destruct (pdfplumber_installed env); run; [|split; constructor].
  destruct (PDFProcessor.with_pdfplumber env _) as [s1 [[]|e]] eqn:Hplumber.
  - apply with_pdfplumber_entries in Hplumber
      as (entry & tables & -> & Huuid & Hentry).
    unfold returned. cbn [self entries log snd app] in *. split.
    + constructor; [done|apply table_entries_of].
    + by apply document_and_tables_distinct.
  - apply with_pdfplumber_raise in Hplumber as ->.
    destruct (PDFProcessor.with_PyPDF2 env e _) as [s2 [[]|e2]] eqn:Hfallback.
    + apply with_PyPDF2_entries in Hfallback as (entry & Hs2 & _ & Hentry).
      unfold returned. cbn [self entries log snd app] in *. rewrite Hs2.
      split; [|apply NoDup_singleton]. constructor; [done|constructor].
    + apply with_PyPDF2_raise in Hfallback.
      unfold returned. cbn [self entries log snd] in *. rewrite Hfallback.
      split; constructor.
Qed.

Lemma word_entries (st : PS) :
  Forall (entry_of (self st)) (returned (WordProcessor.process env st))
  ∧ NoDup (map KnowledgeBaseEntry.uuid
             (returned (WordProcessor.process env st))).
Proof.
  unfold WordProcessor.process. run.
  destruct (docx_installed env); run; [|split; constructor].
  destruct (Document env _) as [doc|e]; run; unfold returned; cbn [snd app];
    [|split; constructor].
  split; [|apply NoDup_singleton]. constructor; [|constructor].
  by apply entry_of_checksum.
Qed.

Lemma image_entries_of (st : PS) :
  Forall (entry_of (self st)) (returned (ImageProcessor.process env st))
  ∧ NoDup (map KnowledgeBaseEntry.uuid
             (returned (ImageProcessor.process env st))).
Proof.
  unfold ImageProcessor.process. run.
  destruct (PIL_installed env); run; [|split; constructor].
  destruct (pytesseract_installed env); run; [|split; constructor].
  destruct (Image_open env _) as [img|e]; run; [|split; constructor].
  destruct (image_to_string env img) as [text|e]; run; [|split; constructor].
  destruct (truthy (strip text)); run; unfold returned; cbn [snd app map].
  - split.
    + constructor; [|constructor; [|constructor]].
      * split_and!; [|done..]. by eexists.
      * by apply entry_of_checksum.
    + apply NoDup_cons. split; [|apply NoDup_singleton].
      rewrite list_elem_of_singleton. cbn. intros Heq.
      rewrite <- (app_nil_r (DocumentMetadata.checksum _)) in Heq at 2.
      by apply app_inv_head in Heq.
  - split; [|apply NoDup_singleton]. constructor; [|constructor].
    by apply entry_of_checksum.
Qed.

Lemma excel_entries (st : PS) : returned (ExcelProcessor.process env st) = [].
Proof.
  unfold ExcelProcessor.process, ExcelProcessor.process_in. run.
  destruct (pandas_installed env); run; [|done].
  destruct (pd.read_excel env _) as [sheets|e]; [|done].
  destruct (for_each sheets _ _) as [s1 r1] eqn:Hloop.
  assert (entries s1 = []) as Hs1.
  { revert Hloop. apply (for_each_inv (λ s, entries s = [])); [|done].
    intros sheet s s' r _. apply sheet_body_no_entries. }
  destruct r1 as [[]|e]; unfold returned; cbn [self entries log snd];
    by rewrite Hs1.
Qed.

Lemma processor_entries (doc_type : DocumentType) (st : PS) :
  let cls := default TextProcessor.process (processors doc_type) in
  Forall (entry_of (self st)) (returned (cls env st))
  ∧ NoDup (map KnowledgeBaseEntry.uuid (returned (cls env st))).
Proof.
  destruct doc_type; cbn [processors default from_option id];
    first [apply text_entries | apply pdf_entries | apply word_entries
          | apply image_entries_of | idtac].
  rewrite excel_entries. split; constructor.
Qed.

(** X19.  Whatever the file and the environment, the entries [process_file]
    returns for it have pairwise different [uuid]s, each of which begins
    with the digest of the file's bytes; every entry names the last
    component of the path as its source and is marked as imported
    automatically. *)
Theorem process_file_entries (file_path : str) (lg : Log) :
  let es := returned (process_file env file_path lg) in
  NoDup (map KnowledgeBaseEntry.uuid es)
  ∧ Forall (λ e,
              (∃ data rest,
                  open_rb env file_path = Ok data
                  ∧ KnowledgeBaseEntry.uuid e
                    = sha256_hexdigest env data ++ rest)
              ∧ KnowledgeBaseEntry.source e = Path.name file_path
              ∧ KnowledgeBaseEntry.created_by e = u "auto_import")
           es.
Proof.
  intros es. subst es. rewrite process_file_run.
  unfold construct_and_process. rewrite init_run.
  destruct (stat env file_path) as [st|e]; run;
    [|unfold returned; cbn [snd]; split; constructor].
  destruct (absolute env file_path) as [absolute_path|e]; run;
    [|unfold returned; cbn [snd]; split; constructor].
  destruct (fromtimestamp env (st_ctime st)) as [created_date|e]; run;
    [|unfold returned; cbn [snd]; split; constructor].
  destruct (fromtimestamp env (st_mtime st)) as [modified_date|e]; run;
    [|unfold returned; cbn [snd]; split; constructor].
  destruct (open_rb env file_path) as [data|e] eqn:Hopen; run;
    [|unfold returned; cbn [snd]; split; constructor].
  unfold call_process.
  set (me := BaseProcessor.mk _ _ _).
  set (st0 := mkPS me [] (lg ++ preamble env file_path)).
  destruct (processor_entries (DocumentTypeDetector.detect env file_path) st0)
    as [Hall Hdistinct].
  cbv zeta in Hall, Hdistinct. unfold returned in *.
  destruct (default TextProcessor.process
              (processors (DocumentTypeDetector.detect env file_path)) env st0)
    as [s1 [es|e]]; cbn [fst snd] in *; [|split; constructor].
  split; [done|]. eapply Forall_impl; [exact Hall|].
  intros e ([rest Hrest] & Hsrc & Hby). split_and!; [|done..].
  by exists data, rest.
Qed.
End entries_of_a_file.

(** ** The suffix of a path *)

Section suffix.
Implicit Types dir stem ext nm cur s : str.

Lemma startswith_one (c d : N) s :
  startswith (c :: s) [d] = bool_decide (d = c).
Proof.
  cbn [startswith]. destruct s; rewrite andb_true_r;
    by destruct (N.eqb_spec d c); [rewrite bool_decide_true|rewrite bool_decide_false].
Qed.

Lemma split_go_no_sep (c : N) cur nm :
  c ∉ nm → split_go [c] 0 cur nm = [rev cur ++ nm].
Proof.
  revert cur. induction nm as [|x nm IH]; intros cur Hnm; cbn [split_go].
  - by rewrite app_nil_r.
  - apply not_elem_of_cons in Hnm as [Hx Hnm].
    rewrite startswith_one, bool_decide_false by done.
    rewrite IH by done. cbn [rev]. by rewrite <- app_assoc.
Qed.

Lemma split_go_last (c : N) cur s nm :
  c ∉ nm → ∃ parts, split_go [c] 0 cur (s ++ c :: nm) = parts ++ [nm].
Proof.
  intros Hnm. revert cur. induction s as [|x s IH]; intros cur.
  - cbn [app split_go]. rewrite startswith_one, bool_decide_true by done.
    cbn [length Nat.sub]. rewrite split_go_no_sep by done.
    by exists [rev cur].
  - cbn [app split_go]. rewrite startswith_one. case_bool_decide.
    + cbn [length Nat.sub]. destruct (IH []) as [parts ->].
      by exists (rev cur :: parts).
    + apply IH.
Qed.

Lemma name_of_path dir nm :
  47%N ∉ nm → nm ≠ [] → nm ≠ u "." →
  Path.name (dir ++ u "/" ++ nm) = nm.
Proof.
  intros Hslash Hne Hdot. unfold Path.name, split.
  destruct (split_go_last 47%N [] dir nm Hslash) as [parts Hparts].
  change (u "/") with [47%N]. cbn [app]. rewrite Hparts.
  rewrite filter_app, filter_cons, decide_True by done.
  rewrite filter_nil, last_snoc. done.
Qed.

Lemma enumerate_app {A} (l k : list A) :
  enumerate (l ++ k)
  = enumerate l ++ map (λ p, (len l + p.1, p.2)) (enumerate k).
Proof.
  apply list_eq. intros i. rewrite enumerate_lookup.
  destruct (decide (i < length l)%nat) as [Hi|Hi].
  - rewrite !lookup_app_l by (by rewrite ?length_enumerate).
    by rewrite enumerate_lookup.
  - rewrite !lookup_app_r by (rewrite ?length_enumerate; lia).
    rewrite list_lookup_fmap, enumerate_lookup, length_enumerate.
    destruct (k !! (i - length l)%nat); [|done]. cbn. unfold len.
    do 2 f_equal. lia.
Qed.

Lemma filter_none {A} (P : A → Prop) `{∀ x, Decision (P x)} (l : list A) :
  Forall (λ x, ¬ P x) l → filter P l = [].
Proof.
  induction 1 as [|x l Hx _ IH]; [done|].
  by rewrite filter_cons, decide_False.
Qed.

Lemma rfind_last (c : N) stem ext :
  c ∉ ext → Path.rfind (stem ++ c :: ext) c = len stem.
Proof.
  intros Hext. unfold Path.rfind.
  rewrite enumerate_app, filter_app.
  assert (filter (λ p : Z * N, p.2 = c)
            (map (λ p, (len stem + p.1, p.2)) (enumerate (c :: ext)))
          = [(len stem, c)]) as ->.
  { change (c :: ext) with ([c] ++ ext). rewrite enumerate_app.
    rewrite map_app, filter_app. cbn [enumerate imap map fst snd].
    rewrite filter_cons, decide_True by done. rewrite filter_nil.
    rewrite Z.add_0_r. cbn [app]. f_equal.
    apply filter_none. apply Forall_forall. intros [i x] Hin.
    apply list_elem_of_fmap in Hin as ([j y] & [= -> ->] & Hin).
    apply list_elem_of_fmap in Hin as ([j' y'] & [= -> ->] & Hin).
    apply list_elem_of_lookup in Hin as [k Hk].
    rewrite enumerate_lookup in Hk.
    destruct (ext !! k) as [z|] eqn:Hz; [|done]. injection Hk as _ <-.
    cbn. intros ->. apply Hext. by eapply list_elem_of_lookup_2. }
  by rewrite last_snoc.
Qed.

(** X20.  The suffix [detect] looks up is the part of the last component
    from its last dot on, whatever directories lead to the file and whatever
    dots come before: for a component [stem.ext], with neither part empty
    and no dot in [ext], the suffix is [.ext], and the category is the one
    the table gives for [.ext] lowercased ([UNKNOWN] when it gives none). *)
Theorem detect_by_last_suffix (env : Env) dir stem ext :
  47%N ∉ stem → 47%N ∉ ext → 46%N ∉ ext → stem ≠ [] → ext ≠ [] →
  let file_path := dir ++ u "/" ++ stem ++ u "." ++ ext in
  Path.name file_path = stem ++ u "." ++ ext
  ∧ Path.suffix file_path = u "." ++ ext
  ∧ DocumentTypeDetector.detect env file_path
    = default UNKNOWN
        (DocumentTypeDetector.EXTENSION_MAP !! lower env (u "." ++ ext)).
Proof.
  intros Hs1 Hs2 Hdot Hstem Hext file_path.
  assert (Path.name file_path = stem ++ u "." ++ ext) as Hname.
  { apply name_of_path.
    - rewrite !elem_of_app. change (u ".") with [46%N].
      rewrite list_elem_of_singleton. intros [?|[?|?]]; done.
    - by destruct stem.
    - change (u ".") with [46%N]. intros Heq.
      apply (f_equal length) in Heq. rewrite !length_app in Heq.
      destruct stem, ext; cbn in Heq; try done; lia. }
  assert (Path.suffix file_path = u "." ++ ext) as Hsuffix.
  { unfold Path.suffix. rewrite Hname. change (u ".") with [46%N].
    cbn [app]. rewrite rfind_last by done.
    rewrite bool_decide_true.
    - unfold len. rewrite Nat2Z.id. by rewrite drop_app_length.
    - rewrite len_app. unfold len. cbn [length].
      destruct stem; [done|]. destruct ext; [done|]. cbn [length]. lia. }
  split_and!; [done..|].
  unfold DocumentTypeDetector.detect. by rewrite Hsuffix.
Qed.
End suffix.

(** ** The tags of PDF, Word and spreadsheet contents *)

Section tags.
Context (env : Env).

(** X21.  The tags of the three document processors hold nothing twice.
    A PDF is tagged [pdf] and [documento], and with each of five words
    that occurs in its lowercased content; a Word document is tagged
    [word] and [documento], and with each of four kinds one of whose
    keywords occurs in its lowercased content; a spreadsheet content is
    tagged with the lowercased form of each of nine system names whose
    lowercased form occurs in its lowercased content. *)
Theorem document_tags_spec (content : str) :
  (NoDup (PDFProcessor._extract_pdf_tags env content)
   ∧ ∀ tag, tag ∈ PDFProcessor._extract_pdf_tags env content
       ↔ tag ∈ [u "pdf"; u "documento"]
         ∨ tag ∈ [u "manual"; u "guide"; u "tutorial"; u "specification";
                  u "documentation"]
           ∧ contains (lower env content) tag = true)
  ∧ (NoDup (WordProcessor._extract_word_tags env content)
     ∧ ∀ tag, tag ∈ WordProcessor._extract_word_tags env content
         ↔ tag ∈ [u "word"; u "documento"]
           ∨ ∃ keywords,
               (tag, keywords)
               ∈ [(u "manual", [u "manual"; u "instruções"; u "instructions"]);
                  (u "relatório", [u "relatório"; u "report"; u "análise"]);
                  (u "procedimento",
                   [u "procedimento"; u "procedure"; u "processo"]);
                  (u "política", [u "política"; u "policy"; u "norma"])]
               ∧ existsb (contains (lower env content)) keywords = true)
  ∧ (NoDup (ExcelProcessor._extract_tags env content)
     ∧ ∀ tag, tag ∈ ExcelProcessor._extract_tags env content
         ↔ ∃ keyword,
             keyword ∈ [u "CICS"; u "DB2"; u "IMS"; u "COBOL"; u "JCL";
                        u "VSAM"; u "Mainframe"; u "Batch"; u "Online"]
             ∧ tag = lower env keyword
             ∧ contains (lower env content) (lower env keyword) = true).
Proof.
  split_and!.
  - apply NoDup_remove_dups.
  - intros tag. unfold PDFProcessor._extract_pdf_tags, list_set. cbv zeta.
    rewrite elem_of_remove_dups, elem_of_app, list_elem_of_filter.
    tauto.
  - apply NoDup_remove_dups.
  - intros tag. unfold WordProcessor._extract_word_tags, list_set. cbv zeta.
    rewrite elem_of_remove_dups, elem_of_app, list_elem_of_fmap.
    split; (intros [Hbase|Hkind]; [by left|right]).
    + destruct Hkind as ([tag' keywords] & -> & Hin).
      apply list_elem_of_filter in Hin as [Hfound Hin]. by exists keywords.
    + destruct Hkind as (keywords & Hin & Hfound).
      exists (tag, keywords). split; [done|].
      by apply list_elem_of_filter.
  - apply NoDup_remove_dups.
  - intros tag. unfold ExcelProcessor._extract_tags, list_set. cbv zeta.
    rewrite elem_of_remove_dups, list_elem_of_fmap.
    split; intros (keyword & H1 & H2).
    + apply list_elem_of_filter in H2 as [Hfound Hin]. by exists keyword.
    + destruct H2 as [-> Hfound]. exists keyword. split; [done|].
      by apply list_elem_of_filter.
Qed.
End tags.

(** ** The entry of a sheet *)

Section sheet_entry.
Context (env : Env) (self : BaseProcessor.t).
Import ExcelProcessor.

Lemma join_labels_strings (labels : list Label) (acc : list str) :
  Forall (λ col, ∃ s, col = LStr s) labels →
  fold_r (λ acc col,
            match col with
            | LStr s => Ok (acc ++ [s])
            | LObj _ =>
                Raise (Exn TypeError (u "sequence item: expected str instance"))
            end) labels acc
  = Ok (acc ++ map pd.label_str labels).
Proof.
  intros Hall. revert acc.
  induction Hall as [|col labels [s ->] _ IH]; intros acc;
    cbn [fold_r map mbind result_bind].
  - by rewrite app_nil_r.
  - rewrite IH. cbn [pd.label_str]. by rewrite <- app_assoc.
Qed.

Lemma join_labels_object (labels : list Label) (acc : list str) :
  Exists (λ col, ∃ rendering, col = LObj rendering) labels →
  ∃ e, fold_r (λ acc col,
            match col with
            | LStr s => Ok (acc ++ [s])
            | LObj _ =>
                Raise (Exn TypeError (u "sequence item: expected str instance"))
            end) labels acc
       = Raise e
       ∧ exn_cls e = TypeError.
Proof.
  intros Hex. revert acc.
  induction labels as [|col labels IH]; intros acc; [by inversion Hex|].
  cbn [fold_r mbind result_bind]. destruct col as [s|rendering]; [|by eexists].
  apply IH. inversion Hex as [? ? [r Hr]|]; [done|done].
Qed.

(** X22.  [_create_entry_from_sheet] returns [None] for an empty frame.
    For a frame with rows and columns whose first ten column labels are
    strings it returns an entry of type [excel_sheet], with confidence
    0.9, no chunks, the sheet name among its tags and in its [uuid], and
    the numbers of rows and columns as metadata.  When one of the first
    ten labels is not a string (a numeric header), joining the labels
    raises [TypeError]. *)
Theorem create_entry_from_sheet_spec (df : DataFrame) (sheet_name : str) :
  let r := _create_entry_from_sheet env self df sheet_name in
  let labels := take 10 (df_columns df) in
  if pd.empty df then r = Ok None
  else
    (Forall (λ col, ∃ s, col = LStr s) labels →
     ∃ entry,
       r = Ok (Some entry)
       ∧ KnowledgeBaseEntry.uuid entry
         = DocumentMetadata.checksum (BaseProcessor.metadata self)
           ++ u "_" ++ sheet_name ++ u "_sheet"
       ∧ KnowledgeBaseEntry.document_type entry = u "excel_sheet"
       ∧ KnowledgeBaseEntry.confidence_score entry = 0.9%Q
       ∧ KnowledgeBaseEntry.chunks entry = []
       ∧ KnowledgeBaseEntry.tags entry = [sheet_name; u "excel"; u "tabela"]
       ∧ KnowledgeBaseEntry.metadata entry !! "total_rows"%string
         = Some (VInt (len (df_rows df)))
       ∧ KnowledgeBaseEntry.metadata entry !! "total_cols"%string
         = Some (VInt (len (df_columns df))))
    ∧ (Exists (λ col, ∃ rendering, col = LObj rendering) labels →
       ∃ e, r = Raise e ∧ exn_cls e = TypeError).
Proof.
  intros r labels. subst r. unfold _create_entry_from_sheet.
  destruct (pd.empty df); [done|]. fold labels. unfold join_labels. split.
  - intros Hall. rewrite (join_labels_strings labels [] Hall).
    cbn [mbind result_bind]. eexists. split; [reflexivity|]. by split_and!.
  - intros Hex. destruct (join_labels_object labels [] Hex) as (e & -> & He).
    cbn [mbind result_bind]. by exists e.
Qed.
End sheet_entry.

(** ** The further properties on the examples *)

Section more_examples.
Import Example.

(** A content of two characters, under the budget [process] uses. *)
Lemma create_text_chunks_single_witness :
  TextProcessor._create_text_chunks (self (start text_env "latin.txt"))
    (u "ab") 5000
  = [TextProcessor.new_chunk (self (start text_env "latin.txt"))
       (u "ab" ++ [NL; NL]) 0 1].
Proof.
  apply (create_text_chunks_single (self (start text_env "latin.txt")) 5000
           (u "ab")).
  reflexivity.
Defined.

(** The file of the single byte E9 is read as latin-1. *)
Lemma read_content_utf8_or_latin1_witness :
  ∃ enc s,
    TextProcessor.read_content text_env (start text_env "latin.txt")
    = (encoded enc (start text_env "latin.txt"), Ok (universal_newlines s))
    ∧ decode text_env enc [xe9] = Some s
    ∧ (enc = "utf-8"%string
       ∨ enc = "latin-1"%string ∧ decode text_env "utf-8" [xe9] = None).
Proof.
  apply (read_content_utf8_or_latin1 text_env (start text_env "latin.txt")
           [xe9]).
  - intros d. by eexists.
  - reflexivity.
Defined.

(** The file of zero bytes. *)
Lemma text_process_empty_file_witness :
  ∃ entry st',
    TextProcessor.process empty_file_env (start empty_file_env "empty.txt")
    = (st', Ok [entry])
    ∧ KnowledgeBaseEntry.content entry = []
    ∧ KnowledgeBaseEntry.summary entry = []
    ∧ KnowledgeBaseEntry.chunks entry = []
    ∧ KnowledgeBaseEntry.metadata entry !! "characters"%string
      = Some (VInt 0)
    ∧ KnowledgeBaseEntry.metadata entry !! "lines"%string = Some (VInt 1)
    ∧ KnowledgeBaseEntry.metadata entry !! "encoding"%string
      = Some (VStr (u "utf-8")).
Proof.
  apply (text_process_empty_file empty_file_env
           (start empty_file_env "empty.txt")); reflexivity.
Defined.

(** A PDF on a machine without the libraries. *)
Lemma missing_library_no_entries_witness :
  PDFProcessor.process (without_libraries text_env) (start text_env "doc.pdf")
  = (mkPS (self (start text_env "doc.pdf")) []
       (log (start text_env "doc.pdf")
        ++ [(ERROR, u "Erro ao processar PDF "
                    ++ BaseProcessor.file_name (self (start text_env "doc.pdf"))
                    ++ u ": " ++ u "No module named '" ++ u "PyPDF2"
                    ++ u "'")]),
     Ok []).
Proof.
  exact (proj1 (missing_library_no_entries (without_libraries text_env)
                  (start text_env "doc.pdf")) eq_refl).
Defined.

(** Three pages, with one table of two rows on the second. *)
Lemma pdf_table_entries_witness :
  let env := pdf_env (Ok three_pages) unreadable in
  let st := start env "doc.pdf" in
  let tables :=
    concat [[]; [[[Some (u "a"); Some (u "b")]; [Some (u "c"); Some (u "d")]]];
            []] in
  ∃ entry st',
    PDFProcessor.process env st
    = (st', Ok (entry :: table_entries (self st) tables))
    ∧ KnowledgeBaseEntry.uuid entry
      = DocumentMetadata.checksum (BaseProcessor.metadata (self st))
    ∧ KnowledgeBaseEntry.metadata entry !! "pages"%string
      = Some (VInt (len three_pages))
    ∧ KnowledgeBaseEntry.metadata entry !! "has_tables"%string
      = Some (VBool (bool_decide (len tables > 0)))
    ∧ length (table_entries (self st) tables)
      = length (filter (λ table, (2 <=? len table) = true) tables)
    ∧ Forall (λ e, KnowledgeBaseEntry.document_type e = u "pdf_table"
                   ∧ KnowledgeBaseEntry.confidence_score e = 0.8%Q
                   ∧ KnowledgeBaseEntry.chunks e = [])
             (table_entries (self st) tables)
    ∧ NoDup (map KnowledgeBaseEntry.uuid
               (entry :: table_entries (self st) tables)).
Proof.
  apply (pdf_table_entries (pdf_env (Ok three_pages) unreadable)
           (start (pdf_env (Ok three_pages) unreadable) "doc.pdf") three_pages
           [Some (u "one"); Some (u "two"); Some (u "three")]
           [[]; [[[Some (u "a"); Some (u "b")]; [Some (u "c"); Some (u "d")]]]; []]);
    reflexivity.
Defined.

(** A title line after a line of text: the second section is the
    title. *)
Lemma split_sections_headings_witness :
  Forall (λ section, length (take 3 section) = 3%nat
                     ∧ forallb (WordProcessor.heading_char text_env)
                         (take 3 section) = true)
         (tail (WordProcessor.split_sections text_env []
                  (u "intro" ++ [NL] ++ u "CHAPTER 1"))).
Proof.
  apply (split_sections_headings text_env
           (u "intro" ++ [NL] ++ u "CHAPTER 1")).
  reflexivity.
Defined.

(** The latin-1 file, from the path to the entry. *)
Lemma process_file_text_witness :
  ∃ entry,
    UniversalDocumentProcessor.process_file text_env (u "latin.txt") []
    = ([] ++ preamble text_env (u "latin.txt")
          ++ [(INFO, u "Extraídas 1 entradas de " ++ u "latin.txt")],
       Ok [entry])
    ∧ KnowledgeBaseEntry.uuid entry = sha256_hexdigest text_env [xe9]
    ∧ KnowledgeBaseEntry.source entry = Path.name (u "latin.txt")
    ∧ KnowledgeBaseEntry.content entry
      = match first_decodable text_env [xe9] TextProcessor.encodings with
        | Some (_, s) => universal_newlines s
        | None => decode_ignore text_env [xe9]
        end.
Proof.
  apply (process_file_text text_env (u "latin.txt") []
           {| st_size := 1; st_ctime := 0; st_mtime := 0 |} [xe9]).
  - by vm_compute; left.
  - reflexivity.
  - eexists. reflexivity.
  - eexists. reflexivity.
  - eexists. reflexivity.
  - reflexivity.
Defined.

(** A path that does not exist, and a file that exists and can be
    read but was modified, by its status, in the year 33658. *)
Lemma process_file_unreadable_witness :
  UniversalDocumentProcessor.process_file text_env (u "missing.txt") []
  = ([] ++ preamble text_env (u "missing.txt")
        ++ [(ERROR, u "Erro ao processar " ++ u "missing.txt" ++ u ": "
                    ++ exn_msg (Exn OSError (u "No such file or directory")))],
     Ok [])
  ∧ UniversalDocumentProcessor.process_file
      (with_times 0 1000000000000 text_env) (u "latin.txt") []
    = ([] ++ preamble (with_times 0 1000000000000 text_env) (u "latin.txt")
          ++ [(ERROR, u "Erro ao processar " ++ u "latin.txt" ++ u ": "
                      ++ exn_msg (Exn ValueError (u "year is out of range")))],
       Ok []).
Proof.
  split.
  - apply (proj1 (process_file_unreadable text_env (u "missing.txt") []
                    (Exn OSError (u "No such file or directory")))).
    reflexivity.
  - apply (proj1 (process_file_unreadable
                    (with_times 0 1000000000000 text_env) (u "latin.txt") []
                    (Exn ValueError (u "year is out of range")))).
    reflexivity.
Defined.

(** A report in a directory, with dots in its stem and capitals in its
    extension. *)
Lemma detect_by_last_suffix_witness :
  let file_path := u "dir.d" ++ u "/" ++ u "report.v2" ++ u "." ++ u "PDF" in
  Path.name file_path = u "report.v2" ++ u "." ++ u "PDF"
  ∧ Path.suffix file_path = u "." ++ u "PDF"
  ∧ DocumentTypeDetector.detect text_env file_path
    = default UNKNOWN
        (DocumentTypeDetector.EXTENSION_MAP
           !! lower text_env (u "." ++ u "PDF")).
Proof.
  apply (detect_by_last_suffix text_env (u "dir.d") (u "report.v2") (u "PDF"));
    compute_done.
Defined.

(** The memo: two paragraphs count, and the blank table leaves no
    trace in the content. *)
Lemma word_process_entry_witness :
  let env := memo_env in
  let st := start env "memo.docx" in
  let paragraphs :=
    filter (λ text, truthy (strip text) = true) (doc_paragraphs memo) in
  ∃ entry tables_part,
    WordProcessor.process env st = (mkPS (self st) [entry] (log st), Ok [entry])
    ∧ KnowledgeBaseEntry.uuid entry
      = DocumentMetadata.checksum (BaseProcessor.metadata (self st))
    ∧ KnowledgeBaseEntry.confidence_score entry = 0.9%Q
    ∧ KnowledgeBaseEntry.document_type entry = u "word"
    ∧ KnowledgeBaseEntry.content entry
      = join [NL; NL] paragraphs ++ tables_part
    ∧ (blank_tables (doc_tables memo) → tables_part = [])
    ∧ KnowledgeBaseEntry.summary entry
      = take 1000 (KnowledgeBaseEntry.content entry)
    ∧ KnowledgeBaseEntry.chunks entry
      = WordProcessor._create_chunks_from_content env (self st)
          (KnowledgeBaseEntry.content entry)
    ∧ KnowledgeBaseEntry.metadata entry !! "paragraphs"%string
      = Some (VInt (len paragraphs))
    ∧ KnowledgeBaseEntry.metadata entry !! "tables"%string
      = Some (VInt (len (doc_tables memo))).
Proof.
  exact (word_process_entry memo_env (start memo_env "memo.docx") eq_refl).
Defined.

(** One long line. *)
Lemma create_text_chunks_unbroken_witness :
  TextProcessor._create_text_chunks (self (start text_env "big.txt"))
    (replicate 12 97%N) 5
  = [TextProcessor.new_chunk (self (start text_env "big.txt"))
       (replicate 12 97%N ++ [NL; NL]) 0 1].
Proof.
  apply (create_text_chunks_unbroken (self (start text_env "big.txt")) 5
           (replicate 12 97%N)).
  reflexivity.
Defined.
End more_examples.
